(** * LangVoice JavaScript SDK: a shallow embedding of the client, the request
    models and the four tool adapters, with the properties of the
    specification stated and settled over it.

    Layout: JavaScript values and the platform functions the code calls
    (numbers, strings, JSON values, base64, errors, [fetch], [fs]); then
    [models.ts], [exceptions.ts], [client.ts] and the adapters under
    [tools/]; then the theorems. *)

From Stdlib Require Import ZArith NArith QArith Qpower List String Ascii Bool Lia.
From Stdlib Require Import DecimalString DecimalN.
From Stdlib.Strings Require Import Byte.
Import ListNotations.
Local Open Scope string_scope.
Local Open Scope list_scope.
Local Open Scope Z_scope.
Set Warnings "-register-all".

(* ================================================================== *)
(** ** JavaScript numbers *)
(* ================================================================== *)

(** A JavaScript [number].  A finite value is kept as a decimal
    [m * 10^e], the digits [Number::toString] writes for it: the shortest
    decimal that rounds to the double.  Distinct doubles have distinct
    such decimals, in the same order, so the comparisons the code performs
    ([<], [>], [===]) are exact on them.  The two zeros are not told apart
    (nothing in the code does).  A number read from a text is rounded to
    the nearest double by [to_double] below. *)
Inductive jsnum : Type :=
| NaN
| PInf
| NInf
| Fin (m e : Z).

Definition num_of_Z (z : Z) : jsnum := Fin z 0.

(** Both mantissas brought to the smaller of the two exponents. *)
Definition align (m1 e1 m2 e2 : Z) : Z * Z :=
  let e := Z.min e1 e2 in
  (m1 * 10 ^ (e1 - e), m2 * 10 ^ (e2 - e)).

(** [x < y]: false as soon as one side is NaN. *)
Definition num_ltb (x y : jsnum) : bool :=
  match x, y with
  | NaN, _ | _, NaN => false
  | PInf, _ => false
  | NInf, NInf => false
  | NInf, _ => true
  | Fin _ _, PInf => true
  | Fin _ _, NInf => false
  | Fin m1 e1, Fin m2 e2 =>
      let '(a, b) := align m1 e1 m2 e2 in a <? b
  end.

(** [x > y] is [y < x]. *)
Definition num_gtb (x y : jsnum) : bool := num_ltb y x.

(** [x <= y]: false as soon as one side is NaN. *)
Definition num_leb (x y : jsnum) : bool :=
  match x, y with
  | NaN, _ | _, NaN => false
  | PInf, PInf => true
  | PInf, _ => false
  | NInf, _ => true
  | Fin _ _, PInf => true
  | Fin _ _, NInf => false
  | Fin m1 e1, Fin m2 e2 =>
      let '(a, b) := align m1 e1 m2 e2 in a <=? b
  end.

(** [x === y] on numbers. *)
Definition num_eqb (x y : jsnum) : bool :=
  match x, y with
  | PInf, PInf | NInf, NInf => true
  | Fin m1 e1, Fin m2 e2 =>
      let '(a, b) := align m1 e1 m2 e2 in a =? b
  | _, _ => false
  end.

(** [isNaN(x)] on a number. *)
Definition isNaN (x : jsnum) : bool :=
  match x with NaN => true | _ => false end.

(** A number is falsy when it is zero or NaN. *)
Definition num_truthy (x : jsnum) : bool :=
  match x with
  | NaN => false
  | Fin m _ => negb (m =? 0)
  | _ => true
  end.

(** The literals of the source. *)
Definition n0_5 : jsnum := Fin 5 (-1).
Definition n1_0 : jsnum := Fin 1 0.
Definition n2_0 : jsnum := Fin 2 0.
Definition n2_5 : jsnum := Fin 25 (-1).

(** The closed interval of admissible speeds, [0.5 <= s <= 2.0]. *)
Definition speed_in_range (s : jsnum) : Prop :=
  num_leb n0_5 s = true /\ num_leb s n2_0 = true.

(** Strip trailing zeros of the mantissa while the exponent is negative:
    [fuel] bounds the number of divisions. *)
Fixpoint strip_zeros (fuel : nat) (m e : Z) : Z * Z :=
  match fuel with
  | O => (m, e)
  | S k => if (e <? 0) && (m mod 10 =? 0)
           then strip_zeros k (m / 10) (e + 1)
           else (m, e)
  end.

(** The canonical decimal of a value: an integer has exponent zero, any
    other value has a negative exponent and a mantissa that is not a
    multiple of ten. *)
Definition normalize (m e : Z) : jsnum :=
  if m =? 0 then Fin 0 0
  else if 0 <=? e then Fin (m * 10 ^ e) 0
  else let '(m', e') := strip_zeros (Z.to_nat (- e)) m e in Fin m' e'.

(** [n / d < base ^ x] for positive [n] and [d] and an exponent of either
    sign. *)
Definition below_power (base n d x : Z) : bool :=
  if 0 <=? x then n <? d * base ^ x else n * base ^ (- x) <? d.

(** The first [x' >= x] with [n / d < base ^ (x' + 1)]: the integer part
    of the logarithm of [n / d] when [x] is not above it. *)
Fixpoint log_from (fuel : nat) (base n d x : Z) : Z :=
  match fuel with
  | O => x
  | S k => if below_power base n d (x + 1) then x
           else log_from k base n d (x + 1)
  end.

Definition ilog2 (n d : Z) : Z := log_from 4 2 n d (Z.log2 n - Z.log2 d - 1).

Definition ilog10 (n d : Z) : Z :=
  log_from 8 10 n d ((Z.log2 n - Z.log2 d) * 30103 / 100000 - 3).

(** [n / d] rounded to the nearest integer, a tie going to the even one. *)
Definition round_half_even (n d : Z) : Z :=
  let k := n / d in
  let r := n mod d in
  if (d <? 2 * r) || ((2 * r =? d) && Z.odd k) then k + 1 else k.

(** The double nearest to the positive rational [n / d] (IEEE 754
    binary64, round to nearest, ties to even), as [(k, q)] with value
    [k * 2^q]: [2^52 <= k < 2^53] and [-1074 <= q <= 971] for a normal
    number, [k < 2^52] and [q = -1074] for a subnormal one or zero; [None]
    when the rounding overflows to Infinity. *)
Definition nearest_double (n d : Z) : option (Z * Z) :=
  let q := Z.max (ilog2 n d - 52) (-1074) in
  let k := if 0 <=? q then round_half_even n (d * 2 ^ q)
           else round_half_even (n * 2 ^ (- q)) d in
  let '(k, q) := if k =? 2 ^ 53 then (2 ^ 52, q + 1) else (k, q) in
  if 971 <? q then None else Some (k, q).

(** [m * base ^ x] as a fraction. *)
Definition scaled (base m x : Z) : Z * Z :=
  if 0 <=? x then (m * base ^ x, 1) else (m, base ^ (- x)).

(** The decimal [s * 10^t] rounds to the double [(k, q)]. *)
Definition rounds_to (k q s t : Z) : bool :=
  let '(n, d) := scaled 10 s t in
  match nearest_double n d with
  | Some (k', q') => (k' =? k) && (q' =? q)
  | None => false
  end.

(** The digits of [Number::toString] for the double [(k, q)], whose value
    is [vn / vd] with decimal logarithm [g]: the least number of digits,
    from [digits] on, such that a decimal of that many digits rounds to
    the double, and of the two decimals next to the value the nearer one
    (the even one in a tie).  Seventeen digits always do. *)
Fixpoint shortest (fuel : nat) (k q vn vd g digits : Z) : Z * Z :=
  let t := g - digits + 1 in
  let '(n, d) := if 0 <=? t then (vn, vd * 10 ^ t) else (vn * 10 ^ (- t), vd) in
  let lo := n / d in
  let r := n mod d in
  let nearest := if (d <? 2 * r) || ((2 * r =? d) && Z.odd lo) then lo + 1 else lo in
  match fuel with
  | O => (nearest, t)
  | S f =>
      match rounds_to k q lo t, rounds_to k q (lo + 1) t with
      | true, true => (nearest, t)
      | true, false => (lo, t)
      | false, true => (lo + 1, t)
      | false, false => shortest f k q vn vd g (digits + 1)
      end
  end.

(** The number a decimal literal [m * 10^e] denotes: the nearest double,
    Infinity past the largest.  A literal of at most 15 significant digits
    with an exponent in the range below names a double of its own and is
    the shortest decimal that does, so it is kept as it is written. *)
Definition to_double (m e : Z) : jsnum :=
  if m =? 0 then Fin 0 0
  else if (Z.abs m <? 10 ^ 15) && (-300 <=? e) && (e <=? 290) then normalize m e
  else
    let '(n, d) := scaled 10 (Z.abs m) e in
    match nearest_double n d with
    | None => if m <? 0 then NInf else PInf
    | Some (k, q) =>
        if k =? 0 then Fin 0 0
        else
          let '(vn, vd) := scaled 2 k q in
          let '(s, t) := shortest 16 k q vn vd (ilog10 vn vd) 1 in
          normalize (if m <? 0 then - s else s) t
    end.

(* ================================================================== *)
(** ** JavaScript strings *)
(* ================================================================== *)

(** A JavaScript string is a [string]; one character stands for one UTF-16
    code unit, so [String.length] is the [.length] of the source. *)
Infix "^^" := String.append (right associativity, at level 60).

Definition str_eqb : string -> string -> bool := String.eqb.

Definition digit_val (c : ascii) : option Z :=
  let n := Z.of_nat (nat_of_ascii c) in
  if (48 <=? n) && (n <=? 57) then Some (n - 48) else None.

Definition is_digit (c : ascii) : bool :=
  match digit_val c with Some _ => true | None => false end.

(** The white space and line terminators below code unit 256: TAB, LF, VT,
    FF, CR, SP and NBSP. *)
Definition is_space (c : ascii) : bool :=
  let n := nat_of_ascii c in
  ((9 <=? n) && (n <=? 13) || (n =? 32) || (n =? 160))%nat.

Fixpoint skip_spaces (s : string) : string :=
  match s with
  | String c r => if is_space c then skip_spaces r else s
  | EmptyString => s
  end.

Fixpoint all_spaces (s : string) : bool :=
  match s with
  | String c r => is_space c && all_spaces r
  | EmptyString => true
  end.

(** The longest run of decimal digits at the head of [s]: their value read
    after the accumulator [acc], how many there are, and what follows. *)
Fixpoint read_digits (s : string) (acc : Z) (count : Z) : Z * Z * string :=
  match s with
  | String c r =>
      match digit_val c with
      | Some d => read_digits r (acc * 10 + d) (count + 1)
      | None => (acc, count, s)
      end
  | EmptyString => (acc, count, s)
  end.

(** An optional sign: [true] for a minus. *)
Definition read_sign (s : string) : bool * string :=
  match s with
  | String "-" r => (true, r)
  | String "+" r => (false, r)
  | _ => (false, s)
  end.

Definition apply_sign (neg : bool) (m : Z) : Z := if neg then - m else m.

(** [s.startsWith(p)], with the remainder. *)
Fixpoint strip_prefix (p s : string) : option string :=
  match p, s with
  | EmptyString, _ => Some s
  | String a p', String b s' =>
      if Ascii.eqb a b then strip_prefix p' s' else None
  | _, EmptyString => None
  end.

(** An exponent part [e|E (+|-)? digits] at the head of [s], when there is
    a complete one; otherwise exponent zero and [s] untouched. *)
Definition read_exponent (s : string) : Z * string :=
  match s with
  | String c r =>
      if Ascii.eqb c "e" || Ascii.eqb c "E" then
        let '(neg, r1) := read_sign r in
        let '(v, n, r2) := read_digits r1 0 0 in
        if n =? 0 then (0, s) else (apply_sign neg v, r2)
      else (0, s)
  | EmptyString => (0, s)
  end.

(** The longest prefix of [s] that is a [StrDecimalLiteral] of ECMAScript
    (sign, then [Infinity] or digits with an optional fraction and
    exponent): its value and the rest, or [None] when no prefix is one. *)
Definition read_decimal_literal (s : string) : option (jsnum * string) :=
  let '(neg, s1) := read_sign s in
  match strip_prefix "Infinity" s1 with
  | Some r => Some (if neg then NInf else PInf, r)
  | None =>
      let '(iv, ic, s2) := read_digits s1 0 0 in
      match s2 with
      | String "." s3 =>
          let '(fv, fc, s4) := read_digits s3 iv 0 in
          if (ic =? 0) && (fc =? 0) then None
          else let '(ex, s5) := read_exponent s4 in
               Some (to_double (apply_sign neg fv) (ex - fc), s5)
      | _ =>
          if ic =? 0 then None
          else let '(ex, s5) := read_exponent s2 in
               Some (to_double (apply_sign neg iv) ex, s5)
      end
  end.

(** [parseFloat(s)]. *)
Definition parseFloat (s : string) : jsnum :=
  match read_decimal_literal (skip_spaces s) with
  | Some (v, _) => v
  | None => NaN
  end.

(** [parseInt(s, 10)]. *)
Definition parseInt10 (s : string) : jsnum :=
  let '(neg, s1) := read_sign (skip_spaces s) in
  let '(v, n, _) := read_digits s1 0 0 in
  if n =? 0 then NaN else to_double (apply_sign neg v) 0.

(** [s.replace(p, '')] for a string pattern: the first occurrence of [p]
    is removed, the rest is kept. *)
Fixpoint remove_first (p s : string) : string :=
  match strip_prefix p s with
  | Some r => r
  | None => match s with
            | String c r => String c (remove_first p r)
            | EmptyString => EmptyString
            end
  end.

(** [s.substring(0, n)]. *)
Definition substring0 (n : nat) (s : string) : string := String.substring 0 n s.

(** [s.includes(p)]. *)
Fixpoint includes (p s : string) : bool :=
  match strip_prefix p s with
  | Some _ => true
  | None => match s with
            | String _ r => includes p r
            | EmptyString => false
            end
  end.

(* ================================================================== *)
(** ** Number to string, string to number *)
(* ================================================================== *)

Fixpoint zeros (n : nat) : string :=
  match n with O => "" | S k => String "0" (zeros k) end.

(** The decimal digits of a natural number. *)
Definition decimal_of_Z (z : Z) : string :=
  NilZero.string_of_uint (N.to_uint (Z.to_N z)).

Fixpoint strip_all_zeros (fuel : nat) (m e : Z) : Z * Z :=
  match fuel with
  | O => (m, e)
  | S k => if (m mod 10 =? 0) && negb (m =? 0)
           then strip_all_zeros k (m / 10) (e + 1)
           else (m, e)
  end.

(** [Number::toString(x)] in radix 10 (ECMAScript 6.1.6.1.20): with [s]
    the digits without trailing zeros, [k] their number and [n] the
    position of the decimal point, plain notation for [-6 < n <= 21] and
    exponential notation otherwise. *)
Definition Number_toString (x : jsnum) : string :=
  match x with
  | NaN => "NaN"
  | PInf => "Infinity"
  | NInf => "-Infinity"
  | Fin m e =>
      if m =? 0 then "0" else
      let '(s, e') :=
        strip_all_zeros (Z.to_nat (Z.log2 (Z.abs m)) + 1) (Z.abs m) e in
      let digits := decimal_of_Z s in
      let k := Z.of_nat (String.length digits) in
      let n := k + e' in
      let body :=
        if (k <=? n) && (n <=? 21) then
          digits ^^ zeros (Z.to_nat (n - k))
        else if (0 <? n) && (n <=? 21) then
          String.substring 0 (Z.to_nat n) digits ^^ "." ^^
          String.substring (Z.to_nat n) (Z.to_nat (k - n)) digits
        else if (-6 <? n) && (n <=? 0) then
          "0." ^^ zeros (Z.to_nat (- n)) ^^ digits
        else
          let ex := n - 1 in
          let exs := (if ex <? 0 then "-" else "+") ^^ decimal_of_Z (Z.abs ex) in
          if k =? 1 then digits ^^ "e" ^^ exs
          else String.substring 0 1 digits ^^ "." ^^
               String.substring 1 (Z.to_nat (k - 1)) digits ^^ "e" ^^ exs
      in if m <? 0 then "-" ^^ body else body
  end.

(** The value of a digit in a radix up to 16. *)
Definition radix_digit_val (radix : Z) (c : ascii) : option Z :=
  let n := Z.of_nat (nat_of_ascii c) in
  let v := if (48 <=? n) && (n <=? 57) then n - 48
           else if (97 <=? n) && (n <=? 102) then n - 87
           else if (65 <=? n) && (n <=? 70) then n - 55
           else 16 in
  if v <? radix then Some v else None.

Fixpoint read_radix_digits (radix : Z) (s : string) (acc count : Z)
  : Z * Z * string :=
  match s with
  | String c r =>
      match radix_digit_val radix c with
      | Some d => read_radix_digits radix r (acc * radix + d) (count + 1)
      | None => (acc, count, s)
      end
  | EmptyString => (acc, count, s)
  end.

(** A [NonDecimalIntegerLiteral] body, which must run up to trailing white
    space. *)
Definition radix_literal (radix : Z) (s : string) : jsnum :=
  let '(v, n, rest) := read_radix_digits radix s 0 0 in
  if negb (n =? 0) && all_spaces rest then to_double v 0 else NaN.

Definition first_some {A} (l : list (option A)) : option A :=
  fold_right (fun o acc => match o with Some _ => o | None => acc end) None l.

(** [StringToNumber(s)]: the whole string, white space trimmed, must be a
    numeric literal; the empty string is zero. *)
Definition StringToNumber (s : string) : jsnum :=
  let t := skip_spaces s in
  match t with
  | EmptyString => Fin 0 0
  | _ =>
      match first_some [strip_prefix "0x" t; strip_prefix "0X" t] with
      | Some r => radix_literal 16 r
      | None =>
      match first_some [strip_prefix "0o" t; strip_prefix "0O" t] with
      | Some r => radix_literal 8 r
      | None =>
      match first_some [strip_prefix "0b" t; strip_prefix "0B" t] with
      | Some r => radix_literal 2 r
      | None =>
          match read_decimal_literal t with
          | Some (v, rest) => if all_spaces rest then v else NaN
          | None => NaN
          end
      end end end
  end.

(* ================================================================== *)
(** ** JavaScript values *)
(* ================================================================== *)

(** The values that flow through the SDK: [undefined] and what JSON holds.
    An object is its list of own members in insertion order; a later
    binding of a key shadows an earlier one. *)
Inductive jsval : Type :=
| JUndefined
| JNull
| JBool (b : bool)
| JNum (n : jsnum)
| JStr (s : string)
| JArr (items : list jsval)
| JObj (members : list (string * jsval)).

(** [ToBoolean(v)]. *)
Definition truthy (v : jsval) : bool :=
  match v with
  | JUndefined | JNull => false
  | JBool b => b
  | JNum n => num_truthy n
  | JStr s => negb (str_eqb s "")
  | JArr _ | JObj _ => true
  end.

(** [a || b]. *)
Definition js_or (a b : jsval) : jsval := if truthy a then a else b.

(** [a ?? b]. *)
Definition js_nullish (a b : jsval) : jsval :=
  match a with JUndefined | JNull => b | _ => a end.

(** [v === n] against a number literal: no conversion. *)
Definition js_strict_eq_num (v : jsval) (n : jsnum) : bool :=
  match v with JNum x => num_eqb x n | _ => false end.

(** The own member [k] of an object, the last binding winning. *)
Fixpoint lookup_member (k : string) (l : list (string * jsval)) : option jsval :=
  match l with
  | [] => None
  | (k', v) :: r =>
      match lookup_member k r with
      | Some w => Some w
      | None => if str_eqb k k' then Some v else None
      end
  end.

(* ================================================================== *)
(** ** Errors and results *)
(* ================================================================== *)

(** The classes of the error objects that occur: the built-in ones and
    the hierarchy of [exceptions.ts]. *)
Inductive ErrorClass : Type :=
| ClsError
| ClsTypeError
| ClsSyntaxError
| ClsDOMException
| ClsLangVoiceError
| ClsAuthenticationError
| ClsRateLimitError
| ClsValidationError
| ClsAPIError.

(** An error object: its class, its [name], its [message] and, for the
    SDK's own errors, [statusCode]. *)
Record JsError : Type := mkError {
  err_class : ErrorClass;
  err_name : string;
  err_message : string;
  statusCode : option Z
}.

(** What a [throw] or a rejected promise carries: an error object, or any
    other value. *)
Inductive thrown : Type :=
| ThrowErr (e : JsError)
| ThrowVal (v : jsval).

(** [new Error(message)], [new TypeError(message)], [new SyntaxError(..)]. *)
Definition Error (message : string) : thrown :=
  ThrowErr (mkError ClsError "Error" message None).
Definition TypeError (message : string) : thrown :=
  ThrowErr (mkError ClsTypeError "TypeError" message None).
Definition SyntaxError (message : string) : thrown :=
  ThrowErr (mkError ClsSyntaxError "SyntaxError" message None).

(** The rejection of an aborted [fetch]. *)
Definition AbortError : thrown :=
  ThrowErr (mkError ClsDOMException "AbortError" "This operation was aborted" None).

(** exceptions.ts *)
Definition LangVoiceError (message : string) (code : option Z) : thrown :=
  ThrowErr (mkError ClsLangVoiceError "LangVoiceError" message code).
Definition AuthenticationError (message : string) : thrown :=
  ThrowErr (mkError ClsAuthenticationError "AuthenticationError" message (Some 401)).
Definition RateLimitError (message : string) : thrown :=
  ThrowErr (mkError ClsRateLimitError "RateLimitError" message (Some 429)).
Definition ValidationError (message : string) : thrown :=
  ThrowErr (mkError ClsValidationError "ValidationError" message (Some 400)).
Definition APIError (message : string) (code : option Z) : thrown :=
  ThrowErr (mkError ClsAPIError "APIError" message code).

(** [error instanceof LangVoiceError] and its two refinements. *)
Definition isLangVoiceError (t : thrown) : bool :=
  match t with
  | ThrowErr e =>
      match err_class e with
      | ClsLangVoiceError | ClsAuthenticationError | ClsRateLimitError
      | ClsValidationError | ClsAPIError => true
      | _ => false
      end
  | ThrowVal _ => false
  end.

Definition isAuthenticationError (t : thrown) : bool :=
  match t with
  | ThrowErr e => match err_class e with ClsAuthenticationError => true | _ => false end
  | ThrowVal _ => false
  end.

Definition isRateLimitError (t : thrown) : bool :=
  match t with
  | ThrowErr e => match err_class e with ClsRateLimitError => true | _ => false end
  | ThrowVal _ => false
  end.

(** [error instanceof Error ? error.message : 'Unknown error'], the way
    every adapter renders what it caught. *)
Definition error_text (t : thrown) : string :=
  match t with
  | ThrowErr e => err_message e
  | ThrowVal _ => "Unknown error"
  end.

(** The outcome of a call: a value, or something thrown.  For an [async]
    function [Throw] is the rejection of the promise it returns. *)
Inductive Result (A : Type) : Type :=
| Return (a : A)
| Throw (t : thrown).
Arguments Return {A} a.
Arguments Throw {A} t.

(** The [TypeError] of a conversion that finds no primitive value. *)
Definition no_primitive : thrown :=
  TypeError "Cannot convert object to primitive value".

(** [ToString(v)], and so [`${v}`] and the message [new Error(v)] keeps.
    An array joins the strings of its elements with commas, [null] and
    [undefined] elements being empty.  An object is converted by the
    [toString] it inherits, unless a member of its own named [toString]
    shadows that method: the values here are data and hold no function,
    so such a member is not callable, [valueOf] gives the object back, and
    the conversion throws. *)
Fixpoint js_ToString (v : jsval) : Result string :=
  match v with
  | JUndefined => Return "undefined"
  | JNull => Return "null"
  | JBool true => Return "true"
  | JBool false => Return "false"
  | JNum n => Return (Number_toString n)
  | JStr s => Return s
  | JArr items =>
      (fix join (l : list jsval) : Result string :=
         match l with
         | [] => Return ""
         | x :: r =>
             match (match x with
                    | JUndefined | JNull => Return ""
                    | _ => js_ToString x
                    end) with
             | Throw e => Throw e
             | Return sx =>
                 match r with
                 | [] => Return sx
                 | _ => match join r with
                        | Throw e => Throw e
                        | Return sr => Return (sx ^^ "," ^^ sr)
                        end
                 end
             end
         end) items
  | JObj members =>
      match lookup_member "toString" members with
      | Some _ => Throw no_primitive
      | None => Return "[object Object]"
      end
  end.

(** [ToNumber(v)]: an array or an object goes through its primitive
    value, the string above, and throws where that does. *)
Definition js_ToNumber (v : jsval) : Result jsnum :=
  match v with
  | JUndefined => Return NaN
  | JNull => Return (Fin 0 0)
  | JBool true => Return (Fin 1 0)
  | JBool false => Return (Fin 0 0)
  | JNum n => Return n
  | JStr s => Return (StringToNumber s)
  | JArr _ | JObj _ =>
      match js_ToString v with
      | Return s => Return (StringToNumber s)
      | Throw e => Throw e
      end
  end.

(** [v < n] and [v > n] against a number literal: the left side goes
    through [ToNumber]. *)
Definition js_lt_num (v : jsval) (n : jsnum) : Result bool :=
  match js_ToNumber v with
  | Return x => Return (num_ltb x n)
  | Throw e => Throw e
  end.

Definition js_gt_num (v : jsval) (n : jsnum) : Result bool :=
  match js_ToNumber v with
  | Return x => Return (num_gtb x n)
  | Throw e => Throw e
  end.

(** [a || b] on two comparisons: [b] is evaluated only when [a] is
    false. *)
Definition js_or_else (a b : Result bool) : Result bool :=
  match a with
  | Return false => b
  | _ => a
  end.

(** [throw new C(message)] for a class [C] of [exceptions.ts] and a
    [message] that need not be a string: every constructor there hands
    the message to that of [Error], which converts it with [ToString], so
    what is thrown is the error built on the string, or what the
    conversion throws. *)
Definition throw_new (C : string -> thrown) (message : jsval) : thrown :=
  match js_ToString message with
  | Return text => C text
  | Throw e => e
  end.

(** The error of reading the member [k] of a [v] that is [null] or
    [undefined]. *)
Definition cannot_read (v : jsval) (k : string) : thrown :=
  TypeError ("Cannot read properties of "
             ^^ match v with JNull => "null" | _ => "undefined" end
             ^^ " (reading '" ^^ k ^^ "')").

(** [v.k]: reading a property throws on [null] and [undefined]; strings and
    arrays have a [length]; an object gives its own member.  Only the member
    names the source reads are looked up with it, none of which is inherited
    from [Object.prototype]. *)
Definition get_prop (v : jsval) (k : string) : Result jsval :=
  match v with
  | JUndefined | JNull => Throw (cannot_read v k)
  | JStr s => Return (if str_eqb k "length"
                      then JNum (num_of_Z (Z.of_nat (String.length s)))
                      else JUndefined)
  | JArr l => Return (if str_eqb k "length"
                      then JNum (num_of_Z (Z.of_nat (List.length l)))
                      else JUndefined)
  | JObj m => Return (match lookup_member k m with
                      | Some w => w
                      | None => JUndefined
                      end)
  | _ => Return JUndefined
  end.

(** The same read where the source has already tested the value truthy. *)
Definition prop_of (v : jsval) (k : string) : jsval :=
  match get_prop v k with Return w => w | Throw _ => JUndefined end.

(* ================================================================== *)
(** ** JSON text produced by the SDK *)
(* ================================================================== *)

(** What [JSON.stringify] keeps of a value: members that are [undefined]
    are dropped, array items that are [undefined] and numbers that are not
    finite become [null]. *)
Fixpoint json_image (v : jsval) : jsval :=
  match v with
  | JUndefined => JNull
  | JNum (Fin m e) => JNum (Fin m e)
  | JNum _ => JNull
  | JArr items => JArr (map json_image items)
  | JObj members =>
      JObj ((fix keep (l : list (string * jsval)) : list (string * jsval) :=
               match l with
               | [] => []
               | (k, JUndefined) :: r => keep r
               | (k, w) :: r => (k, json_image w) :: keep r
               end) members)
  | _ => v
  end.

(** A string returned by [JSON.stringify(v)] is kept as the value it
    encodes; [JSON.parse] of such a string gives that value back. *)
Inductive JsonText : Type := JsonOf (v : jsval).

Definition JSON_stringify (v : jsval) : JsonText := JsonOf (json_image v).
Definition JSON_parse_text (t : JsonText) : jsval := let 'JsonOf v := t in v.

(* ================================================================== *)
(** ** The platform: environment, network, file system *)
(* ================================================================== *)

Record HttpRequest : Type := mkRequest {
  req_method : string;
  req_url : string;
  req_headers : list (string * string);
  (** the value handed to [JSON.stringify] for the body, if any *)
  req_body : option jsval
}.

(** A [Response]: status line, headers, what the promises of [json()]
    and [arrayBuffer()] settle to, and the time in milliseconds that
    reading the body takes once the response is there. *)
Record Response : Type := mkResponse {
  status : Z;
  statusText : string;
  resp_headers : list (string * string);
  json : Result jsval;
  arrayBuffer : Result (list byte);
  body_time : Z
}.

(** [response.ok]: the status is in 200..299. *)
Definition ok (r : Response) : bool := (200 <=? status r) && (status r <=? 299).

Definition lower_ascii (c : ascii) : ascii :=
  let n := nat_of_ascii c in
  if ((65 <=? n) && (n <=? 90))%nat then ascii_of_nat (n + 32) else c.

Fixpoint lower (s : string) : string :=
  match s with
  | String c r => String (lower_ascii c) (lower r)
  | EmptyString => EmptyString
  end.

(** [headers.get(name)]: names compare without case; the values of a
    repeated header are joined with a comma and a space; [null] when the
    header is absent. *)
Definition headers_get (h : list (string * string)) (name : string) : option string :=
  match filter (fun kv => str_eqb (lower (fst kv)) (lower name)) h with
  | [] => None
  | kv :: r => Some (fold_left (fun acc kv' => acc ^^ ", " ^^ snd kv') r (snd kv))
  end.

(** What a [fetch] does when left alone: the time in milliseconds after
    which its promise settles (the response is there when its headers
    are), and what it settles to. *)
Record FetchOutcome : Type := mkOutcome {
  latency : Z;
  settles : Result Response
}.

(** The world outside the SDK. *)
Record Platform : Type := mkPlatform {
  (** [process.env.LANGVOICE_API_KEY]; [None] also where there is no
      [process] *)
  env_LANGVOICE_API_KEY : option string;
  (** [JSON.parse] on a text coming from outside *)
  JSON_parse : string -> Result jsval;
  fetch : HttpRequest -> FetchOutcome;
  (** [fs.writeFileSync] once [import('fs')] resolved; [None] where the
      import is rejected *)
  fs_writeFileSync : option (jsval -> list byte -> Result unit);
  (** [Buffer.from(v, 'base64')] for a [v] that is not a string *)
  Buffer_from_other : jsval -> Result (list byte)
}.

(** The delay [setTimeout] really uses (Node.js timers): a delay that is
    NaN, below 1 or above 2147483647 is 1, any other is truncated. *)
Definition timer_delay (t : jsnum) : Z :=
  match t with
  | Fin m e =>
      if num_ltb t (Fin 1 0) || num_gtb t (Fin 2147483647 0) then 1
      else if 0 <=? e then m * 10 ^ e else m / 10 ^ (- e)
  | _ => 1
  end.

(** Observable effects of a run, in order. *)
Inductive Event : Type :=
| EvFetch (req : HttpRequest) (abort_after : Z)
| EvWriteFile (path : jsval) (data : list byte).

(** A run: the effects performed and the outcome. *)
Definition Run (A : Type) : Type := (list Event * Result A)%type.

Definition ret {A} (a : A) : Run A := ([], Return a).
Definition throw {A} (t : thrown) : Run A := ([], Throw t).
Definition lift {A} (r : Result A) : Run A := ([], r).

Definition bind {A B} (m : Run A) (k : A -> Run B) : Run B :=
  match m with
  | (tr, Return a) => let '(tr', r) := k a in (tr ++ tr', r)
  | (tr, Throw t) => (tr, Throw t)
  end.

(** [try { m } catch (error) { h error }]. *)
Definition try_catch {A} (m : Run A) (h : thrown -> Run A) : Run A :=
  match m with
  | (tr, Return a) => (tr, Return a)
  | (tr, Throw t) => let '(tr', r) := h t in (tr ++ tr', r)
  end.

Notation "x <- m ;; k" := (bind m (fun x => k))
  (at level 61, m at next level, right associativity).
Notation "m ;;; k" := (bind m (fun _ => k))
  (at level 61, right associativity).

Definition trace {A} (m : Run A) : list Event := fst m.
Definition outcome {A} (m : Run A) : Result A := snd m.

(** [await fetch(url, { ..., signal })] with the abort timer armed for
    [timeout]: the timer wins when the promise is still pending as it
    fires.  Both request methods clear the timer as soon as this promise
    has settled, so nothing bounds the [body_time] of the response. *)
Definition fetch_with_timer (P : Platform) (req : HttpRequest) (timeout : jsnum)
  : Run Response :=
  let o := fetch P req in
  ([EvFetch req (timer_delay timeout)],
   if timer_delay timeout <? latency o then Throw AbortError else settles o).

(** [await import('fs')]: the module, of which only [writeFileSync] is
    used, or a rejection. *)
Definition import_fs (P : Platform) : Run (jsval -> list byte -> Run unit) :=
  match fs_writeFileSync P with
  | None => throw (Error "Cannot find module 'fs'")
  | Some write => ret (fun path data => ([EvWriteFile path data], write path data))
  end.

(* ================================================================== *)
(** ** Buffers and base64 *)
(* ================================================================== *)

(** A [Buffer] is its bytes. *)
Definition Buffer : Type := list byte.

Definition byte_val (b : byte) : Z := Z.of_N (Byte.to_N b).

Definition byte_of_Z (z : Z) : byte :=
  match Byte.of_N (Z.to_N (z mod 256)) with Some b => b | None => x00 end.

Definition ascii_of_Z (z : Z) : ascii := ascii_of_N (Z.to_N z).
Definition Z_of_ascii (c : ascii) : Z := Z.of_N (N_of_ascii c).

(** The character of a sextet in the base64 alphabet
    [A-Z a-z 0-9 + /]. *)
Definition b64_char (n : Z) : ascii :=
  if n <? 26 then ascii_of_Z (65 + n)
  else if n <? 52 then ascii_of_Z (97 + (n - 26))
  else if n <? 62 then ascii_of_Z (48 + (n - 52))
  else if n =? 62 then "+"%char else "/"%char.

(** The sextet of a character; the decoder of Node.js also takes the
    URL-safe [-] and [_]. *)
Definition b64_value (c : ascii) : option Z :=
  let n := Z_of_ascii c in
  if (65 <=? n) && (n <=? 90) then Some (n - 65)
  else if (97 <=? n) && (n <=? 122) then Some (n - 97 + 26)
  else if (48 <=? n) && (n <=? 57) then Some (n - 48 + 52)
  else if (n =? 43) || (n =? 45) then Some 62
  else if (n =? 47) || (n =? 95) then Some 63
  else None.

(** [buffer.toString('base64')]: three bytes give four characters, a
    final group of one or two bytes is padded with [=]. *)
Fixpoint base64_encode (l : Buffer) : string :=
  match l with
  | b0 :: b1 :: b2 :: r =>
      let x := byte_val b0 in
      let y := byte_val b1 in
      let z := byte_val b2 in
      String (b64_char (x / 4))
     (String (b64_char ((x mod 4) * 16 + y / 16))
     (String (b64_char ((y mod 16) * 4 + z / 64))
     (String (b64_char (z mod 64)) (base64_encode r))))
  | [b0; b1] =>
      let x := byte_val b0 in
      let y := byte_val b1 in
      String (b64_char (x / 4))
     (String (b64_char ((x mod 4) * 16 + y / 16))
     (String (b64_char ((y mod 16) * 4)) "="))
  | [b0] =>
      let x := byte_val b0 in
      String (b64_char (x / 4)) (String (b64_char ((x mod 4) * 16)) "==")
  | [] => ""
  end.

(** The sextets of a base64 text as Node.js reads it: a character outside
    the alphabet is skipped, the first [=] ends the text. *)
Fixpoint b64_sextets (s : string) : list Z :=
  match s with
  | EmptyString => []
  | String c r =>
      if Ascii.eqb c "=" then []
      else match b64_value c with
           | Some v => v :: b64_sextets r
           | None => b64_sextets r
           end
  end.

(** Four sextets give three bytes; a final group of three gives two bytes,
    of two gives one, a single sextet left over gives none. *)
Fixpoint b64_bytes (l : list Z) : Buffer :=
  match l with
  | s0 :: s1 :: s2 :: s3 :: r =>
      byte_of_Z (s0 * 4 + s1 / 16)
      :: byte_of_Z ((s1 mod 16) * 16 + s2 / 4)
      :: byte_of_Z ((s2 mod 4) * 64 + s3)
      :: b64_bytes r
  | [s0; s1; s2] =>
      [byte_of_Z (s0 * 4 + s1 / 16); byte_of_Z ((s1 mod 16) * 16 + s2 / 4)]
  | [s0; s1] => [byte_of_Z (s0 * 4 + s1 / 16)]
  | _ => []
  end.

(** [Buffer.from(s, 'base64')]. *)
Definition Buffer_from_base64 (s : string) : Buffer := b64_bytes (b64_sextets s).

(* ================================================================== *)
(** ** models.ts *)
(* ================================================================== *)

Module Voice.
Record t : Type := mk {
  id : jsval; name : jsval; gender : jsval; language : jsval; description : jsval
}.

(** [new Voice(data)] *)
Definition new (data : jsval) : Result t :=
  match get_prop data "id" with
  | Throw e => Throw e
  | Return i =>
      Return {| id := i;
                name := prop_of data "name";
                gender := prop_of data "gender";
                language := prop_of data "language";
                description := prop_of data "description" |}
  end.

Definition toJSON (v : t) : jsval :=
  JObj [("id", id v); ("name", name v); ("gender", gender v);
        ("language", language v); ("description", description v)].
End Voice.

Module Language.
Record t : Type := mk { id : jsval; name : jsval; voices : jsval }.

(** [new Language(data)] *)
Definition new (data : jsval) : Result t :=
  match get_prop data "id" with
  | Throw e => Throw e
  | Return i =>
      Return {| id := i; name := prop_of data "name";
                voices := prop_of data "voices" |}
  end.

Definition toJSON (l : t) : jsval :=
  JObj [("id", id l); ("name", name l); ("voices", voices l)].
End Language.

(** [items.map(f)] where [f] may throw: the first throw ends the map. *)
Fixpoint map_result {A B} (f : A -> Result B) (l : list A) : Result (list B) :=
  match l with
  | [] => Return []
  | x :: r =>
      match f x with
      | Throw e => Throw e
      | Return y =>
          match map_result f r with
          | Throw e => Throw e
          | Return ys => Return (y :: ys)
          end
      end
  end.

(** [v.map(f)] on a value taken from JSON: only an array has a [map]. *)
Definition js_map {B} (owner : string) (v : jsval) (f : jsval -> Result B)
  : Result (list B) :=
  match v with
  | JArr items => map_result f items
  | JUndefined | JNull => Throw (cannot_read v "map")
  | _ => Throw (TypeError (owner ^^ ".map is not a function"))
  end.

Module GenerateRequest.
Record t : Type := mk {
  text : jsval; voice : jsval; language : jsval; speed : jsval
}.

(** [new GenerateRequest(data)]: the two guards on the text, the
    defaults, the guard on the speed. *)
Definition new (data : t) : Result t :=
  if negb (truthy (text data))
     || js_strict_eq_num (prop_of (text data) "length") (Fin 0 0)
  then Throw (Error "Text is required")
  else
    match js_gt_num (prop_of (text data) "length") (Fin 5000 0) with
    | Throw e => Throw e
    | Return true => Throw (Error "Text must be 5000 characters or less")
    | Return false =>
        let this_speed := js_nullish (speed data) (JNum n1_0) in
        match js_or_else (js_lt_num this_speed n0_5) (js_gt_num this_speed n2_0) with
        | Throw e => Throw e
        | Return true => Throw (Error "Speed must be between 0.5 and 2.0")
        | Return false =>
            Return {| text := text data;
                      voice := js_or (voice data) (JStr "heart");
                      language := js_or (language data) (JStr "american_english");
                      speed := this_speed |}
        end
    end.

Definition toJSON (r : t) : jsval :=
  JObj [("text", text r); ("voice", voice r);
        ("language", language r); ("speed", speed r)].
End GenerateRequest.

Module MultiVoiceRequest.
Record t : Type := mk { text : jsval; language : jsval; speed : jsval }.

(** [new MultiVoiceRequest(data)] *)
Definition new (data : t) : Result t :=
  if negb (truthy (text data))
     || js_strict_eq_num (prop_of (text data) "length") (Fin 0 0)
  then Throw (Error "Text is required")
  else
    match js_gt_num (prop_of (text data) "length") (Fin 5000 0) with
    | Throw e => Throw e
    | Return true => Throw (Error "Text must be 5000 characters or less")
    | Return false =>
        let this_speed := js_nullish (speed data) (JNum n1_0) in
        match js_or_else (js_lt_num this_speed n0_5) (js_gt_num this_speed n2_0) with
        | Throw e => Throw e
        | Return true => Throw (Error "Speed must be between 0.5 and 2.0")
        | Return false =>
            Return {| text := text data;
                      language := js_or (language data) (JStr "american_english");
                      speed := this_speed |}
        end
    end.

Definition toJSON (r : t) : jsval :=
  JObj [("text", text r); ("language", language r); ("speed", speed r)].
End MultiVoiceRequest.

Module VoiceCloningRequest.
(** The request object [new VoiceCloningRequest(data)] would build.
    [client.ts] imports the name from [./models], and [models.ts] neither
    defines nor exports it: there is no such object. *)
Inductive t : Type := .

(** [new VoiceCloningRequest(data)]: the imported name is bound to
    nothing when the call runs, so [new] throws before a request exists.
    (The text of the message is the engine's and names the binding as the
    compiled module has it.) *)
Definition new (data : jsval) : Result t :=
  Throw (TypeError "VoiceCloningRequest is not a constructor").

(** [request.toJSON()] *)
Definition toJSON (r : t) : jsval := match r with end.
End VoiceCloningRequest.

Module GenerateResponse.
Record t : Type := mk {
  audioData : Buffer;
  duration : option jsnum;
  generationTime : option jsnum;
  charactersProcessed : option jsnum
}.

(** [new GenerateResponse(data)]: a [Buffer] is kept, an [ArrayBuffer]
    is copied into one; the bytes are the same. *)
Definition new (data : t) : t := data.

(** [this.audioData.toString('base64')] *)
Definition toBase64 (r : t) : string := base64_encode (audioData r).

Definition toUint8Array (r : t) : list byte := audioData r.
Definition toArrayBuffer (r : t) : list byte := audioData r.
End GenerateResponse.

Module VoicesResponse.
(** [data.voices.map((v) => new Voice(v))] *)
Definition new (data : jsval) : Result (list Voice.t) :=
  match get_prop data "voices" with
  | Throw e => Throw e
  | Return vs => js_map "data.voices" vs Voice.new
  end.
End VoicesResponse.

Module LanguagesResponse.
(** [data.languages.map((l) => new Language(l))] *)
Definition new (data : jsval) : Result (list Language.t) :=
  match get_prop data "languages" with
  | Throw e => Throw e
  | Return ls => js_map "data.languages" ls Language.new
  end.
End LanguagesResponse.

Definition AMERICAN_VOICES : list string :=
  ["heart"; "bella"; "nicole"; "sarah"; "nova"; "sky"; "jessica"; "river";
   "michael"; "fenrir"; "eric"; "liam"; "onyx"; "adam"].
Definition BRITISH_VOICES : list string :=
  ["emma"; "isabella"; "alice"; "lily"; "george"; "fable"; "lewis"; "daniel"].
Definition ALL_VOICES : list string := AMERICAN_VOICES ++ BRITISH_VOICES.
Definition LANGUAGES : list string :=
  ["american_english"; "british_english"; "spanish"; "french"; "hindi";
   "italian"; "japanese"; "brazilian_portuguese"; "mandarin_chinese"].

(* ================================================================== *)
(** ** client.ts *)
(* ================================================================== *)

Module LangVoiceClientOptions.
Record t : Type := mk {
  apiKey : option string; baseUrl : option string; timeout : option jsnum
}.
(** [{}] and [{ apiKey }] *)
Definition empty : t := mk None None None.
Definition with_key (k : option string) : t := mk k None None.
End LangVoiceClientOptions.

Module GenerateOptions.
Record t : Type := mk {
  text : jsval; voice : jsval; language : jsval; speed : jsval
}.
End GenerateOptions.

Module MultiVoiceOptions.
Record t : Type := mk { text : jsval; language : jsval; speed : jsval }.
End MultiVoiceOptions.

Module VoiceCloningOptions.
Record t : Type := mk { text : jsval; voiceSampleBase64 : jsval; speed : jsval }.
End VoiceCloningOptions.

(** [o || d] on an optional string and on an optional number. *)
Definition str_or (o : option string) (d : string) : string :=
  match o with
  | Some s => if str_eqb s "" then d else s
  | None => d
  end.

Definition num_or (o : option jsnum) (d : jsnum) : jsnum :=
  match o with
  | Some n => if num_truthy n then n else d
  | None => d
  end.

(** A parameter with a default value: the default replaces [undefined]. *)
Definition default_param (v d : jsval) : jsval :=
  match v with JUndefined => d | _ => v end.

Definition opt_num (o : option jsnum) : jsval :=
  match o with Some n => JNum n | None => JUndefined end.

Module LangVoiceClient.
Record t : Type := mk { apiKey : string; baseUrl : string; timeout : jsnum }.

Definition getEnvApiKey (P : Platform) : string :=
  str_or (env_LANGVOICE_API_KEY P) "".

(** [new LangVoiceClient(options)] *)
Definition new (P : Platform) (options : LangVoiceClientOptions.t) : Result t :=
  let key := str_or (LangVoiceClientOptions.apiKey options) (getEnvApiKey P) in
  if str_eqb key "" then
    Throw (AuthenticationError
      "API key is required. Pass apiKey in options or set LANGVOICE_API_KEY environment variable.")
  else
    Return {| apiKey := key;
              baseUrl := str_or (LangVoiceClientOptions.baseUrl options)
                           "https://www.langvoice.pro/api";
              timeout := num_or (LangVoiceClientOptions.timeout options)
                           (Fin 60000 0) |}.

Definition request_headers (c : t) : list (string * string) :=
  [("X-API-Key", apiKey c); ("Content-Type", "application/json")].

(** The [catch] block shared by [request] and [requestBinary]. *)
Definition on_request_error {A} (error : thrown) : Run A :=
  match error with
  | ThrowErr e =>
      if str_eqb (err_name e) "AbortError"
      then throw (APIError "Request timeout" (Some 408))
      else throw error
  | ThrowVal _ => throw error
  end.

(** [handleResponseErrors(response)] *)
Definition handleResponseErrors (response : Response) : Run unit :=
  if ok response then ret tt
  else
    let fallback := "API error: " ^^ Number_toString (num_of_Z (status response)) in
    let errorMessage : jsval :=
      match json response with
      | Return errorData =>
          match get_prop errorData "error" with
          | Return err => js_or err (JStr fallback)
          | Throw _ => JStr (str_or (Some (statusText response)) fallback)
          end
      | Throw _ => JStr (str_or (Some (statusText response)) fallback)
      end in
    if status response =? 401 then throw (throw_new AuthenticationError errorMessage)
    else if status response =? 429 then throw (throw_new RateLimitError errorMessage)
    else if status response =? 400 then throw (throw_new ValidationError errorMessage)
    else throw (throw_new (fun message => APIError message (Some (status response)))
                  errorMessage).

(** The request [request] hands to [fetch]: the body is serialised
    when there is one and it is truthy. *)
Definition json_request (c : t) (method endpoint : string) (body : option jsval)
  : HttpRequest :=
  mkRequest method (baseUrl c ^^ endpoint) (request_headers c)
    (match body with
     | Some b => if truthy b then Some b else None
     | None => None
     end).

(** The request [requestBinary] hands to [fetch]. *)
Definition binary_request (c : t) (method endpoint : string) (body : jsval)
  : HttpRequest :=
  mkRequest method (baseUrl c ^^ endpoint) (request_headers c) (Some body).

(** [request(method, endpoint, body?)] *)
Definition request (P : Platform) (c : t) (method endpoint : string)
    (body : option jsval) : Run (jsval * list (string * string)) :=
  try_catch
    (response <- fetch_with_timer P (json_request c method endpoint body)
                   (timeout c) ;;
     handleResponseErrors response ;;;
     data <- lift (json response) ;;
     ret (data, resp_headers response))
    on_request_error.

(** [requestBinary(method, endpoint, body)] *)
Definition requestBinary (P : Platform) (c : t) (method endpoint : string)
    (body : jsval) : Run (Buffer * list (string * string)) :=
  try_catch
    (response <- fetch_with_timer P (binary_request c method endpoint body)
                   (timeout c) ;;
     handleResponseErrors response ;;;
     data <- lift (arrayBuffer response) ;;
     ret (data, resp_headers response))
    on_request_error.

(** [parseFloatHeader(value)] *)
Definition parseFloatHeader (value : option string) : option jsnum :=
  match value with
  | None => None
  | Some v =>
      if str_eqb v "" then None
      else let parsed := parseFloat (remove_first "s" v) in
           if isNaN parsed then None else Some parsed
  end.

(** [parseIntHeader(value)] *)
Definition parseIntHeader (value : option string) : option jsnum :=
  match value with
  | None => None
  | Some v =>
      if str_eqb v "" then None
      else let parsed := parseInt10 v in
           if isNaN parsed then None else Some parsed
  end.

(** The [GenerateResponse] the three generating methods build from the
    body and the headers. *)
Definition response_of (data : Buffer) (headers : list (string * string))
  : GenerateResponse.t :=
  GenerateResponse.new
    {| GenerateResponse.audioData := data;
       GenerateResponse.duration :=
         parseFloatHeader (headers_get headers "X-Audio-Duration");
       GenerateResponse.generationTime :=
         parseFloatHeader (headers_get headers "X-Generation-Time");
       GenerateResponse.charactersProcessed :=
         parseIntHeader (headers_get headers "X-Characters-Processed") |}.

(** [generate(options)] *)
Definition generate (P : Platform) (c : t) (options : GenerateOptions.t)
  : Run GenerateResponse.t :=
  req <- lift (GenerateRequest.new
                 {| GenerateRequest.text := GenerateOptions.text options;
                    GenerateRequest.voice := GenerateOptions.voice options;
                    GenerateRequest.language := GenerateOptions.language options;
                    GenerateRequest.speed := GenerateOptions.speed options |}) ;;
  dh <- requestBinary P c "POST" "/tts/generate" (GenerateRequest.toJSON req) ;;
  ret (response_of (fst dh) (snd dh)).

(** [generateMultiVoice(options)] *)
Definition generateMultiVoice (P : Platform) (c : t) (options : MultiVoiceOptions.t)
  : Run GenerateResponse.t :=
  req <- lift (MultiVoiceRequest.new
                 {| MultiVoiceRequest.text := MultiVoiceOptions.text options;
                    MultiVoiceRequest.language := MultiVoiceOptions.language options;
                    MultiVoiceRequest.speed := MultiVoiceOptions.speed options |}) ;;
  dh <- requestBinary P c "POST" "/tts/multi-voice-text"
          (MultiVoiceRequest.toJSON req) ;;
  ret (response_of (fst dh) (snd dh)).

(** [generateCloned(options)] *)
Definition generateCloned (P : Platform) (c : t) (options : VoiceCloningOptions.t)
  : Run GenerateResponse.t :=
  req <- lift (VoiceCloningRequest.new
                 (JObj [("text", VoiceCloningOptions.text options);
                        ("voice_sample_base64",
                         VoiceCloningOptions.voiceSampleBase64 options);
                        ("speed", VoiceCloningOptions.speed options)])) ;;
  dh <- requestBinary P c "POST" "/tts/generate-cloned"
          (VoiceCloningRequest.toJSON req) ;;
  ret (response_of (fst dh) (snd dh)).

(** [listVoices()] *)
Definition listVoices (P : Platform) (c : t) : Run (list Voice.t) :=
  dh <- request P c "GET" "/tts/voices" None ;;
  lift (VoicesResponse.new (fst dh)).

(** [listLanguages()] *)
Definition listLanguages (P : Platform) (c : t) : Run (list Language.t) :=
  dh <- request P c "GET" "/tts/languages" None ;;
  lift (LanguagesResponse.new (fst dh)).

(** [textToSpeech(text, voice = 'heart', language = 'american_english',
    speed = 1.0)] *)
Definition textToSpeech (P : Platform) (c : t) (text voice language speed : jsval)
  : Run Buffer :=
  response <- generate P c
    {| GenerateOptions.text := text;
       GenerateOptions.voice := default_param voice (JStr "heart");
       GenerateOptions.language := default_param language (JStr "american_english");
       GenerateOptions.speed := default_param speed (JNum n1_0) |} ;;
  ret (GenerateResponse.audioData response).

Definition getApiKey (c : t) : string := apiKey c.
End LangVoiceClient.

(* ================================================================== *)
(** ** tools/types.ts *)
(* ================================================================== *)

Module TOOL_NAMES.
Definition TTS : string := "langvoice_text_to_speech".
Definition MULTI_VOICE : string := "langvoice_multi_voice_speech".
Definition LIST_VOICES : string := "langvoice_list_voices".
Definition LIST_LANGUAGES : string := "langvoice_list_languages".
Definition all : list string := [TTS; MULTI_VOICE; LIST_VOICES; LIST_LANGUAGES].
End TOOL_NAMES.

Module VOICES.
Definition AMERICAN : list string :=
  ["heart"; "bella"; "nicole"; "sarah"; "nova"; "sky"; "jessica";
   "river"; "michael"; "fenrir"; "eric"; "liam"; "onyx"; "adam"].
Definition BRITISH : list string :=
  ["emma"; "isabella"; "alice"; "lily"; "george"; "fable"; "lewis"; "daniel"].
End VOICES.

(** The two lists [tools/types.ts] declares for itself, beside those of
    [models.ts]. *)
Module types.
Definition ALL_VOICES : list string := VOICES.AMERICAN ++ VOICES.BRITISH.
Definition LANGUAGES : list string :=
  ["american_english"; "british_english"; "spanish"; "french"; "hindi";
   "italian"; "japanese"; "brazilian_portuguese"; "mandarin_chinese"].
End types.

(** An array literal of strings, as [[...ALL_VOICES]] and [['text']]. *)
Definition strings (l : list string) : jsval := JArr (map JStr l).

(** [v === s] against a string: no conversion. *)
Definition js_strict_eq_str (v : jsval) (s : string) : bool :=
  match v with JStr x => str_eqb x s | _ => false end.

Module TTSInput := GenerateOptions.
Module MultiVoiceInput := MultiVoiceOptions.

(** [Buffer.from(v, 'base64')] *)
Definition Buffer_from (P : Platform) (v : jsval) : Result Buffer :=
  match v with
  | JStr s => Return (Buffer_from_base64 s)
  | _ => Buffer_from_other P v
  end.

(** The envelope every adapter builds in its [catch]:
    [{ success: false, error: ... }]. *)
Definition failure (message : string) : jsval :=
  JObj [("success", JBool false); ("error", JStr message)].

Definition caught (error : thrown) : jsval := failure (error_text error).

(** [voices.map((v) => ({ id: v.id, name: v.name }))] and the same for
    languages. *)
Definition voice_infos (voices : list Voice.t) : jsval :=
  JArr (map (fun v => JObj [("id", Voice.id v); ("name", Voice.name v)]) voices).

Definition language_infos (languages : list Language.t) : jsval :=
  JArr (map (fun l => JObj [("id", Language.id l); ("name", Language.name l)])
            languages).

(** The save helper the generic, OpenAI and AutoGen adapters share in
    text: [false] without a successful result holding audio, otherwise the
    decoded audio is written and a failure of that gives [false]. *)
Definition save_result (P : Platform) (result path : jsval) : Run bool :=
  success <- lift (get_prop result "success") ;;
  if negb (truthy success) || negb (truthy (prop_of result "audioBase64"))
  then ret false
  else
    try_catch
      (fs <- import_fs P ;;
       audioBuffer <- lift (Buffer_from P (prop_of result "audioBase64")) ;;
       fs path audioBuffer ;;;
       ret true)
      (fun _ => ret false).

(* ================================================================== *)
(** ** tools/generic-tools.ts *)
(* ================================================================== *)

Module LangVoiceToolkit.
Record t : Type := mk { client : LangVoiceClient.t }.

Definition new (P : Platform) (options : LangVoiceClientOptions.t) : Result t :=
  match LangVoiceClient.new P options with
  | Return c => Return (mk c)
  | Throw e => Throw e
  end.

Definition getClient (k : t) : LangVoiceClient.t := client k.

(** [textToSpeech(params)] *)
Definition textToSpeech (P : Platform) (k : t) (params : TTSInput.t) : Run jsval :=
  try_catch
    (response <- LangVoiceClient.generate P (client k)
       {| GenerateOptions.text := TTSInput.text params;
          GenerateOptions.voice := js_or (TTSInput.voice params) (JStr "heart");
          GenerateOptions.language :=
            js_or (TTSInput.language params) (JStr "american_english");
          GenerateOptions.speed := js_or (TTSInput.speed params) (JNum n1_0) |} ;;
     ret (JObj [("success", JBool true);
                ("audioBase64", JStr (GenerateResponse.toBase64 response));
                ("duration", opt_num (GenerateResponse.duration response));
                ("charactersProcessed",
                 opt_num (GenerateResponse.charactersProcessed response))]))
    (fun error => ret (caught error)).

(** [multiVoiceSpeech(params)] *)
Definition multiVoiceSpeech (P : Platform) (k : t) (params : MultiVoiceInput.t)
  : Run jsval :=
  try_catch
    (response <- LangVoiceClient.generateMultiVoice P (client k)
       {| MultiVoiceOptions.text := MultiVoiceInput.text params;
          MultiVoiceOptions.language :=
            js_or (MultiVoiceInput.language params) (JStr "american_english");
          MultiVoiceOptions.speed :=
            js_or (MultiVoiceInput.speed params) (JNum n1_0) |} ;;
     ret (JObj [("success", JBool true);
                ("audioBase64", JStr (GenerateResponse.toBase64 response));
                ("duration", opt_num (GenerateResponse.duration response))]))
    (fun error => ret (caught error)).

(** [listVoices()] *)
Definition listVoices (P : Platform) (k : t) : Run jsval :=
  try_catch
    (voices <- LangVoiceClient.listVoices P (client k) ;;
     ret (JObj [("success", JBool true); ("voices", voice_infos voices)]))
    (fun error => ret (caught error)).

(** [listLanguages()] *)
Definition listLanguages (P : Platform) (k : t) : Run jsval :=
  try_catch
    (languages <- LangVoiceClient.listLanguages P (client k) ;;
     ret (JObj [("success", JBool true); ("languages", language_infos languages)]))
    (fun error => ret (caught error)).

(** [handleToolCall(toolName, args)] *)
Definition handleToolCall (P : Platform) (k : t) (toolName : string) (args : jsval)
  : Run jsval :=
  if str_eqb toolName TOOL_NAMES.TTS then
    text <- lift (get_prop args "text") ;;
    textToSpeech P k
      {| TTSInput.text := text;
         TTSInput.voice := prop_of args "voice";
         TTSInput.language := prop_of args "language";
         TTSInput.speed := prop_of args "speed" |}
  else if str_eqb toolName TOOL_NAMES.MULTI_VOICE then
    text <- lift (get_prop args "text") ;;
    multiVoiceSpeech P k
      {| MultiVoiceInput.text := text;
         MultiVoiceInput.language := prop_of args "language";
         MultiVoiceInput.speed := prop_of args "speed" |}
  else if str_eqb toolName TOOL_NAMES.LIST_VOICES then listVoices P k
  else if str_eqb toolName TOOL_NAMES.LIST_LANGUAGES then listLanguages P k
  else ret (failure ("Unknown tool: " ^^ toolName)).

(** [handleToolCallJson(toolName, args)] *)
Definition handleToolCallJson (P : Platform) (k : t) (toolName : string)
    (args : jsval) : Run JsonText :=
  result <- handleToolCall P k toolName args ;;
  ret (JSON_stringify result).

(** [getFunctionSchemas()] *)
Definition getFunctionSchemas (k : t) : list jsval :=
  [JObj
     [("name", JStr TOOL_NAMES.TTS);
      ("description",
       JStr "Convert text to natural-sounding speech audio using LangVoice TTS API.");
      ("parameters", JObj
         [("type", JStr "object");
          ("properties", JObj
             [("text", JObj
                 [("type", JStr "string");
                  ("description",
                   JStr "The text to convert to speech. Maximum 5000 characters.")]);
              ("voice", JObj
                 [("type", JStr "string");
                  ("description", JStr "Voice ID (e.g., 'heart', 'michael', 'emma').");
                  ("enum", strings types.ALL_VOICES);
                  ("default", JStr "heart")]);
              ("language", JObj
                 [("type", JStr "string");
                  ("description", JStr "Language code.");
                  ("enum", strings types.LANGUAGES);
                  ("default", JStr "american_english")]);
              ("speed", JObj
                 [("type", JStr "number");
                  ("description", JStr "Speech speed from 0.5 (slow) to 2.0 (fast).");
                  ("minimum", JNum n0_5);
                  ("maximum", JNum n2_0);
                  ("default", JNum n1_0)])]);
          ("required", strings ["text"])])];
   JObj
     [("name", JStr TOOL_NAMES.MULTI_VOICE);
      ("description",
       JStr "Generate speech with multiple voices using bracket notation. Use [voice_name] to switch voices.");
      ("parameters", JObj
         [("type", JStr "object");
          ("properties", JObj
             [("text", JObj
                 [("type", JStr "string");
                  ("description",
                   JStr "Text with voice markers. Example: '[heart] Hello! [michael] Hi there!'")]);
              ("language", JObj
                 [("type", JStr "string");
                  ("description", JStr "Language code for all voices.");
                  ("enum", strings types.LANGUAGES);
                  ("default", JStr "american_english")]);
              ("speed", JObj
                 [("type", JStr "number");
                  ("description", JStr "Speech speed from 0.5 to 2.0.");
                  ("minimum", JNum n0_5);
                  ("maximum", JNum n2_0);
                  ("default", JNum n1_0)])]);
          ("required", strings ["text"])])];
   JObj
     [("name", JStr TOOL_NAMES.LIST_VOICES);
      ("description",
       JStr "Get a list of all available voices for text-to-speech generation.");
      ("parameters", JObj
         [("type", JStr "object");
          ("properties", JObj []);
          ("required", strings [])])];
   JObj
     [("name", JStr TOOL_NAMES.LIST_LANGUAGES);
      ("description",
       JStr "Get a list of all supported languages for text-to-speech generation.");
      ("parameters", JObj
         [("type", JStr "object");
          ("properties", JObj []);
          ("required", strings [])])]].

(** [getOpenAITools()]: every schema wrapped as a function tool. *)
Definition getOpenAITools (k : t) : list jsval :=
  map (fun schema => JObj [("type", JStr "function"); ("function", schema)])
      (getFunctionSchemas k).

(** [saveAudio(result, outputPath)] *)
Definition saveAudio (P : Platform) (k : t) (result outputPath : jsval) : Run bool :=
  save_result P result outputPath.

(** [getAudioBuffer(result)]: [None] is [null]. *)
Definition getAudioBuffer (P : Platform) (k : t) (result : jsval)
  : Result (option Buffer) :=
  match get_prop result "success" with
  | Throw e => Throw e
  | Return success =>
      if negb (truthy success) || negb (truthy (prop_of result "audioBase64"))
      then Return None
      else match Buffer_from P (prop_of result "audioBase64") with
           | Return b => Return (Some b)
           | Throw e => Throw e
           end
  end.

(** [getAudioUint8Array(result)]: the bytes of [getAudioBuffer(result)],
    or [null]. *)
Definition getAudioUint8Array (P : Platform) (k : t) (result : jsval)
  : Result (option (list byte)) :=
  match getAudioBuffer P k result with
  | Throw e => Throw e
  | Return buffer =>
      Return (match buffer with Some b => Some b | None => None end)
  end.
End LangVoiceToolkit.

(** [createLangVoiceToolkit(apiKey?)] *)
Definition createLangVoiceToolkit (P : Platform) (apiKey : option string)
  : Result LangVoiceToolkit.t :=
  LangVoiceToolkit.new P (LangVoiceClientOptions.with_key apiKey).

(* ================================================================== *)
(** ** tools/openai-tools.ts *)
(* ================================================================== *)

Module OpenAIToolCall.
(** [{ id, type: 'function', function: { name, arguments } }] *)
Record t : Type := mk { id : string; name : string; arguments : string }.
End OpenAIToolCall.

(** The four tool definitions. *)
Definition LANGVOICE_TTS_TOOL : jsval :=
  JObj
    [("type", JStr "function");
     ("function", JObj
        [("name", JStr TOOL_NAMES.TTS);
         ("description",
          JStr "Convert text to natural-sounding speech audio using LangVoice TTS API. Returns base64-encoded MP3 audio.");
         ("parameters", JObj
            [("type", JStr "object");
             ("properties", JObj
                [("text", JObj
                    [("type", JStr "string");
                     ("description",
                      JStr "The text to convert to speech. Maximum 5000 characters.")]);
                 ("voice", JObj
                    [("type", JStr "string");
                     ("description", JStr "Voice ID to use for speech generation.");
                     ("enum", strings types.ALL_VOICES);
                     ("default", JStr "heart")]);
                 ("language", JObj
                    [("type", JStr "string");
                     ("description", JStr "Language code for the speech.");
                     ("enum", strings types.LANGUAGES);
                     ("default", JStr "american_english")]);
                 ("speed", JObj
                    [("type", JStr "number");
                     ("description",
                      JStr "Speech speed from 0.5 (slow) to 2.0 (fast). Default is 1.0.");
                     ("minimum", JNum n0_5);
                     ("maximum", JNum n2_0);
                     ("default", JNum n1_0)])]);
             ("required", strings ["text"])])])].

Definition LANGVOICE_MULTI_VOICE_TOOL : jsval :=
  JObj
    [("type", JStr "function");
     ("function", JObj
        [("name", JStr TOOL_NAMES.MULTI_VOICE);
         ("description",
          JStr "Generate speech with multiple voices using bracket notation. Use [voice_name] to switch voices in the text.");
         ("parameters", JObj
            [("type", JStr "object");
             ("properties", JObj
                [("text", JObj
                    [("type", JStr "string");
                     ("description",
                      JStr "Text with voice markers. Example: '[heart] Hello! [michael] Hi there!'")]);
                 ("language", JObj
                    [("type", JStr "string");
                     ("description", JStr "Language code for all voices.");
                     ("enum", strings types.LANGUAGES);
                     ("default", JStr "american_english")]);
                 ("speed", JObj
                    [("type", JStr "number");
                     ("description", JStr "Speech speed from 0.5 to 2.0.");
                     ("minimum", JNum n0_5);
                     ("maximum", JNum n2_0);
                     ("default", JNum n1_0)])]);
             ("required", strings ["text"])])])].

Definition LANGVOICE_LIST_VOICES_TOOL : jsval :=
  JObj
    [("type", JStr "function");
     ("function", JObj
        [("name", JStr TOOL_NAMES.LIST_VOICES);
         ("description",
          JStr "Get a list of all available voices for text-to-speech generation.");
         ("parameters", JObj
            [("type", JStr "object");
             ("properties", JObj []);
             ("required", strings [])])])].

Definition LANGVOICE_LIST_LANGUAGES_TOOL : jsval :=
  JObj
    [("type", JStr "function");
     ("function", JObj
        [("name", JStr TOOL_NAMES.LIST_LANGUAGES);
         ("description",
          JStr "Get a list of all supported languages for text-to-speech generation.");
         ("parameters", JObj
            [("type", JStr "object");
             ("properties", JObj []);
             ("required", strings [])])])].

(** [getOpenAITools()] *)
Definition getOpenAITools : list jsval :=
  [LANGVOICE_TTS_TOOL; LANGVOICE_MULTI_VOICE_TOOL;
   LANGVOICE_LIST_VOICES_TOOL; LANGVOICE_LIST_LANGUAGES_TOOL].

(** [handleOpenAIToolCall(toolName, args, apiKey)] *)
Definition handleOpenAIToolCall (P : Platform) (toolName : string) (args : jsval)
    (apiKey : option string) : Run JsonText :=
  client <- lift (LangVoiceClient.new P (LangVoiceClientOptions.with_key apiKey)) ;;
  try_catch
    (result <-
       (if str_eqb toolName TOOL_NAMES.TTS then
          text <- lift (get_prop args "text") ;;
          response <- LangVoiceClient.generate P client
            {| GenerateOptions.text := text;
               GenerateOptions.voice := js_or (prop_of args "voice") (JStr "heart");
               GenerateOptions.language :=
                 js_or (prop_of args "language") (JStr "american_english");
               GenerateOptions.speed := js_or (prop_of args "speed") (JNum n1_0) |} ;;
          ret (JObj [("success", JBool true);
                     ("audioBase64", JStr (GenerateResponse.toBase64 response));
                     ("duration", opt_num (GenerateResponse.duration response));
                     ("charactersProcessed",
                      opt_num (GenerateResponse.charactersProcessed response))])
        else if str_eqb toolName TOOL_NAMES.MULTI_VOICE then
          text <- lift (get_prop args "text") ;;
          response <- LangVoiceClient.generateMultiVoice P client
            {| MultiVoiceOptions.text := text;
               MultiVoiceOptions.language :=
                 js_or (prop_of args "language") (JStr "american_english");
               MultiVoiceOptions.speed := js_or (prop_of args "speed") (JNum n1_0) |} ;;
          ret (JObj [("success", JBool true);
                     ("audioBase64", JStr (GenerateResponse.toBase64 response));
                     ("duration", opt_num (GenerateResponse.duration response))])
        else if str_eqb toolName TOOL_NAMES.LIST_VOICES then
          voices <- LangVoiceClient.listVoices P client ;;
          ret (JObj [("success", JBool true); ("voices", voice_infos voices)])
        else if str_eqb toolName TOOL_NAMES.LIST_LANGUAGES then
          languages <- LangVoiceClient.listLanguages P client ;;
          ret (JObj [("success", JBool true);
                     ("languages", language_infos languages)])
        else ret (failure ("Unknown tool: " ^^ toolName))) ;;
     ret (JSON_stringify result))
    (fun error => ret (JSON_stringify (caught error))).

Module LangVoiceOpenAITools.
Record t : Type := mk { client : LangVoiceClient.t }.

Definition new (P : Platform) (options : LangVoiceClientOptions.t) : Result t :=
  match LangVoiceClient.new P options with
  | Return c => Return (mk c)
  | Throw e => Throw e
  end.

(** [getTools()] *)
Definition getTools (o : t) : list jsval := getOpenAITools.

(** [handleCall(toolCall)] *)
Definition handleCall (P : Platform) (o : t) (toolCall : OpenAIToolCall.t)
  : Run jsval :=
  args <- lift (JSON_parse P (OpenAIToolCall.arguments toolCall)) ;;
  resultJson <- handleOpenAIToolCall P (OpenAIToolCall.name toolCall) args
                  (Some (LangVoiceClient.getApiKey (client o))) ;;
  ret (JSON_parse_text resultJson).

(** [saveAudioFromResult(result, outputPath)] *)
Definition saveAudioFromResult (P : Platform) (o : t) (result outputPath : jsval)
  : Run bool :=
  save_result P result outputPath.

(** [getAudioBuffer(result)] *)
Definition getAudioBuffer (P : Platform) (o : t) (result : jsval)
  : Result (option Buffer) :=
  match get_prop result "success" with
  | Throw e => Throw e
  | Return success =>
      if negb (truthy success) || negb (truthy (prop_of result "audioBase64"))
      then Return None
      else match Buffer_from P (prop_of result "audioBase64") with
           | Return b => Return (Some b)
           | Throw e => Throw e
           end
  end.
End LangVoiceOpenAITools.

(* ================================================================== *)
(** ** tools/langchain-tools.ts *)
(* ================================================================== *)

(** The two marks that open a LangChain reply, U+2705 and U+274C, as their
    UTF-8 bytes. *)
Definition check_mark : string :=
  String (ascii_of_nat 226) (String (ascii_of_nat 156) (String (ascii_of_nat 133) "")).
Definition cross_mark : string :=
  String (ascii_of_nat 226) (String (ascii_of_nat 157) (String (ascii_of_nat 140) "")).

(** [`${v}`] for an optional number. *)
Definition show_num (o : option jsnum) : string :=
  match o with
  | Some n => Number_toString n
  | None => "undefined"
  end.

(** [response.toBase64().substring(0, 100)] followed by three dots. *)
Definition preview (response : GenerateResponse.t) : string :=
  substring0 100 (GenerateResponse.toBase64 response) ^^ "...".

Module LangChainToolOptions.
Record t : Type := mk { apiKey : option string; outputFile : option string }.
End LangChainToolOptions.

(** [typeof input === 'string' ? { text: input } : input] *)
Definition langchain_params (input : jsval) : jsval :=
  match input with
  | JStr s => JObj [("text", JStr s)]
  | _ => input
  end.

Module LangVoiceTTSTool.
Record t : Type := mk { client : LangVoiceClient.t; outputFile : string }.
Definition name : string := TOOL_NAMES.TTS.

Definition new (P : Platform) (options : LangChainToolOptions.t) : Result t :=
  match LangVoiceClient.new P
          (LangVoiceClientOptions.with_key (LangChainToolOptions.apiKey options)) with
  | Return c =>
      Return (mk c (str_or (LangChainToolOptions.outputFile options) "output.mp3"))
  | Throw e => Throw e
  end.

(** [call(input)] *)
Definition call (P : Platform) (tool : t) (input : jsval) : Run string :=
  try_catch
    (let params := langchain_params input in
     text <- lift (get_prop params "text") ;;
     response <- LangVoiceClient.generate P (client tool)
       {| GenerateOptions.text := text;
          GenerateOptions.voice := js_or (prop_of params "voice") (JStr "heart");
          GenerateOptions.language :=
            js_or (prop_of params "language") (JStr "american_english");
          GenerateOptions.speed := js_or (prop_of params "speed") (JNum n1_0) |} ;;
     if negb (str_eqb (outputFile tool) "") then
       try_catch
         (fs <- import_fs P ;;
          fs (JStr (outputFile tool)) (GenerateResponse.audioData response) ;;;
          ret (check_mark ^^ " Speech generated and saved to " ^^ outputFile tool
               ^^ "! " ^^ "Duration: "
               ^^ show_num (GenerateResponse.duration response) ^^ "s, "
               ^^ "Characters: "
               ^^ show_num (GenerateResponse.charactersProcessed response)))
         (fun _ =>
            ret (check_mark ^^ " Speech generated! Duration: "
                 ^^ show_num (GenerateResponse.duration response) ^^ "s. "
                 ^^ "Audio (base64): " ^^ preview response))
     else
       ret (check_mark ^^ " Speech generated! Duration: "
            ^^ show_num (GenerateResponse.duration response) ^^ "s. "
            ^^ "Audio (base64): " ^^ preview response))
    (fun error =>
       ret (cross_mark ^^ " Error generating speech: " ^^ error_text error)).

Definition invoke := call.
End LangVoiceTTSTool.

Module LangVoiceMultiVoiceTool.
Record t : Type := mk { client : LangVoiceClient.t; outputFile : option string }.
Definition name : string := TOOL_NAMES.MULTI_VOICE.

Definition new (P : Platform) (options : LangChainToolOptions.t) : Result t :=
  match LangVoiceClient.new P
          (LangVoiceClientOptions.with_key (LangChainToolOptions.apiKey options)) with
  | Return c => Return (mk c (LangChainToolOptions.outputFile options))
  | Throw e => Throw e
  end.

(** [call(input)] *)
Definition call (P : Platform) (tool : t) (input : jsval) : Run string :=
  try_catch
    (let params := langchain_params input in
     text <- lift (get_prop params "text") ;;
     response <- LangVoiceClient.generateMultiVoice P (client tool)
       {| MultiVoiceOptions.text := text;
          MultiVoiceOptions.language :=
            js_or (prop_of params "language") (JStr "american_english");
          MultiVoiceOptions.speed := js_or (prop_of params "speed") (JNum n1_0) |} ;;
     if negb (str_eqb (str_or (outputFile tool) "") "") then
       try_catch
         (fs <- import_fs P ;;
          fs (JStr (str_or (outputFile tool) ""))
             (GenerateResponse.audioData response) ;;;
          ret (check_mark ^^ " Multi-voice speech generated and saved to "
               ^^ str_or (outputFile tool) "" ^^ "! " ^^ "Duration: "
               ^^ show_num (GenerateResponse.duration response) ^^ "s"))
         (fun _ =>
            ret (check_mark ^^ " Multi-voice speech generated! Duration: "
                 ^^ show_num (GenerateResponse.duration response) ^^ "s. "
                 ^^ "Audio available in base64 format."))
     else
       ret (check_mark ^^ " Multi-voice speech generated! Duration: "
            ^^ show_num (GenerateResponse.duration response) ^^ "s. "
            ^^ "Audio available in base64 format."))
    (fun error =>
       ret (cross_mark ^^ " Error generating multi-voice speech: "
            ^^ error_text error)).

Definition invoke := call.
End LangVoiceMultiVoiceTool.

(** [items.join(', ')] *)
Fixpoint join_comma (l : list string) : string :=
  match l with
  | [] => ""
  | [x] => x
  | x :: r => x ^^ ", " ^^ join_comma r
  end.

Module LangVoiceVoicesTool.
Record t : Type := mk { client : LangVoiceClient.t }.
Definition name : string := TOOL_NAMES.LIST_VOICES.

Definition new (P : Platform) (options : LangChainToolOptions.t) : Result t :=
  match LangVoiceClient.new P
          (LangVoiceClientOptions.with_key (LangChainToolOptions.apiKey options)) with
  | Return c => Return (mk c)
  | Throw e => Throw e
  end.

(** [`${v.id} (${v.name})`] *)
Definition label (v : Voice.t) : Result string :=
  match js_ToString (Voice.id v) with
  | Throw e => Throw e
  | Return i =>
      match js_ToString (Voice.name v) with
      | Throw e => Throw e
      | Return n => Return (i ^^ " (" ^^ n ^^ ")")
      end
  end.

(** [call()] *)
Definition call (P : Platform) (tool : t) : Run string :=
  try_catch
    (voices <- LangVoiceClient.listVoices P (client tool) ;;
     labels <- lift (map_result label voices) ;;
     let voiceList := join_comma labels in
     ret ("Available voices: " ^^ voiceList))
    (fun error => ret ("Error listing voices: " ^^ error_text error)).
End LangVoiceVoicesTool.

Module LangVoiceLanguagesTool.
Record t : Type := mk { client : LangVoiceClient.t }.
Definition name : string := TOOL_NAMES.LIST_LANGUAGES.

Definition new (P : Platform) (options : LangChainToolOptions.t) : Result t :=
  match LangVoiceClient.new P
          (LangVoiceClientOptions.with_key (LangChainToolOptions.apiKey options)) with
  | Return c => Return (mk c)
  | Throw e => Throw e
  end.

(** [`${l.id} (${l.name})`] *)
Definition label (l : Language.t) : Result string :=
  match js_ToString (Language.id l) with
  | Throw e => Throw e
  | Return i =>
      match js_ToString (Language.name l) with
      | Throw e => Throw e
      | Return n => Return (i ^^ " (" ^^ n ^^ ")")
      end
  end.

(** [call()] *)
Definition call (P : Platform) (tool : t) : Run string :=
  try_catch
    (languages <- LangVoiceClient.listLanguages P (client tool) ;;
     labels <- lift (map_result label languages) ;;
     let langList := join_comma labels in
     ret ("Supported languages: " ^^ langList))
    (fun error => ret ("Error listing languages: " ^^ error_text error)).
End LangVoiceLanguagesTool.

(** A tool of the adapter, by its class. *)
Inductive BaseLangVoiceTool : Type :=
| TTSTool (tool : LangVoiceTTSTool.t)
| MultiVoiceTool (tool : LangVoiceMultiVoiceTool.t)
| VoicesTool (tool : LangVoiceVoicesTool.t)
| LanguagesTool (tool : LangVoiceLanguagesTool.t).

(** [tool.name] *)
Definition tool_name (tool : BaseLangVoiceTool) : string :=
  match tool with
  | TTSTool _ => LangVoiceTTSTool.name
  | MultiVoiceTool _ => LangVoiceMultiVoiceTool.name
  | VoicesTool _ => LangVoiceVoicesTool.name
  | LanguagesTool _ => LangVoiceLanguagesTool.name
  end.

(** [tool.invoke(input)]: [this.call(input)]; the two listing tools take
    no input. *)
Definition tool_invoke (P : Platform) (tool : BaseLangVoiceTool) (input : jsval)
  : Run string :=
  match tool with
  | TTSTool t => LangVoiceTTSTool.call P t input
  | MultiVoiceTool t => LangVoiceMultiVoiceTool.call P t input
  | VoicesTool t => LangVoiceVoicesTool.call P t
  | LanguagesTool t => LangVoiceLanguagesTool.call P t
  end.

Module LangVoiceLangChainToolkit.
Record t : Type := mk { apiKey : option string }.

(** [getTools()]: the four tools, built in this order with the key of the
    toolkit and no output file. *)
Definition getTools (P : Platform) (k : t) : Result (list BaseLangVoiceTool) :=
  let options := LangChainToolOptions.mk (apiKey k) None in
  match LangVoiceTTSTool.new P options with
  | Throw e => Throw e
  | Return tts =>
  match LangVoiceMultiVoiceTool.new P options with
  | Throw e => Throw e
  | Return multi =>
  match LangVoiceVoicesTool.new P options with
  | Throw e => Throw e
  | Return voices =>
  match LangVoiceLanguagesTool.new P options with
  | Throw e => Throw e
  | Return languages =>
      Return [TTSTool tts; MultiVoiceTool multi; VoicesTool voices;
              LanguagesTool languages]
  end end end end.

Definition getTTSTool (P : Platform) (k : t) (outputFile : option string) :=
  LangVoiceTTSTool.new P (LangChainToolOptions.mk (apiKey k) outputFile).

Definition getMultiVoiceTool (P : Platform) (k : t) (outputFile : option string) :=
  LangVoiceMultiVoiceTool.new P (LangChainToolOptions.mk (apiKey k) outputFile).

Definition getVoicesTool (P : Platform) (k : t) :=
  LangVoiceVoicesTool.new P (LangChainToolOptions.mk (apiKey k) None).

Definition getLanguagesTool (P : Platform) (k : t) :=
  LangVoiceLanguagesTool.new P (LangChainToolOptions.mk (apiKey k) None).
End LangVoiceLangChainToolkit.

(** [getAllLangChainTools(apiKey?)] *)
Definition getAllLangChainTools (P : Platform) (apiKey : option string)
  : Result (list BaseLangVoiceTool) :=
  LangVoiceLangChainToolkit.getTools P (LangVoiceLangChainToolkit.mk apiKey).

(* ================================================================== *)
(** ** tools/autogen-tools.ts *)
(* ================================================================== *)

Module AutoGenToolOptions.
Record t : Type := mk {
  apiKey : option string; outputFile : option string; autoSave : option bool
}.
End AutoGenToolOptions.

Module AutoGenFunctionCall.
(** [arguments] is an object or a string holding JSON. *)
Record t : Type := mk { name : string; arguments : jsval }.
End AutoGenFunctionCall.

Module TTSResult.
Record t : Type := mk {
  success : bool;
  error : option string;
  audioBase64 : option string;
  audioBuffer : option Buffer;
  duration : option jsnum;
  charactersProcessed : option jsnum
}.
Definition failed (message : string) : t := mk false (Some message) None None None None.
End TTSResult.

(** The four function definitions. *)
Definition TTS_FUNCTION_DEF : jsval :=
  JObj
    [("name", JStr TOOL_NAMES.TTS);
     ("description",
      JStr ("Convert text to natural-sounding speech audio using LangVoice TTS API. "
            ^^ "Returns information about the generated audio including duration and a success status. "
            ^^ "The audio is saved to a file if outputFile is configured."));
     ("parameters", JObj
        [("type", JStr "object");
         ("properties", JObj
            [("text", JObj
                [("type", JStr "string");
                 ("description",
                  JStr "The text to convert to speech. Maximum 5000 characters.")]);
             ("voice", JObj
                [("type", JStr "string");
                 ("description",
                  JStr "Voice ID to use. Available voices include: heart, bella, michael, emma, etc.");
                 ("enum", strings types.ALL_VOICES);
                 ("default", JStr "heart")]);
             ("language", JObj
                [("type", JStr "string");
                 ("description", JStr "Language code for the speech.");
                 ("enum", strings types.LANGUAGES);
                 ("default", JStr "american_english")]);
             ("speed", JObj
                [("type", JStr "number");
                 ("description",
                  JStr "Speech speed from 0.5 (slow) to 2.0 (fast). Default is 1.0.");
                 ("minimum", JNum n0_5);
                 ("maximum", JNum n2_0);
                 ("default", JNum n1_0)]);
             ("output_file", JObj
                [("type", JStr "string");
                 ("description",
                  JStr "Optional file path to save the audio. Defaults to output.mp3.")])]);
         ("required", strings ["text"])])].

Definition MULTI_VOICE_FUNCTION_DEF : jsval :=
  JObj
    [("name", JStr TOOL_NAMES.MULTI_VOICE);
     ("description",
      JStr ("Generate speech with multiple voices in a single audio file. "
            ^^ "Use bracket notation to switch voices: '[heart] Hello! [michael] Hi there!' "
            ^^ "All voices will use the same language and speed settings."));
     ("parameters", JObj
        [("type", JStr "object");
         ("properties", JObj
            [("text", JObj
                [("type", JStr "string");
                 ("description",
                  JStr ("Text with voice markers. Use [voice_name] to switch voices. "
                        ^^ "Example: '[heart] Welcome to the show! [michael] Thanks for having me!'"))]);
             ("language", JObj
                [("type", JStr "string");
                 ("description", JStr "Language code for all voices in the audio.");
                 ("enum", strings types.LANGUAGES);
                 ("default", JStr "american_english")]);
             ("speed", JObj
                [("type", JStr "number");
                 ("description", JStr "Speech speed from 0.5 to 2.0.");
                 ("minimum", JNum n0_5);
                 ("maximum", JNum n2_0);
                 ("default", JNum n1_0)]);
             ("output_file", JObj
                [("type", JStr "string");
                 ("description", JStr "Optional file path to save the audio.")])]);
         ("required", strings ["text"])])].

Definition LIST_VOICES_FUNCTION_DEF : jsval :=
  JObj
    [("name", JStr TOOL_NAMES.LIST_VOICES);
     ("description",
      JStr ("Get a list of all available voices for text-to-speech generation. "
            ^^ "Returns voice IDs and names that can be used with the TTS functions."));
     ("parameters", JObj
        [("type", JStr "object");
         ("properties", JObj []);
         ("required", strings [])])].

Definition LIST_LANGUAGES_FUNCTION_DEF : jsval :=
  JObj
    [("name", JStr TOOL_NAMES.LIST_LANGUAGES);
     ("description",
      JStr ("Get a list of all supported languages for text-to-speech generation. "
            ^^ "Returns language codes and names."));
     ("parameters", JObj
        [("type", JStr "object");
         ("properties", JObj []);
         ("required", strings [])])].

(** What a handler call gives back: the text of [JSON.stringify], or, when
    the callee was not one of the SDK's handlers, some other value. *)
Inductive Reply : Type :=
| ReplyJson (t : JsonText)
| ReplyValue (v : jsval).

(** The names every object literal inherits from [Object.prototype]. *)
Definition Object_prototype_members : list string :=
  ["constructor"; "__defineGetter__"; "__defineSetter__"; "hasOwnProperty";
   "__lookupGetter__"; "__lookupSetter__"; "isPrototypeOf";
   "propertyIsEnumerable"; "toString"; "valueOf"; "__proto__"; "toLocaleString"].

(** [obj[name](args)] for an inherited member, called with no receiver:
    [__proto__] is an object and cannot be called; [Object(args)] gives
    [args] back (a fresh object for [null]; a primitive comes back wrapped,
    which the model does not tell apart); [toString] renders the
    missing receiver; [isPrototypeOf] answers [false] to a primitive;
    [hasOwnProperty] and [propertyIsEnumerable] convert their argument to
    a property key first; the others fail when they convert the receiver
    to an object, with the message the engine (V8) gives each. *)
Definition call_inherited (member : string) (args : jsval) : Result jsval :=
  if str_eqb member "__proto__" then Throw (TypeError "handler is not a function")
  else if str_eqb member "constructor" then
    Return (match args with JUndefined | JNull => JObj [] | _ => args end)
  else if str_eqb member "toString" then Return (JStr "[object Undefined]")
  else if str_eqb member "isPrototypeOf" then
    match args with
    | JObj _ | JArr _ => Throw (TypeError "Cannot convert undefined or null to object")
    | _ => Return (JBool false)
    end
  else if str_eqb member "toLocaleString" then
    Throw (TypeError "Object.prototype.toLocaleString called on null or undefined")
  else if str_eqb member "hasOwnProperty" || str_eqb member "propertyIsEnumerable" then
    match js_ToString args with
    | Throw e => Throw e
    | Return _ => Throw (TypeError "Cannot convert undefined or null to object")
    end
  else Throw (TypeError "Cannot convert undefined or null to object").

Module LangVoiceAutoGenTools.
Record t : Type := mk {
  client : LangVoiceClient.t; outputFile : string; autoSave : bool
}.

Definition new (P : Platform) (options : AutoGenToolOptions.t) : Result t :=
  match LangVoiceClient.new P
          (LangVoiceClientOptions.with_key (AutoGenToolOptions.apiKey options)) with
  | Return c =>
      Return (mk c (str_or (AutoGenToolOptions.outputFile options) "output.mp3")
                   (match AutoGenToolOptions.autoSave options with
                    | Some b => b
                    | None => true
                    end))
  | Throw e => Throw e
  end.

Definition getClient (a : t) : LangVoiceClient.t := client a.

(** [getFunctionDefinitions()] *)
Definition getFunctionDefinitions (a : t) : list jsval :=
  [TTS_FUNCTION_DEF; MULTI_VOICE_FUNCTION_DEF;
   LIST_VOICES_FUNCTION_DEF; LIST_LANGUAGES_FUNCTION_DEF].

(** [getFunctionDefinition(name)]: the first definition [f] with
    [f.name === name]; [None] is [undefined]. *)
Definition getFunctionDefinition (a : t) (name : string) : option jsval :=
  find (fun f => js_strict_eq_str (prop_of f "name") name) (getFunctionDefinitions a).

Definition getTTSFunctionDef (a : t) : jsval := TTS_FUNCTION_DEF.
Definition getMultiVoiceFunctionDef (a : t) : jsval := MULTI_VOICE_FUNCTION_DEF.

(** [textToSpeechHandler(args)] *)
Definition textToSpeechHandler (P : Platform) (a : t) (args : jsval) : Run JsonText :=
  try_catch
    (text <- lift (get_prop args "text") ;;
     response <- LangVoiceClient.generate P (client a)
       {| GenerateOptions.text := text;
          GenerateOptions.voice := js_or (prop_of args "voice") (JStr "heart");
          GenerateOptions.language :=
            js_or (prop_of args "language") (JStr "american_english");
          GenerateOptions.speed := js_or (prop_of args "speed") (JNum n1_0) |} ;;
     let outputPath := js_or (prop_of args "output_file") (JStr (outputFile a)) in
     if autoSave a then
       try_catch
         (fs <- import_fs P ;;
          fs outputPath (GenerateResponse.audioData response) ;;;
          shown <- lift (js_ToString outputPath) ;;
          ret (JSON_stringify (JObj
            [("success", JBool true);
             ("message", JStr ("Speech generated and saved to " ^^ shown));
             ("duration", opt_num (GenerateResponse.duration response));
             ("charactersProcessed",
              opt_num (GenerateResponse.charactersProcessed response));
             ("outputFile", outputPath)])))
         (fun fsError =>
            ret (JSON_stringify (JObj
              [("success", JBool true);
               ("message",
                JStr "Speech generated (file save not available in this environment)");
               ("duration", opt_num (GenerateResponse.duration response));
               ("charactersProcessed",
                opt_num (GenerateResponse.charactersProcessed response));
               ("audioBase64Preview", JStr (preview response))])))
     else
       ret (JSON_stringify (JObj
         [("success", JBool true);
          ("duration", opt_num (GenerateResponse.duration response));
          ("charactersProcessed",
           opt_num (GenerateResponse.charactersProcessed response));
          ("audioBase64", JStr (GenerateResponse.toBase64 response))])))
    (fun error => ret (JSON_stringify (caught error))).

(** [multiVoiceHandler(args)] *)
Definition multiVoiceHandler (P : Platform) (a : t) (args : jsval) : Run JsonText :=
  try_catch
    (text <- lift (get_prop args "text") ;;
     response <- LangVoiceClient.generateMultiVoice P (client a)
       {| MultiVoiceOptions.text := text;
          MultiVoiceOptions.language :=
            js_or (prop_of args "language") (JStr "american_english");
          MultiVoiceOptions.speed := js_or (prop_of args "speed") (JNum n1_0) |} ;;
     let outputPath := js_or (prop_of args "output_file") (JStr (outputFile a)) in
     if autoSave a then
       try_catch
         (fs <- import_fs P ;;
          fs outputPath (GenerateResponse.audioData response) ;;;
          shown <- lift (js_ToString outputPath) ;;
          ret (JSON_stringify (JObj
            [("success", JBool true);
             ("message", JStr ("Multi-voice speech generated and saved to "
                               ^^ shown));
             ("duration", opt_num (GenerateResponse.duration response));
             ("outputFile", outputPath)])))
         (fun _ =>
            ret (JSON_stringify (JObj
              [("success", JBool true);
               ("message", JStr "Multi-voice speech generated");
               ("duration", opt_num (GenerateResponse.duration response))])))
     else
       ret (JSON_stringify (JObj
         [("success", JBool true);
          ("duration", opt_num (GenerateResponse.duration response));
          ("audioBase64", JStr (GenerateResponse.toBase64 response))])))
    (fun error => ret (JSON_stringify (caught error))).

(** [listVoicesHandler()] *)
Definition listVoicesHandler (P : Platform) (a : t) : Run JsonText :=
  try_catch
    (voices <- LangVoiceClient.listVoices P (client a) ;;
     ret (JSON_stringify (JObj
       [("success", JBool true); ("voices", voice_infos voices);
        ("count", JNum (num_of_Z (Z.of_nat (List.length voices))))])))
    (fun error => ret (JSON_stringify (caught error))).

(** [listLanguagesHandler()] *)
Definition listLanguagesHandler (P : Platform) (a : t) : Run JsonText :=
  try_catch
    (languages <- LangVoiceClient.listLanguages P (client a) ;;
     ret (JSON_stringify (JObj
       [("success", JBool true); ("languages", language_infos languages);
        ("count", JNum (num_of_Z (Z.of_nat (List.length languages))))])))
    (fun error => ret (JSON_stringify (caught error))).

(** What [getFunctionMap()[name]] finds: one of the four handlers, a
    member inherited from [Object.prototype], or [undefined]. *)
Inductive Entry : Type :=
| Handler (h : Platform -> t -> jsval -> Run JsonText)
| Inherited (member : string)
| Undefined.

(** [getFunctionMap()[name]] *)
Definition getFunctionMap (name : string) : Entry :=
  if str_eqb name TOOL_NAMES.TTS then Handler textToSpeechHandler
  else if str_eqb name TOOL_NAMES.MULTI_VOICE then Handler multiVoiceHandler
  else if str_eqb name TOOL_NAMES.LIST_VOICES then
    Handler (fun P a _ => listVoicesHandler P a)
  else if str_eqb name TOOL_NAMES.LIST_LANGUAGES then
    Handler (fun P a _ => listLanguagesHandler P a)
  else if existsb (str_eqb name) Object_prototype_members then Inherited name
  else Undefined.

(** [typeof arguments === 'string' ? JSON.parse(arguments) : arguments] *)
Definition read_arguments (P : Platform) (arguments : jsval) : Result jsval :=
  match arguments with
  | JStr s => JSON_parse P s
  | v => Return v
  end.

(** [handleFunctionCall(call)] *)
Definition handleFunctionCall (P : Platform) (a : t) (call : AutoGenFunctionCall.t)
  : Run Reply :=
  args <- lift (read_arguments P (AutoGenFunctionCall.arguments call)) ;;
  match getFunctionMap (AutoGenFunctionCall.name call) with
  | Undefined =>
      ret (ReplyJson (JSON_stringify
             (failure ("Unknown function: " ^^ AutoGenFunctionCall.name call))))
  | Handler handler => r <- handler P a args ;; ret (ReplyJson r)
  | Inherited member => v <- lift (call_inherited member args) ;; ret (ReplyValue v)
  end.

(** [generateSpeech(input)] *)
Definition generateSpeech (P : Platform) (a : t) (input : TTSInput.t)
  : Run TTSResult.t :=
  try_catch
    (response <- LangVoiceClient.generate P (client a)
       {| GenerateOptions.text := TTSInput.text input;
          GenerateOptions.voice := js_or (TTSInput.voice input) (JStr "heart");
          GenerateOptions.language :=
            js_or (TTSInput.language input) (JStr "american_english");
          GenerateOptions.speed := js_or (TTSInput.speed input) (JNum n1_0) |} ;;
     ret {| TTSResult.success := true;
            TTSResult.error := None;
            TTSResult.audioBase64 := Some (GenerateResponse.toBase64 response);
            TTSResult.audioBuffer := Some (GenerateResponse.audioData response);
            TTSResult.duration := GenerateResponse.duration response;
            TTSResult.charactersProcessed :=
              GenerateResponse.charactersProcessed response |})
    (fun error => ret (TTSResult.failed (error_text error))).

(** [generateMultiVoice(input)] *)
Definition generateMultiVoice (P : Platform) (a : t) (input : MultiVoiceInput.t)
  : Run TTSResult.t :=
  try_catch
    (response <- LangVoiceClient.generateMultiVoice P (client a)
       {| MultiVoiceOptions.text := MultiVoiceInput.text input;
          MultiVoiceOptions.language :=
            js_or (MultiVoiceInput.language input) (JStr "american_english");
          MultiVoiceOptions.speed :=
            js_or (MultiVoiceInput.speed input) (JNum n1_0) |} ;;
     ret {| TTSResult.success := true;
            TTSResult.error := None;
            TTSResult.audioBase64 := Some (GenerateResponse.toBase64 response);
            TTSResult.audioBuffer := Some (GenerateResponse.audioData response);
            TTSResult.duration := GenerateResponse.duration response;
            TTSResult.charactersProcessed := None |})
    (fun error => ret (TTSResult.failed (error_text error))).

(** [saveAudio(result, outputPath?)] *)
Definition saveAudio (P : Platform) (a : t) (result : TTSResult.t)
    (outputPath : option string) : Run bool :=
  if negb (TTSResult.success result)
     || str_eqb (str_or (TTSResult.audioBase64 result) "") ""
  then ret false
  else
    try_catch
      (fs <- import_fs P ;;
       let audioBuffer :=
         Buffer_from_base64 (str_or (TTSResult.audioBase64 result) "") in
       fs (JStr (str_or outputPath (outputFile a))) audioBuffer ;;;
       ret true)
      (fun _ => ret false).
End LangVoiceAutoGenTools.

(** [createAutoGenTools(options?)]: without options the constructor takes
    its default, the empty object. *)
Definition createAutoGenTools (P : Platform) (options : option AutoGenToolOptions.t)
  : Result LangVoiceAutoGenTools.t :=
  LangVoiceAutoGenTools.new P
    (match options with
     | Some o => o
     | None => AutoGenToolOptions.mk None None None
     end).

(** [getAutoGenFunctionDefinitions()] *)
Definition getAutoGenFunctionDefinitions : list jsval :=
  [TTS_FUNCTION_DEF; MULTI_VOICE_FUNCTION_DEF;
   LIST_VOICES_FUNCTION_DEF; LIST_LANGUAGES_FUNCTION_DEF].

(* ================================================================== *)
(** ** A sample platform *)
(* ================================================================== *)

(** A JSON reader for the sample platform (ECMA-404: objects, arrays,
    strings with their escapes, numbers, the three literals).  An escape
    above code unit 255, which has no image in [string], is not accepted. *)
Module SampleJson.

(** The double quote, and the string made of it. *)
Definition quote : ascii := ascii_of_nat 34.
Definition quoted : string := String quote EmptyString.

Definition is_ws (c : ascii) : bool :=
  let n := nat_of_ascii c in ((n =? 32) || (n =? 9) || (n =? 10) || (n =? 13))%nat.

Fixpoint skip_ws (s : string) : string :=
  match s with
  | String c r => if is_ws c then skip_ws r else s
  | EmptyString => s
  end.

Definition hex4 (s : string) : option (Z * string) :=
  match s with
  | String a (String b (String c (String d r))) =>
      match radix_digit_val 16 a, radix_digit_val 16 b,
            radix_digit_val 16 c, radix_digit_val 16 d with
      | Some x, Some y, Some z, Some w => Some (((x * 16 + y) * 16 + z) * 16 + w, r)
      | _, _, _, _ => None
      end
  | _ => None
  end.

Definition append_char (acc : string) (c : ascii) : string := acc ^^ String c "".

(** The body of a string literal after its opening quote. *)
Fixpoint string_body (fuel : nat) (s acc : string) : option (string * string) :=
  match fuel with
  | O => None
  | S k =>
      match s with
      | EmptyString => None
      | String c r =>
          if Ascii.eqb c quote then Some (acc, r)
          else if (nat_of_ascii c <? 32)%nat then None
          else if Ascii.eqb c "\" then
            match r with
            | String e r' =>
                let simple (x : nat) := string_body k r' (append_char acc (ascii_of_nat x)) in
                if Ascii.eqb e quote then simple 34%nat
                else if Ascii.eqb e "\" then simple 92%nat
                else if Ascii.eqb e "/" then simple 47%nat
                else if Ascii.eqb e "b" then simple 8%nat
                else if Ascii.eqb e "f" then simple 12%nat
                else if Ascii.eqb e "n" then simple 10%nat
                else if Ascii.eqb e "r" then simple 13%nat
                else if Ascii.eqb e "t" then simple 9%nat
                else if Ascii.eqb e "u" then
                  match hex4 r' with
                  | Some (u, r'') =>
                      if u <? 256
                      then string_body k r'' (append_char acc (ascii_of_nat (Z.to_nat u)))
                      else None
                  | None => None
                  end
                else None
            | EmptyString => None
            end
          else string_body k r (append_char acc c)
      end
  end.

(** A number: [-? int frac? exp?], no leading zero before a digit. *)
Definition number (s : string) : option (jsnum * string) :=
  let '(neg, s1) := match s with String "-" r => (true, r) | _ => (false, s) end in
  let '(iv, ic, s2) := read_digits s1 0 0 in
  let leading_zero := match s1 with String "0" _ => negb (ic =? 1) | _ => false end in
  if (ic =? 0) || leading_zero then None
  else
    match s2 with
    | String "." s3 =>
        let '(fv, fc, s4) := read_digits s3 iv 0 in
        if fc =? 0 then None
        else let '(ex, s5) := read_exponent s4 in
             Some (to_double (apply_sign neg fv) (ex - fc), s5)
    | _ => let '(ex, s5) := read_exponent s2 in
           Some (to_double (apply_sign neg iv) ex, s5)
    end.

Fixpoint value (fuel : nat) (s : string) : option (jsval * string) :=
  match fuel with
  | O => None
  | S k =>
      let s := skip_ws s in
      match s with
      | String "{" r =>
          match skip_ws r with
          | String "}" r' => Some (JObj [], r')
          | r' => members k r' []
          end
      | String "[" r =>
          match skip_ws r with
          | String "]" r' => Some (JArr [], r')
          | r' => elements k r' []
          end
      | _ =>
          match strip_prefix quoted s,
                strip_prefix "true" s, strip_prefix "false" s, strip_prefix "null" s with
          | Some r, _, _, _ =>
              match string_body (String.length r + 1) r "" with
              | Some (str, r') => Some (JStr str, r')
              | None => None
              end
          | _, Some r, _, _ => Some (JBool true, r)
          | _, _, Some r, _ => Some (JBool false, r)
          | _, _, _, Some r => Some (JNull, r)
          | _, _, _, _ =>
              match number s with
              | Some (n, r) => Some (JNum n, r)
              | None => None
              end
          end
      end
  end
with elements (fuel : nat) (s : string) (acc : list jsval) : option (jsval * string) :=
  match fuel with
  | O => None
  | S k =>
      match value k s with
      | Some (v, r) =>
          match skip_ws r with
          | String "," r' => elements k r' (acc ++ [v])
          | String "]" r' => Some (JArr (acc ++ [v]), r')
          | _ => None
          end
      | None => None
      end
  end
with members (fuel : nat) (s : string) (acc : list (string * jsval))
  : option (jsval * string) :=
  match fuel with
  | O => None
  | S k =>
      match strip_prefix quoted (skip_ws s) with
      | Some r =>
          match string_body (String.length r + 1) r "" with
          | Some (key, r1) =>
              match skip_ws r1 with
              | String ":" r2 =>
                  match value k r2 with
                  | Some (v, r3) =>
                      match skip_ws r3 with
                      | String "," r4 => members k r4 (acc ++ [(key, v)])
                      | String "}" r4 => Some (JObj (acc ++ [(key, v)]), r4)
                      | _ => None
                      end
                  | None => None
                  end
              | _ => None
              end
          | None => None
          end
      | None => None
      end
  end.

(** [JSON.parse(text)] *)
Definition parse (text : string) : Result jsval :=
  match value (2 * String.length text + 2) text with
  | Some (v, r) =>
      match skip_ws r with
      | EmptyString => Return v
      | _ => Throw (SyntaxError "Unexpected non-whitespace character after JSON")
      end
  | None => Throw (SyntaxError "Unexpected token in JSON")
  end.
End SampleJson.

(** A platform with no API key in the environment, the JSON reader above,
    a network that answers every request with [answer], and a file system
    that writes when [writable] and refuses otherwise. *)
Definition sample_platform (answer : FetchOutcome) (writable : bool) : Platform :=
  {| env_LANGVOICE_API_KEY := None;
     JSON_parse := SampleJson.parse;
     fetch := fun _ => answer;
     fs_writeFileSync :=
       Some (fun _ _ => if writable then Return tt
                        else Throw (Error "EACCES: permission denied"));
     Buffer_from_other :=
       fun _ => Throw (TypeError "The first argument must be of type string") |}.

(** An MP3 answer after 120 ms carrying the two metadata headers, and a
    JSON answer with an error body. *)
Definition sample_audio : Buffer := [x49; x44; x33; x04; x00].

Definition sample_response : Response :=
  {| status := 200; statusText := "OK";
     resp_headers := [("x-audio-duration", "2.5s");
                      ("x-characters-processed", "100")];
     json := Throw (SyntaxError "Unexpected token in JSON");
     arrayBuffer := Return sample_audio;
     body_time := 40 |}.

Definition sample_success : FetchOutcome :=
  {| latency := 120; settles := Return sample_response |}.

Definition sample_error (code : Z) (reason : string) (body : Result jsval)
  : FetchOutcome :=
  {| latency := 80;
     settles := Return {| status := code; statusText := reason;
                          resp_headers := [];
                          json := body;
                          arrayBuffer := Return [];
                          body_time := 5 |} |}.

Definition sample_client : LangVoiceClient.t :=
  {| LangVoiceClient.apiKey := "test-key";
     LangVoiceClient.baseUrl := "https://www.langvoice.pro/api";
     LangVoiceClient.timeout := Fin 60000 0 |}.

(* ================================================================== *)
(** ** The vocabulary of the statements *)
(* ================================================================== *)

(** The rational a finite number stands for. *)
Definition decimal_value (m e : Z) : Q := (inject_Z m * inject_Z 10 ^ e)%Q.

(** The effective speed of a typed call: the number given, or 1.0. *)
Definition effective_speed (s : option jsnum) : jsnum :=
  match s with Some x => x | None => n1_0 end.

(** The three messages of a rejected construction. *)
Definition validation_messages : list string :=
  ["Text is required"; "Text must be 5000 characters or less";
   "Speed must be between 0.5 and 2.0"].

(** A validation failure: a plain [Error] carrying one of them. *)
Definition validation_failure (t : thrown) : Prop :=
  exists m, In m validation_messages /\ t = Error m.

Definition sextet_ok (n : Z) : bool :=
  match b64_value (b64_char n) with
  | Some m => (m =? n) && negb (Ascii.eqb (b64_char n) "=")
  | None => false
  end.

(** The taxonomy of the specification, written from its words: 401 is an
    authentication error, 429 a rate-limit error, 400 a validation error,
    any other status a generic API error carrying that status. *)
Definition taxonomy (code : Z) (message : string) : thrown :=
  if code =? 401 then AuthenticationError message
  else if code =? 429 then RateLimitError message
  else if code =? 400 then ValidationError message
  else APIError message (Some code).

(** The message made from the status code alone. *)
Definition status_message (r : Response) : string :=
  "API error: " ^^ Number_toString (num_of_Z (status r)).

(** [fetch] settles with [r] on [req] before the abort timer of the client
    fires. *)
Definition answered (P : Platform) (c : LangVoiceClient.t) (req : HttpRequest)
    (r : Response) : Prop :=
  settles (fetch P req) = Return r
  /\ latency (fetch P req) <= timer_delay (LangVoiceClient.timeout c).

(** The value [handleResponseErrors] takes for the message: the [error]
    member of the body when it is truthy, a message made from the status
    when it is not, the status text when the body cannot be read. *)
Definition error_message (r : Response) : jsval :=
  match json r with
  | Return errorData =>
      match get_prop errorData "error" with
      | Return err => js_or err (JStr (status_message r))
      | Throw _ => JStr (str_or (Some (statusText r)) (status_message r))
      end
  | Throw _ => JStr (str_or (Some (statusText r)) (status_message r))
  end.

(** What is thrown for a response that is not 2xx: the error of the
    taxonomy on the string of that value, or the [TypeError] of a value
    that has none. *)
Definition response_error (r : Response) : thrown :=
  throw_new (taxonomy (status r)) (error_message r).

(** The message of what is thrown. *)
Definition thrown_message (r : Response) : string :=
  error_text (response_error r).

Definition not_found_response : Response :=
  {| status := 404; statusText := "Not Found"; resp_headers := [];
     json := Return (JObj [("error", JStr "Voice not found")]);
     arrayBuffer := Return [];
     body_time := 5 |}.

(** The member [error] of a JSON body, when the body is an object that
    has one and it is a string. *)
Definition server_error_field (r : Response) : option string :=
  match json r with
  | Return (JObj members) =>
      match lookup_member "error" members with
      | Some (JStr s) => Some s
      | _ => None
      end
  | _ => None
  end.

Definition empty_error_response : Response :=
  {| status := 500; statusText := "Internal Server Error"; resp_headers := [];
     json := Return (JObj [("error", JStr "")]);
     arrayBuffer := Return [];
     body_time := 5 |}.

(** The request data [generate] builds from its options. *)
Definition request_data (o : GenerateOptions.t) : GenerateRequest.t :=
  {| GenerateRequest.text := GenerateOptions.text o;
     GenerateRequest.voice := GenerateOptions.voice o;
     GenerateRequest.language := GenerateOptions.language o;
     GenerateRequest.speed := GenerateOptions.speed o |}.

Definition hello_options : GenerateOptions.t :=
  GenerateOptions.mk (JStr "Hello world") (JStr "heart") JUndefined JUndefined.

Definition hasty_client : LangVoiceClient.t :=
  {| LangVoiceClient.apiKey := "test-key";
     LangVoiceClient.baseUrl := "https://www.langvoice.pro/api";
     LangVoiceClient.timeout := Fin 100 0 |}.

(** The time a request takes when nothing cuts it short: until the
    response is there, and then until its body is read. *)
Definition duration (o : FetchOutcome) : Z :=
  latency o + match settles o with
              | Return r => body_time r
              | Throw _ => 0
              end.

(** An MP3 answer whose headers arrive after 80 ms and whose body takes a
    second to download. *)
Definition slow_body : FetchOutcome :=
  {| latency := 80;
     settles := Return {| status := 200; statusText := "OK"; resp_headers := [];
                          json := Throw (SyntaxError "Unexpected token in JSON");
                          arrayBuffer := Return sample_audio;
                          body_time := 1000 |} |}.

(** The call of the README for a cloned voice. *)
Definition cloning_options : VoiceCloningOptions.t :=
  VoiceCloningOptions.mk (JStr "Hello, this is my cloned voice speaking!")
    (JStr "UklGRg==") (JNum n1_0).


Definition one : jsval := JNum n1_0.

(** An argument bag that is neither [null] nor [undefined] can be read. *)
Definition readable (v : jsval) : Prop := v <> JNull /\ v <> JUndefined.

Definition sample_autogen : LangVoiceAutoGenTools.t :=
  LangVoiceAutoGenTools.mk sample_client "output.mp3" true.

Definition known (name : string) : Prop := In name TOOL_NAMES.all.

(** The write of [data] to [path] goes through. *)
Definition writes (P : Platform) (path : jsval) (data : Buffer) : Prop :=
  exists write u, fs_writeFileSync P = Some write /\ write path data = Return u.

(** The write of [data] to [path] fails: there is no [fs] to import, or
    [writeFileSync] throws. *)
Definition write_fails (P : Platform) (path : jsval) (data : Buffer) : Prop :=
  fs_writeFileSync P = None
  \/ exists write e, fs_writeFileSync P = Some write /\ write path data = Throw e.

(** [try { fs = await import('fs'); fs.writeFileSync(path, data); return a }
    catch { return b }] *)
Definition persist {A} (P : Platform) (path : jsval) (data : Buffer) (a b : A) : Run A :=
  try_catch (fs <- import_fs P ;; fs path data ;;; ret a) (fun _ => ret b).

(** The options an adapter hands to [generate] for an argument bag: the
    text as it is, the other three with their falsy-or defaults. *)
Definition adapter_options (args : jsval) : GenerateOptions.t :=
  {| GenerateOptions.text := prop_of args "text";
     GenerateOptions.voice := js_or (prop_of args "voice") (JStr "heart");
     GenerateOptions.language :=
       js_or (prop_of args "language") (JStr "american_english");
     GenerateOptions.speed := js_or (prop_of args "speed") (JNum n1_0) |}.

Definition adapter_multi_options (args : jsval) : MultiVoiceOptions.t :=
  {| MultiVoiceOptions.text := prop_of args "text";
     MultiVoiceOptions.language :=
       js_or (prop_of args "language") (JStr "american_english");
     MultiVoiceOptions.speed := js_or (prop_of args "speed") (JNum n1_0) |}.

(** The replies of the LangChain tools. *)
Definition langchain_saved (file : string) (r : GenerateResponse.t) : string :=
  check_mark ^^ " Speech generated and saved to " ^^ file ^^ "! " ^^ "Duration: "
  ^^ show_num (GenerateResponse.duration r) ^^ "s, " ^^ "Characters: "
  ^^ show_num (GenerateResponse.charactersProcessed r).

Definition langchain_inline (r : GenerateResponse.t) : string :=
  check_mark ^^ " Speech generated! Duration: "
  ^^ show_num (GenerateResponse.duration r) ^^ "s. "
  ^^ "Audio (base64): " ^^ preview r.

Definition langchain_multi_saved (file : string) (r : GenerateResponse.t) : string :=
  check_mark ^^ " Multi-voice speech generated and saved to " ^^ file ^^ "! "
  ^^ "Duration: " ^^ show_num (GenerateResponse.duration r) ^^ "s".

Definition langchain_multi_inline (r : GenerateResponse.t) : string :=
  check_mark ^^ " Multi-voice speech generated! Duration: "
  ^^ show_num (GenerateResponse.duration r) ^^ "s. "
  ^^ "Audio available in base64 format.".

(** The replies of the AutoGen handlers. *)
Definition autogen_degraded (r : GenerateResponse.t) : jsval :=
  JObj [("success", JBool true);
        ("message", JStr "Speech generated (file save not available in this environment)");
        ("duration", opt_num (GenerateResponse.duration r));
        ("charactersProcessed", opt_num (GenerateResponse.charactersProcessed r));
        ("audioBase64Preview", JStr (preview r))].

(** The reply once the audio is written.  It names the file; for a path
    that has no string form the message cannot be made, the conversion
    throws inside the inner [try], and the reply is that of its
    [catch]. *)
Definition autogen_saved (path : jsval) (r : GenerateResponse.t) : jsval :=
  match js_ToString path with
  | Return shown =>
      JObj [("success", JBool true);
            ("message", JStr ("Speech generated and saved to " ^^ shown));
            ("duration", opt_num (GenerateResponse.duration r));
            ("charactersProcessed", opt_num (GenerateResponse.charactersProcessed r));
            ("outputFile", path)]
  | Throw _ => autogen_degraded r
  end.

Definition autogen_inline (r : GenerateResponse.t) : jsval :=
  JObj [("success", JBool true);
        ("duration", opt_num (GenerateResponse.duration r));
        ("charactersProcessed", opt_num (GenerateResponse.charactersProcessed r));
        ("audioBase64", JStr (GenerateResponse.toBase64 r))].

Definition autogen_multi_degraded (r : GenerateResponse.t) : jsval :=
  JObj [("success", JBool true);
        ("message", JStr "Multi-voice speech generated");
        ("duration", opt_num (GenerateResponse.duration r))].

Definition autogen_multi_saved (path : jsval) (r : GenerateResponse.t) : jsval :=
  match js_ToString path with
  | Return shown =>
      JObj [("success", JBool true);
            ("message", JStr ("Multi-voice speech generated and saved to " ^^ shown));
            ("duration", opt_num (GenerateResponse.duration r));
            ("outputFile", path)]
  | Throw _ => autogen_multi_degraded r
  end.

Definition autogen_multi_inline (r : GenerateResponse.t) : jsval :=
  JObj [("success", JBool true);
        ("duration", opt_num (GenerateResponse.duration r));
        ("audioBase64", JStr (GenerateResponse.toBase64 r))].

(** The path an AutoGen handler writes to. *)
Definition autogen_path (a : LangVoiceAutoGenTools.t) (args : jsval) : jsval :=
  js_or (prop_of args "output_file") (JStr (LangVoiceAutoGenTools.outputFile a)).

Definition unwritable : Platform := sample_platform sample_success false.

Definition sample_tts_tool : LangVoiceTTSTool.t :=
  LangVoiceTTSTool.mk sample_client "output.mp3".

Definition sample_multi_tool : LangVoiceMultiVoiceTool.t :=
  LangVoiceMultiVoiceTool.mk sample_client (Some "podcast.mp3").

Definition sample_generated : GenerateResponse.t :=
  GenerateResponse.mk sample_audio (Some n2_5) None (Some (Fin 100 0)).

(** An answer whose audio has 80 bytes, five more than 100 characters of
    base64 text hold, and the response [generate] makes of it. *)
Definition long_audio : Buffer := List.repeat x49 80.

Definition long_success : FetchOutcome :=
  {| latency := 120;
     settles := Return {| status := 200; statusText := "OK";
                          resp_headers := [("x-audio-duration", "2.5s");
                                           ("x-characters-processed", "100")];
                          json := Throw (SyntaxError "Unexpected token in JSON");
                          arrayBuffer := Return long_audio;
                          body_time := 40 |} |}.

Definition long_generated : GenerateResponse.t :=
  GenerateResponse.mk long_audio (Some n2_5) None (Some (Fin 100 0)).

(** The direct call of the claim, and the bag every adapter is given. *)
Definition hello_defaults : GenerateOptions.t :=
  GenerateOptions.mk (JStr "Hello world") (JStr "heart") (JStr "american_english") one.

Definition hello_args : jsval := JObj [("text", JStr "Hello world")].

Definition hello_input : TTSInput.t :=
  TTSInput.mk (JStr "Hello world") JUndefined JUndefined JUndefined.

(** The success envelope of the generic and OpenAI adapters. *)
Definition generic_success (r : GenerateResponse.t) : jsval :=
  JObj [("success", JBool true);
        ("audioBase64", JStr (GenerateResponse.toBase64 r));
        ("duration", opt_num (GenerateResponse.duration r));
        ("charactersProcessed", opt_num (GenerateResponse.charactersProcessed r))].

(* ================================================================== *)
(** ** The vocabulary of the further properties *)
(* ================================================================== *)

(** An optional string that is absent or empty: what [||] replaces. *)
Definition missing (o : option string) : Prop := o = None \/ o = Some "".

(** A value that is [null] or [undefined]. *)
Definition nullish (v : jsval) : Prop := v = JNull \/ v = JUndefined.

(** The member names of an object, in order. *)
Definition keys (v : jsval) : list string :=
  match v with JObj members => map fst members | _ => [] end.

(** The request data [generateMultiVoice] builds from its options. *)
Definition multi_request_data (o : MultiVoiceOptions.t) : MultiVoiceRequest.t :=
  {| MultiVoiceRequest.text := MultiVoiceOptions.text o;
     MultiVoiceRequest.language := MultiVoiceOptions.language o;
     MultiVoiceRequest.speed := MultiVoiceOptions.speed o |}.

(** A POST of [body] to [endpoint] under the base URL of the client, and a
    GET of [endpoint], each with the key and the content type. *)
Definition post_of (c : LangVoiceClient.t) (endpoint : string) (body : jsval)
  : HttpRequest :=
  {| req_method := "POST";
     req_url := LangVoiceClient.baseUrl c ^^ endpoint;
     req_headers := [("X-API-Key", LangVoiceClient.apiKey c);
                     ("Content-Type", "application/json")];
     req_body := Some body |}.

Definition get_of (c : LangVoiceClient.t) (endpoint : string) : HttpRequest :=
  {| req_method := "GET";
     req_url := LangVoiceClient.baseUrl c ^^ endpoint;
     req_headers := [("X-API-Key", LangVoiceClient.apiKey c);
                     ("Content-Type", "application/json")];
     req_body := None |}.

(** The body [textToSpeech] sends when only the text is given. *)
Definition default_body (t : string) : jsval :=
  JObj [("text", JStr t); ("voice", JStr "heart");
        ("language", JStr "american_english"); ("speed", JNum n1_0)].

(** The voice and the language the constructors read from a JSON item. *)
Definition voice_of (item : jsval) : Voice.t :=
  {| Voice.id := prop_of item "id";
     Voice.name := prop_of item "name";
     Voice.gender := prop_of item "gender";
     Voice.language := prop_of item "language";
     Voice.description := prop_of item "description" |}.

Definition language_of (item : jsval) : Language.t :=
  {| Language.id := prop_of item "id";
     Language.name := prop_of item "name";
     Language.voices := prop_of item "voices" |}.

(** What the listing adapters keep of a JSON item. *)
Definition id_and_name (item : jsval) : jsval :=
  JObj [("id", prop_of item "id"); ("name", prop_of item "name")].

(** The success results of the listing operations: the envelope of the
    generic and OpenAI adapters, the counted one of the AutoGen adapter,
    the line of the LangChain tool over the labels of the items. *)
Definition voices_envelope (voices : list Voice.t) : jsval :=
  JObj [("success", JBool true); ("voices", voice_infos voices)].

Definition voices_counted (voices : list Voice.t) : jsval :=
  JObj [("success", JBool true); ("voices", voice_infos voices);
        ("count", JNum (num_of_Z (Z.of_nat (List.length voices))))].

Definition voices_line (labels : list string) : string :=
  "Available voices: " ^^ join_comma labels.

Definition languages_envelope (languages : list Language.t) : jsval :=
  JObj [("success", JBool true); ("languages", language_infos languages)].

Definition languages_counted (languages : list Language.t) : jsval :=
  JObj [("success", JBool true); ("languages", language_infos languages);
        ("count", JNum (num_of_Z (Z.of_nat (List.length languages))))].

Definition languages_line (labels : list string) : string :=
  "Supported languages: " ^^ join_comma labels.

(** A member declared [string] or [string | undefined], and one declared
    [string[] | undefined]. *)
Definition optional_string (v : jsval) : Prop :=
  v = JUndefined \/ exists s, v = JStr s.

Definition optional_strings (v : jsval) : Prop :=
  v = JUndefined \/ exists l, v = strings l.

(** A voice and a language whose members have their declared types. *)
Definition typed_voice (v : Voice.t) : Prop :=
  optional_string (Voice.id v) /\ optional_string (Voice.name v)
  /\ optional_string (Voice.gender v) /\ optional_string (Voice.language v)
  /\ optional_string (Voice.description v).

Definition typed_language (l : Language.t) : Prop :=
  optional_string (Language.id l) /\ optional_string (Language.name l)
  /\ optional_strings (Language.voices l).

(** The audio a result gives back: none when the audio has no byte, since
    its base64 text is then the empty string. *)
Definition audio_of (r : GenerateResponse.t) : option Buffer :=
  match GenerateResponse.audioData r with
  | [] => None
  | _ => Some (GenerateResponse.audioData r)
  end.

(** The result [generateSpeech] of the AutoGen adapter builds on success. *)
Definition autogen_result (r : GenerateResponse.t) : TTSResult.t :=
  {| TTSResult.success := true;
     TTSResult.error := None;
     TTSResult.audioBase64 := Some (GenerateResponse.toBase64 r);
     TTSResult.audioBuffer := Some (GenerateResponse.audioData r);
     TTSResult.duration := GenerateResponse.duration r;
     TTSResult.charactersProcessed := GenerateResponse.charactersProcessed r |}.


Definition is_fetch (ev : Event) : bool :=
  match ev with EvFetch _ _ => true | EvWriteFile _ _ => false end.

(** A run that sends one request at most and does nothing else. *)
Definition one_request_at_most (tr : list Event) : Prop :=
  (List.length tr <= 1)%nat /\ forallb is_fetch tr = true.

(** The schema of the parameter [p] in a function schema, and whether the
    schema has it. *)
Definition parameter (schema : jsval) (p : string) : jsval :=
  prop_of (prop_of (prop_of schema "parameters") "properties") p.

Definition declares (schema : jsval) (p : string) : Prop :=
  parameter schema p <> JUndefined.

(** The function schemas the generic toolkit, the OpenAI adapter and the
    AutoGen adapter advertise. *)
Definition advertised (k : LangVoiceToolkit.t) (o : LangVoiceOpenAITools.t)
    (a : LangVoiceAutoGenTools.t) : list jsval :=
  LangVoiceToolkit.getFunctionSchemas k
  ++ map (fun tool => prop_of tool "function") (LangVoiceToolkit.getOpenAITools k)
  ++ map (fun tool => prop_of tool "function") (LangVoiceOpenAITools.getTools o)
  ++ LangVoiceAutoGenTools.getFunctionDefinitions a.

(** The number a sequence of decimal digits denotes when read after
    [acc], its text, and its length. *)
Fixpoint digits_value (d : Decimal.uint) (acc : Z) : Z :=
  match d with
  | Decimal.Nil => acc
  | Decimal.D0 l => digits_value l (acc * 10 + 0)
  | Decimal.D1 l => digits_value l (acc * 10 + 1)
  | Decimal.D2 l => digits_value l (acc * 10 + 2)
  | Decimal.D3 l => digits_value l (acc * 10 + 3)
  | Decimal.D4 l => digits_value l (acc * 10 + 4)
  | Decimal.D5 l => digits_value l (acc * 10 + 5)
  | Decimal.D6 l => digits_value l (acc * 10 + 6)
  | Decimal.D7 l => digits_value l (acc * 10 + 7)
  | Decimal.D8 l => digits_value l (acc * 10 + 8)
  | Decimal.D9 l => digits_value l (acc * 10 + 9)
  end.

Definition digits_text (d : Decimal.uint) : string := NilEmpty.string_of_uint d.

Definition digits_count (d : Decimal.uint) : Z := Z.of_nat (Decimal.nb_digits d).

(** What follows a numeral is not one more digit. *)
Definition no_digit_ahead (rest : string) : Prop :=
  match rest with
  | String ch _ => digit_val ch = None
  | EmptyString => True
  end.

(** A response whose body is the JSON value [body], and its arrival
    after 80 ms. *)
Definition sample_json_response (code : Z) (reason : string) (body : jsval)
  : Response :=
  {| status := code; statusText := reason; resp_headers := [];
     json := Return body; arrayBuffer := Return []; body_time := 5 |}.

Definition sample_json (code : Z) (reason : string) (body : jsval) : FetchOutcome :=
  {| latency := 80; settles := Return (sample_json_response code reason body) |}.

Definition sample_voice_items : list jsval :=
  [JObj [("id", JStr "heart"); ("name", JStr "Heart"); ("gender", JStr "female")];
   JObj [("id", JStr "michael"); ("name", JStr "Michael")]].

Definition sample_language_items : list jsval :=
  [JObj [("id", JStr "american_english"); ("name", JStr "American English")]].

Definition sample_listing : jsval :=
  JObj [("voices", JArr sample_voice_items);
        ("languages", JArr sample_language_items)].

Definition listing_platform : Platform :=
  sample_platform (sample_json 200 "OK" sample_listing) true.

Definition refusing_platform : Platform :=
  sample_platform
    (sample_json 401 "Unauthorized" (JObj [("error", JStr "Invalid API key")])) true.

(** The success envelope of the generic and OpenAI adapters for a
    multi-voice generation. *)
Definition multi_success (r : GenerateResponse.t) : jsval :=
  JObj [("success", JBool true);
        ("audioBase64", JStr (GenerateResponse.toBase64 r));
        ("duration", opt_num (GenerateResponse.duration r))].

(** A result envelope: an object whose [success] member is a boolean. *)
Definition envelope (v : jsval) : Prop := exists b, prop_of v "success" = JBool b.

(** What the [catch] of [request] and [requestBinary] rethrows for what
    it caught: the timeout error for an error named [AbortError], anything
    else as it is. *)
Definition rethrown (e : thrown) : thrown :=
  match e with
  | ThrowErr x =>
      if str_eqb (err_name x) "AbortError"
      then APIError "Request timeout" (Some 408) else e
  | ThrowVal _ => e
  end.

(** A 200 answer after 80 ms whose body is a page of HTML: reading it as
    JSON is rejected. *)
Definition sample_page : FetchOutcome :=
  {| latency := 80;
     settles := Return {| status := 200; statusText := "OK"; resp_headers := [];
                          json := Throw (SyntaxError "Unexpected token < in JSON at position 0");
                          arrayBuffer := Return [];
                          body_time := 5 |} |}.

(* ================================================================== *)
(** * Properties *)
(* ================================================================== *)

(** ** Numbers *)

Lemma align_exp0 (a b : Z) : align a 0 b 0 = (a, b).
Proof. unfold align; simpl; f_equal; lia. Qed.

Lemma num_ltb_int (a b : Z) : num_ltb (Fin a 0) (Fin b 0) = (a <? b).
Proof. unfold num_ltb; now rewrite align_exp0. Qed.

Lemma num_eqb_int (a b : Z) : num_eqb (Fin a 0) (Fin b 0) = (a =? b).
Proof. unfold num_eqb; now rewrite align_exp0. Qed.

Lemma align_swap (m1 e1 m2 e2 : Z) :
  align m2 e2 m1 e1 = (snd (align m1 e1 m2 e2), fst (align m1 e1 m2 e2)).
Proof. unfold align; simpl; now rewrite (Z.min_comm e2 e1). Qed.

(** On finite numbers [x < y] is the negation of [y <= x]. *)
Lemma num_ltb_not_leb (m1 e1 m2 e2 : Z) :
  num_ltb (Fin m1 e1) (Fin m2 e2) = negb (num_leb (Fin m2 e2) (Fin m1 e1)).
Proof.
  unfold num_ltb, num_leb. rewrite (align_swap m1 e1 m2 e2).
  destruct (align m1 e1 m2 e2) as [a b]; simpl. apply Z.ltb_antisym.
Qed.

(** Away from NaN the guard of the constructors is the complement of the
    interval. *)
Lemma speed_guard_range (s : jsnum) :
  s <> NaN ->
  (num_ltb s n0_5 || num_gtb s n2_0 = false <-> speed_in_range s).
Proof.
  intros Hs. unfold speed_in_range, num_gtb, n0_5, n2_0.
  destruct s as [| | |m e]; try congruence.
  - split; [discriminate|intros [_ H]; discriminate H].
  - split; [discriminate|intros [H _]; discriminate H].
  - rewrite !num_ltb_not_leb, orb_false_iff, !negb_false_iff. tauto.
Qed.

(** NaN passes the guard although it lies in no interval. *)
Lemma NaN_passes_guard : num_ltb NaN n0_5 || num_gtb NaN n2_0 = false.
Proof. reflexivity. Qed.

Lemma NaN_not_in_range : ~ speed_in_range NaN.
Proof. intros [H _]; discriminate H. Qed.

(** ** The order on finite numbers is the order of the rationals *)

Lemma ten_nonzero : ~ (inject_Z 10 == 0)%Q.
Proof. discriminate. Qed.

Lemma ten_power_pos (e : Z) : (0 < inject_Z 10 ^ e)%Q.
Proof. apply Qpower_0_lt. reflexivity. Qed.

Lemma decimal_value_shift (m e d : Z) :
  0 <= d -> (decimal_value m (e + d) == decimal_value (m * 10 ^ d) e)%Q.
Proof.
  intros Hd. unfold decimal_value.
  rewrite Qpower_plus by apply ten_nonzero.
  rewrite inject_Z_mult, Zpower_Qpower by assumption. ring.
Qed.

Lemma align_value (m1 e1 m2 e2 : Z) :
  (decimal_value m1 e1
   == decimal_value (fst (align m1 e1 m2 e2)) (Z.min e1 e2))%Q
  /\ (decimal_value m2 e2
      == decimal_value (snd (align m1 e1 m2 e2)) (Z.min e1 e2))%Q.
Proof.
  unfold align; cbn [fst snd]. split.
  - rewrite <- decimal_value_shift by lia.
    now replace (Z.min e1 e2 + (e1 - Z.min e1 e2)) with e1 by lia.
  - rewrite <- decimal_value_shift by lia.
    now replace (Z.min e1 e2 + (e2 - Z.min e1 e2)) with e2 by lia.
Qed.

Lemma decimal_le (a b e : Z) :
  (decimal_value a e <= decimal_value b e)%Q <-> a <= b.
Proof.
  unfold decimal_value. rewrite Zle_Qle. split; intros H.
  - apply Qmult_le_r in H; [assumption | apply ten_power_pos].
  - apply Qmult_le_r; [apply ten_power_pos | assumption].
Qed.

(** [x <= y] on finite numbers compares the rationals they stand for. *)
Lemma num_leb_rational (m1 e1 m2 e2 : Z) :
  num_leb (Fin m1 e1) (Fin m2 e2) = true
  <-> (decimal_value m1 e1 <= decimal_value m2 e2)%Q.
Proof.
  unfold num_leb. destruct (align_value m1 e1 m2 e2) as [A B].
  rewrite A, B. destruct (align m1 e1 m2 e2) as [a b]; cbn [fst snd].
  rewrite decimal_le. apply Z.leb_le.
Qed.

(** A finite speed is in range exactly when its value lies between one
    half and two. *)
Lemma speed_in_range_rational (m e : Z) :
  speed_in_range (Fin m e)
  <-> (1 # 2 <= decimal_value m e)%Q /\ (decimal_value m e <= 2 # 1)%Q.
Proof.
  unfold speed_in_range, n0_5, n2_0. rewrite !num_leb_rational.
  assert (H1 : (decimal_value 5 (-1) == 1 # 2)%Q) by reflexivity.
  assert (H2 : (decimal_value 2 0 == 2 # 1)%Q) by reflexivity.
  now rewrite H1, H2.
Qed.

(** ** Runs *)

Lemma bind_ret_l {A B} (a : A) (k : A -> Run B) : bind (ret a) k = k a.
Proof. unfold bind, ret. destruct (k a); reflexivity. Qed.

Lemma trace_bind {A B} (m : Run A) (k : A -> Run B) :
  trace (bind m k)
  = trace m ++ match outcome m with Return a => trace (k a) | Throw _ => [] end.
Proof.
  destruct m as [tr [a|e]]; unfold bind, trace, outcome; cbn [fst snd].
  - now destruct (k a).
  - now rewrite app_nil_r.
Qed.

Lemma trace_try_catch {A} (m : Run A) (h : thrown -> Run A) :
  trace (try_catch m h)
  = trace m ++ match outcome m with Return _ => [] | Throw e => trace (h e) end.
Proof.
  destruct m as [tr [a|e]]; unfold try_catch, trace, outcome; cbn [fst snd].
  - now rewrite app_nil_r.
  - now destruct (h e).
Qed.

Lemma handleResponseErrors_trace (r : Response) :
  trace (LangVoiceClient.handleResponseErrors r) = [].
Proof.
  unfold LangVoiceClient.handleResponseErrors.
  destruct (ok r); [reflexivity|].
  repeat match goal with |- context [if ?b then _ else _] => destruct b end;
    reflexivity.
Qed.

Lemma on_request_error_trace {A} (e : thrown) :
  trace (@LangVoiceClient.on_request_error A e) = [].
Proof.
  destruct e as [e|v]; [|reflexivity]. unfold LangVoiceClient.on_request_error.
  destruct (str_eqb (err_name e) "AbortError"); reflexivity.
Qed.

Lemma try_catch_request_trace {A} (m : Run A) :
  trace (try_catch m LangVoiceClient.on_request_error) = trace m.
Proof.
  rewrite trace_try_catch.
  destruct (outcome m); [|rewrite on_request_error_trace]; apply app_nil_r.
Qed.

Lemma fetch_then_trace {A} P req timeout (k : Response -> Run A) :
  (forall resp, trace (k resp) = []) ->
  trace (bind (fetch_with_timer P req timeout) k) = [EvFetch req (timer_delay timeout)].
Proof.
  intros H. rewrite trace_bind. unfold fetch_with_timer; cbn [trace outcome fst snd].
  destruct (if timer_delay timeout <? latency (fetch P req) then _ else _);
    [rewrite H|]; reflexivity.
Qed.

Lemma after_response_trace {A B} (resp : Response) (body : Result A)
    (k : A -> B) :
  trace (LangVoiceClient.handleResponseErrors resp ;;;
         data <- lift body ;; ret (k data)) = [].
Proof.
  rewrite trace_bind, handleResponseErrors_trace.
  destruct (outcome _); [|reflexivity].
  rewrite trace_bind. destruct body; reflexivity.
Qed.

(** [requestBinary] and [request] perform one [fetch] and nothing else. *)
Lemma requestBinary_trace P c method endpoint body :
  trace (LangVoiceClient.requestBinary P c method endpoint body)
  = [EvFetch (LangVoiceClient.binary_request c method endpoint body)
       (timer_delay (LangVoiceClient.timeout c))].
Proof.
  unfold LangVoiceClient.requestBinary. rewrite try_catch_request_trace.
  apply fetch_then_trace. intros resp.
  apply (after_response_trace resp (arrayBuffer resp)
           (fun data => (data, resp_headers resp))).
Qed.

Lemma request_trace P c method endpoint body :
  trace (LangVoiceClient.request P c method endpoint body)
  = [EvFetch (LangVoiceClient.json_request c method endpoint body)
       (timer_delay (LangVoiceClient.timeout c))].
Proof.
  unfold LangVoiceClient.request. rewrite try_catch_request_trace.
  apply fetch_then_trace. intros resp.
  apply (after_response_trace resp (json resp)
           (fun data => (data, resp_headers resp))).
Qed.

(** ** Request construction *)

Lemma text_length (t : string) :
  prop_of (JStr t) "length" = JNum (Fin (Z.of_nat (String.length t)) 0).
Proof. reflexivity. Qed.

Lemma str_eqb_empty (t : string) :
  str_eqb t "" = true <-> String.length t = O.
Proof.
  destruct t; simpl; split; intro H; try reflexivity; discriminate.
Qed.

Lemma nullish_speed (s : option jsnum) :
  js_nullish (opt_num s) (JNum n1_0) = JNum (effective_speed s).
Proof. now destruct s. Qed.

Lemma or_else_returns (a b : bool) :
  js_or_else (Return a) (Return b) = Return (a || b).
Proof. now destruct a. Qed.

(** What [new GenerateRequest] does on a string and an optional number:
    it returns exactly when the text has 1 to 5000 characters and the
    effective speed passes the guard, and it throws a validation failure
    otherwise. *)
Lemma GenerateRequest_new_typed (t : string) (v l : jsval) (s : option jsnum) :
  let data := GenerateRequest.mk (JStr t) v l (opt_num s) in
  let len := Z.of_nat (String.length t) in
  let guard := num_ltb (effective_speed s) n0_5 || num_gtb (effective_speed s) n2_0 in
  (1 <= len <= 5000 /\ guard = false ->
   GenerateRequest.new data =
   Return (GenerateRequest.mk (JStr t) (js_or v (JStr "heart"))
             (js_or l (JStr "american_english")) (JNum (effective_speed s))))
  /\ (~ (1 <= len <= 5000 /\ guard = false) ->
      exists e, GenerateRequest.new data = Throw e /\ validation_failure e).
Proof.
  cbv zeta. unfold GenerateRequest.new; cbn [GenerateRequest.text GenerateRequest.speed
    GenerateRequest.voice GenerateRequest.language truthy].
  rewrite text_length, nullish_speed. unfold js_strict_eq_num, js_gt_num, js_lt_num.
  cbn [js_ToNumber]. rewrite or_else_returns. unfold num_gtb.
  rewrite num_eqb_int, num_ltb_int.
  assert (Hlen : str_eqb t "" = (Z.of_nat (String.length t) =? 0)).
  { destruct t; reflexivity. }
  rewrite Hlen. fold (num_gtb (effective_speed s) n2_0).
  destruct (Z.of_nat (String.length t) =? 0) eqn:E0; cbn [negb orb].
  - apply Z.eqb_eq in E0. split; [lia|].
    intros _. eexists; split; [reflexivity|]. exists "Text is required"; simpl; auto.
  - apply Z.eqb_neq in E0.
    destruct (5000 <? Z.of_nat (String.length t)) eqn:E1.
    + apply Z.ltb_lt in E1. split; [lia|].
      intros _. eexists; split; [reflexivity|].
      exists "Text must be 5000 characters or less"; simpl; auto.
    + apply Z.ltb_ge in E1.
      destruct (num_ltb (effective_speed s) n0_5 || num_gtb (effective_speed s) n2_0) eqn:E2.
      * split; [intros [_ H]; discriminate|].
        intros _. eexists; split; [reflexivity|].
        exists "Speed must be between 0.5 and 2.0"; simpl; auto.
      * split; [reflexivity|]. intros H; exfalso; apply H; split; [lia|reflexivity].
Qed.

(** [new MultiVoiceRequest] on a string and an optional number. *)
Lemma MultiVoiceRequest_new_typed (t : string) (l : jsval) (s : option jsnum) :
  let data := MultiVoiceRequest.mk (JStr t) l (opt_num s) in
  let len := Z.of_nat (String.length t) in
  let guard := num_ltb (effective_speed s) n0_5 || num_gtb (effective_speed s) n2_0 in
  (1 <= len <= 5000 /\ guard = false ->
   MultiVoiceRequest.new data =
   Return (MultiVoiceRequest.mk (JStr t) (js_or l (JStr "american_english"))
             (JNum (effective_speed s))))
  /\ (~ (1 <= len <= 5000 /\ guard = false) ->
      exists e, MultiVoiceRequest.new data = Throw e /\ validation_failure e).
Proof.
  cbv zeta. unfold MultiVoiceRequest.new; cbn [MultiVoiceRequest.text
    MultiVoiceRequest.speed MultiVoiceRequest.language truthy].
  rewrite text_length, nullish_speed. unfold js_strict_eq_num, js_gt_num, js_lt_num.
  cbn [js_ToNumber]. rewrite or_else_returns. unfold num_gtb.
  rewrite num_eqb_int, num_ltb_int.
  assert (Hlen : str_eqb t "" = (Z.of_nat (String.length t) =? 0)).
  { destruct t; reflexivity. }
  rewrite Hlen. fold (num_gtb (effective_speed s) n2_0).
  destruct (Z.of_nat (String.length t) =? 0) eqn:E0; cbn [negb orb].
  - apply Z.eqb_eq in E0. split; [lia|].
    intros _. eexists; split; [reflexivity|]. exists "Text is required"; simpl; auto.
  - apply Z.eqb_neq in E0.
    destruct (5000 <? Z.of_nat (String.length t)) eqn:E1.
    + apply Z.ltb_lt in E1. split; [lia|].
      intros _. eexists; split; [reflexivity|].
      exists "Text must be 5000 characters or less"; simpl; auto.
    + apply Z.ltb_ge in E1.
      destruct (num_ltb (effective_speed s) n0_5 || num_gtb (effective_speed s) n2_0) eqn:E2.
      * split; [intros [_ H]; discriminate|].
        intros _. eexists; split; [reflexivity|].
        exists "Speed must be between 0.5 and 2.0"; simpl; auto.
      * split; [reflexivity|]. intros H; exfalso; apply H; split; [lia|reflexivity].
Qed.

(** For every speed but NaN, construction of either request succeeds
    exactly when the text has 1 to 5000 characters and the effective speed
    lies in [0.5, 2.0]. *)
Lemma request_construction_iff (t : string) (v l : jsval) (s : option jsnum) :
  effective_speed s <> NaN ->
  let ok_input := 1 <= Z.of_nat (String.length t) <= 5000
                  /\ speed_in_range (effective_speed s) in
  ((exists r, GenerateRequest.new (GenerateRequest.mk (JStr t) v l (opt_num s)) = Return r)
   <-> ok_input)
  /\ ((exists r, MultiVoiceRequest.new (MultiVoiceRequest.mk (JStr t) l (opt_num s)) = Return r)
      <-> ok_input).
Proof.
  intros Hs; cbv zeta.
  pose proof (speed_guard_range _ Hs) as G.
  destruct (GenerateRequest_new_typed t v l s) as [G1 G2].
  destruct (MultiVoiceRequest_new_typed t l s) as [M1 M2].
  cbv zeta in *.
  assert (D : {1 <= Z.of_nat (String.length t) <= 5000 /\
               num_ltb (effective_speed s) n0_5 || num_gtb (effective_speed s) n2_0 = false}
            + {~ (1 <= Z.of_nat (String.length t) <= 5000 /\
               num_ltb (effective_speed s) n0_5 || num_gtb (effective_speed s) n2_0 = false)}).
  { destruct (Z_le_dec 1 (Z.of_nat (String.length t)));
    destruct (Z_le_dec (Z.of_nat (String.length t)) 5000);
    destruct (num_ltb (effective_speed s) n0_5 || num_gtb (effective_speed s) n2_0);
    (left; now auto) || (right; intros [[? ?] ?]; (lia || discriminate)). }
  destruct D as [Y | N].
  - split; (split; [intros _; split; [tauto | apply G; tauto] | intros _; eexists; eauto]).
  - destruct (G2 N) as [e [E _]]. destruct (M2 N) as [e' [E' _]].
    split; (split; [intros [r R]; congruence | intros [H1 H2]; exfalso; apply N; split; [exact H1 | apply G; exact H2]]).
Qed.

(** C1 (the code departs from the claim).  The claim has construction
    succeed exactly when the text has 1 to 5000 characters and the
    effective speed lies in [0.5, 2.0].  The guard
    [speed < 0.5 || speed > 2.0] is false on NaN, so both constructors
    accept a speed of NaN, which lies in no interval, and build a request
    carrying it; [client.generate] then sends that request. *)
Theorem request_construction_accepts_NaN :
  GenerateRequest.new (GenerateRequest.mk (JStr "Hello") JUndefined JUndefined (JNum NaN))
  = Return (GenerateRequest.mk (JStr "Hello") (JStr "heart")
              (JStr "american_english") (JNum NaN))
  /\ MultiVoiceRequest.new (MultiVoiceRequest.mk (JStr "Hello") JUndefined (JNum NaN))
     = Return (MultiVoiceRequest.mk (JStr "Hello") (JStr "american_english") (JNum NaN))
  /\ 1 <= Z.of_nat (String.length "Hello") <= 5000
  /\ ~ speed_in_range NaN
  /\ (forall P c,
        trace (LangVoiceClient.generate P c
                 (GenerateOptions.mk (JStr "Hello") JUndefined JUndefined (JNum NaN)))
        = [EvFetch (LangVoiceClient.binary_request c "POST" "/tts/generate"
                      (JObj [("text", JStr "Hello"); ("voice", JStr "heart");
                             ("language", JStr "american_english");
                             ("speed", JNum NaN)]))
             (timer_delay (LangVoiceClient.timeout c))]).
Proof.
  split; [reflexivity|]. split; [reflexivity|]. split; [simpl; lia|].
  split; [apply NaN_not_in_range|].
  intros P c. unfold LangVoiceClient.generate.
  cbn [GenerateOptions.text GenerateOptions.voice GenerateOptions.language
       GenerateOptions.speed].
  change (GenerateRequest.new
            (GenerateRequest.mk (JStr "Hello") JUndefined JUndefined (JNum NaN)))
    with (Return (GenerateRequest.mk (JStr "Hello") (JStr "heart")
                    (JStr "american_english") (JNum NaN))).
  unfold lift.
  fold (ret (GenerateRequest.mk (JStr "Hello") (JStr "heart")
               (JStr "american_english") (JNum NaN))).
  rewrite bind_ret_l, trace_bind, requestBinary_trace.
  destruct (outcome _); cbn [trace ret fst]; now rewrite app_nil_r.
Qed.

(** ** Base64 *)

Section Base64.

Lemma sextets_ok : forallb sextet_ok (map Z.of_nat (seq 0 64)) = true.
Proof. vm_compute. reflexivity. Qed.

(** Every sextet has a character that is not the padding and that reads
    back as the sextet. *)
Lemma b64_value_char (n : Z) :
  0 <= n < 64 ->
  b64_value (b64_char n) = Some n /\ Ascii.eqb (b64_char n) "=" = false.
Proof.
  intros Hn.
  assert (I : In n (map Z.of_nat (seq 0 64))).
  { apply in_map_iff. exists (Z.to_nat n). split; [apply Z2Nat.id; lia|].
    apply in_seq. lia. }
  pose proof (proj1 (forallb_forall _ _) sextets_ok n I) as H.
  unfold sextet_ok in H. destruct (b64_value (b64_char n)) as [m|]; [|discriminate].
  apply andb_true_iff in H. destruct H as [H1 H2].
  apply Z.eqb_eq in H1. apply negb_true_iff in H2. now subst.
Qed.

Lemma b64_sextets_char (n : Z) (s : string) :
  0 <= n < 64 -> b64_sextets (String (b64_char n) s) = n :: b64_sextets s.
Proof.
  intros Hn. destruct (b64_value_char n Hn) as [V E].
  cbn [b64_sextets]. now rewrite E, V.
Qed.

Lemma byte_val_bounded (b : byte) : 0 <= byte_val b < 256.
Proof. unfold byte_val. pose proof (Byte.to_N_bounded b). lia. Qed.

Lemma byte_of_val (b : byte) : byte_of_Z (byte_val b) = b.
Proof.
  unfold byte_of_Z. pose proof (byte_val_bounded b).
  rewrite Z.mod_small by lia. unfold byte_val.
  now rewrite N2Z.id, Byte.of_to_N.
Qed.

Ltac euclid := Z.to_euclidean_division_equations; lia.

(** The four sextets of three bytes, and the three bytes back. *)
Lemma sextet_bounds (x y z : Z) :
  0 <= x < 256 -> 0 <= y < 256 -> 0 <= z < 256 ->
  0 <= x / 4 < 64 /\ 0 <= (x mod 4) * 16 + y / 16 < 64 /\
  0 <= (y mod 16) * 4 + z / 64 < 64 /\ 0 <= z mod 64 < 64 /\
  0 <= (x mod 4) * 16 < 64 /\ 0 <= (y mod 16) * 4 < 64.
Proof. intros; repeat split; euclid. Qed.

Lemma regroup_first (x y : Z) :
  0 <= y < 256 -> (x / 4) * 4 + ((x mod 4) * 16 + y / 16) / 16 = x.
Proof. intros; euclid. Qed.

Lemma regroup_second (x y z : Z) :
  0 <= y < 256 -> 0 <= z < 256 ->
  (((x mod 4) * 16 + y / 16) mod 16) * 16 + ((y mod 16) * 4 + z / 64) / 4 = y.
Proof. intros; euclid. Qed.

Lemma regroup_third (y z : Z) :
  0 <= z < 256 ->
  (((y mod 16) * 4 + z / 64) mod 4) * 64 + z mod 64 = z.
Proof. intros; euclid. Qed.

Lemma regroup_first_pad (x : Z) : (x / 4) * 4 + ((x mod 4) * 16) / 16 = x.
Proof. euclid. Qed.

Lemma regroup_second_pad (x y : Z) :
  0 <= y < 256 ->
  (((x mod 4) * 16 + y / 16) mod 16) * 16 + ((y mod 16) * 4) / 4 = y.
Proof. intros; euclid. Qed.

(** Induction over a list three elements at a time. *)
Lemma list_by_threes {A} (Q : list A -> Prop) :
  Q [] -> (forall a, Q [a]) -> (forall a b, Q [a; b]) ->
  (forall a b c l, Q l -> Q (a :: b :: c :: l)) ->
  forall l, Q l.
Proof.
  intros H0 H1 H2 H3 l.
  assert (G : Q l /\ (forall a, Q (a :: l)) /\ (forall a b, Q (a :: b :: l))).
  { induction l as [|x l [I0 [I1 I2]]]; [now auto|].
    split; [apply I1|]. split; [intro a; apply I2|]. intros a b. now apply H3. }
  apply G.
Qed.

(** [Buffer.from(buffer.toString('base64'), 'base64')] gives the bytes
    back. *)
Lemma base64_roundtrip (x : Buffer) : Buffer_from_base64 (base64_encode x) = x.
Proof.
  unfold Buffer_from_base64.
  induction x as [| a | a b | a b c l IH] using list_by_threes.
  - reflexivity.
  - pose proof (byte_val_bounded a) as Ba.
    destruct (sextet_bounds (byte_val a) 0 0) as (S0 & _ & _ & _ & S1 & _); try lia.
    cbn [base64_encode]. rewrite !b64_sextets_char by assumption.
    cbn [b64_sextets Ascii.eqb Bool.eqb b64_bytes].
    now rewrite regroup_first_pad, byte_of_val.
  - pose proof (byte_val_bounded a) as Ba. pose proof (byte_val_bounded b) as Bb.
    destruct (sextet_bounds (byte_val a) (byte_val b) 0) as (S0 & S1 & _ & _ & _ & S2);
      try lia.
    cbn [base64_encode]. rewrite !b64_sextets_char by assumption.
    cbn [b64_sextets Ascii.eqb Bool.eqb b64_bytes].
    rewrite regroup_first by lia. rewrite regroup_second_pad by lia.
    now rewrite !byte_of_val.
  - pose proof (byte_val_bounded a) as Ba. pose proof (byte_val_bounded b) as Bb.
    pose proof (byte_val_bounded c) as Bc.
    destruct (sextet_bounds (byte_val a) (byte_val b) (byte_val c))
      as (S0 & S1 & S2 & S3 & _ & _); try lia.
    cbn [base64_encode]. rewrite !b64_sextets_char by assumption.
    cbn [b64_bytes]. rewrite IH.
    rewrite regroup_first by lia. rewrite regroup_second by lia.
    rewrite regroup_third by lia. now rewrite !byte_of_val.
Qed.

End Base64.

(** ** Response errors *)

Lemma fetch_answered P c req r :
  answered P c req r ->
  fetch_with_timer P req (LangVoiceClient.timeout c)
  = ([EvFetch req (timer_delay (LangVoiceClient.timeout c))], Return r).
Proof.
  intros [S L]. unfold fetch_with_timer. rewrite S.
  apply Z.ltb_ge in L. now rewrite L.
Qed.

Lemma rethrow_taxonomy {A} (code : Z) (m : string) :
  @LangVoiceClient.on_request_error A (taxonomy code m) = throw (taxonomy code m).
Proof.
  unfold taxonomy.
  destruct (code =? 401); [reflexivity|].
  destruct (code =? 429); [reflexivity|].
  destruct (code =? 400); reflexivity.
Qed.

(** A conversion to a string that throws, throws the [TypeError] of the
    value without a primitive. *)
Lemma js_ToString_throws : forall v e, js_ToString v = Throw e -> e = no_primitive.
Proof.
  fix IH 1. intros v e. destruct v as [| | [|] | n | s | items | members];
    cbn [js_ToString]; try discriminate.
  - revert e. revert items. fix IHl 1. intros [|x r] e; [discriminate|].
    pose proof (IH x) as Hx. pose proof (IHl r) as Hr.
    assert (Hx' : forall e', match x with
                             | JUndefined | JNull => Return ""
                             | _ => js_ToString x
                             end = Throw e' -> e' = no_primitive).
    { intros e'. destruct x; try discriminate; apply Hx. }
    clear Hx.
    destruct (match x with JUndefined | JNull => Return "" | _ => js_ToString x end)
      as [sx|ex] eqn:Ex.
    + destruct r as [|y r']; [discriminate|].
      match goal with |- context [match ?j with Return _ => _ | Throw _ => _ end] =>
        destruct j as [sr|er] eqn:Er end; [discriminate|].
      intros [= <-]. now apply Hr.
    + intros [= <-]. now apply Hx'.
  - destruct (lookup_member "toString" members); [|discriminate].
    now intros [= <-].
Qed.

Lemma response_error_cases (r : Response) :
  (forall m, js_ToString (error_message r) = Return m ->
             response_error r = taxonomy (status r) m)
  /\ (forall e, js_ToString (error_message r) = Throw e ->
                response_error r = no_primitive).
Proof.
  unfold response_error, throw_new. split.
  - intros m ->. reflexivity.
  - intros e H. rewrite H. now apply js_ToString_throws in H.
Qed.

Lemma rethrow_response_error {A} (r : Response) :
  @LangVoiceClient.on_request_error A (response_error r) = throw (response_error r).
Proof.
  destruct (response_error_cases r) as [Hm He].
  destruct (js_ToString (error_message r)) as [m|e].
  - rewrite (Hm m eq_refl). apply rethrow_taxonomy.
  - rewrite (He e eq_refl). reflexivity.
Qed.

Lemma handleResponseErrors_throws (r : Response) :
  ok r = false ->
  LangVoiceClient.handleResponseErrors r = throw (response_error r).
Proof.
  intros H. unfold LangVoiceClient.handleResponseErrors, response_error, throw_new,
    error_message, taxonomy, status_message. rewrite H.
  destruct (status r =? 401); [now destruct (js_ToString _)|].
  destruct (status r =? 429); [now destruct (js_ToString _)|].
  destruct (status r =? 400); now destruct (js_ToString _).
Qed.

Lemma request_rejected P c method endpoint body r :
  ok r = false ->
  answered P c (LangVoiceClient.json_request c method endpoint body) r ->
  outcome (LangVoiceClient.request P c method endpoint body)
  = Throw (response_error r).
Proof.
  intros H A. unfold LangVoiceClient.request.
  rewrite (fetch_answered _ _ _ _ A). unfold bind at 1.
  rewrite (handleResponseErrors_throws r H). unfold throw, bind, try_catch.
  now rewrite rethrow_response_error.
Qed.

Lemma requestBinary_rejected P c method endpoint body r :
  ok r = false ->
  answered P c (LangVoiceClient.binary_request c method endpoint body) r ->
  outcome (LangVoiceClient.requestBinary P c method endpoint body)
  = Throw (response_error r).
Proof.
  intros H A. unfold LangVoiceClient.requestBinary.
  rewrite (fetch_answered _ _ _ _ A). unfold bind at 1.
  rewrite (handleResponseErrors_throws r H). unfold throw, bind, try_catch.
  now rewrite rethrow_response_error.
Qed.

(** C2 (amended).  For every response that is not 2xx, on the JSON path
    and on the binary path alike, one and the same error is raised, and
    whenever the message the body gives has a string form its class
    depends on the status code alone: 401 an [AuthenticationError], 429 a
    [RateLimitError], 400 a [ValidationError], any other status an
    [APIError] carrying that status.  The message is the [error] member of
    the JSON body when that member is a string that is not empty; it is
    [API error: <status>] when the body is JSON whose [error] member is
    missing, empty or falsy in another way; and when the body cannot be
    read as JSON, or is the JSON value [null], it is the status text, or
    [API error: <status>] if the status text is empty.  A message without
    a string form makes the construction of the error throw the
    [TypeError] of the conversion, which is then what is raised. *)
Theorem response_error_by_status (r : Response) :
  ok r = false ->
  exists t,
    LangVoiceClient.handleResponseErrors r = throw t
    /\ (forall P c method endpoint body,
          answered P c (LangVoiceClient.json_request c method endpoint body) r ->
          outcome (LangVoiceClient.request P c method endpoint body) = Throw t)
    /\ (forall P c method endpoint body,
          answered P c (LangVoiceClient.binary_request c method endpoint body) r ->
          outcome (LangVoiceClient.requestBinary P c method endpoint body) = Throw t)
    /\ (forall m, js_ToString (error_message r) = Return m ->
                  t = taxonomy (status r) m)
    /\ (forall v s, json r = Return v -> get_prop v "error" = Return (JStr s) ->
                    s <> "" -> t = taxonomy (status r) s)
    /\ (forall v err, json r = Return v -> get_prop v "error" = Return err ->
                      truthy err = false ->
                      t = taxonomy (status r) (status_message r))
    /\ ((exists e, json r = Throw e)
        \/ (exists v e, json r = Return v /\ get_prop v "error" = Throw e) ->
        t = taxonomy (status r)
              (if str_eqb (statusText r) "" then status_message r else statusText r))
    /\ (forall e, js_ToString (error_message r) = Throw e -> t = no_primitive).
Proof.
  intros H. exists (response_error r).
  split; [now apply handleResponseErrors_throws|].
  split; [intros; now apply request_rejected|].
  split; [intros; now apply requestBinary_rejected|].
  split; [exact (proj1 (response_error_cases r))|].
  cut ((forall v s, json r = Return v -> get_prop v "error" = Return (JStr s) ->
                    s <> "" -> response_error r = taxonomy (status r) s)
       /\ (forall v err, json r = Return v -> get_prop v "error" = Return err ->
                         truthy err = false ->
                         response_error r = taxonomy (status r) (status_message r))
       /\ ((exists e, json r = Throw e)
           \/ (exists v e, json r = Return v /\ get_prop v "error" = Throw e) ->
           response_error r
           = taxonomy (status r)
               (if str_eqb (statusText r) "" then status_message r else statusText r))).
  { intros (A & B & C). repeat split; try assumption.
    exact (proj2 (response_error_cases r)). }
  unfold response_error, throw_new, error_message. repeat split.
  - intros v s J E Hs. rewrite J, E. unfold js_or; cbn [truthy].
    destruct (str_eqb s "") eqn:Es; [|reflexivity].
    apply String.eqb_eq in Es. contradiction.
  - intros v err J E F. rewrite J, E. unfold js_or. rewrite F. reflexivity.
  - intros [[e J] | [v [e [J E]]]].
    + rewrite J. unfold str_or. now destruct (str_eqb (statusText r) "").
    + rewrite J, E. unfold str_or. now destruct (str_eqb (statusText r) "").
Qed.

(** A 404 whose body names the error gives an [APIError] with status 404
    and the message of the body. *)
Lemma response_error_by_status_witness :
  ok not_found_response = false
  /\ LangVoiceClient.handleResponseErrors not_found_response
     = throw (APIError "Voice not found" (Some 404)).
Proof.
  split; [reflexivity|].
  destruct (response_error_by_status not_found_response eq_refl)
    as [t [E [_ [_ [_ [M _]]]]]].
  rewrite E. rewrite (M _ "Voice not found" eq_refl eq_refl); [reflexivity|discriminate].
Defined.

(** C2 as stated fails: the message is not always the [error] member of
    the body when that member is present.  A 500 whose body is
    [{"error": ""}] raises an [APIError] whose message is
    [API error: 500]. *)
Lemma response_error_message_counterexample :
  ~ (forall r s, ok r = false -> server_error_field r = Some s ->
       exists e, outcome (LangVoiceClient.handleResponseErrors r) = Throw (ThrowErr e)
                 /\ err_message e = s).
Proof.
  intros C. destruct (C empty_error_response "" eq_refl eq_refl) as [e [O M]].
  vm_compute in O. inversion O; subst e. discriminate M.
Qed.

(** ** Successful generation *)

Lemma requestBinary_ok P c method endpoint body resp data :
  answered P c (LangVoiceClient.binary_request c method endpoint body) resp ->
  ok resp = true ->
  arrayBuffer resp = Return data ->
  LangVoiceClient.requestBinary P c method endpoint body
  = ([EvFetch (LangVoiceClient.binary_request c method endpoint body)
        (timer_delay (LangVoiceClient.timeout c))],
     Return (data, resp_headers resp)).
Proof.
  intros A O B. unfold LangVoiceClient.requestBinary.
  rewrite (fetch_answered _ _ _ _ A).
  unfold bind at 1. unfold LangVoiceClient.handleResponseErrors. rewrite O.
  unfold bind, ret, lift, try_catch. rewrite B. reflexivity.
Qed.

Lemma request_ok P c method endpoint body resp data :
  answered P c (LangVoiceClient.json_request c method endpoint body) resp ->
  ok resp = true ->
  json resp = Return data ->
  LangVoiceClient.request P c method endpoint body
  = ([EvFetch (LangVoiceClient.json_request c method endpoint body)
        (timer_delay (LangVoiceClient.timeout c))],
     Return (data, resp_headers resp)).
Proof.
  intros Ha Hok Hj. unfold LangVoiceClient.request.
  rewrite (fetch_answered _ _ _ _ Ha).
  unfold bind at 1. unfold LangVoiceClient.handleResponseErrors. rewrite Hok, Hj.
  reflexivity.
Qed.

Lemma generate_ok P c options req resp data :
  GenerateRequest.new (request_data options) = Return req ->
  answered P c (LangVoiceClient.binary_request c "POST" "/tts/generate"
                  (GenerateRequest.toJSON req)) resp ->
  ok resp = true ->
  arrayBuffer resp = Return data ->
  LangVoiceClient.generate P c options
  = ([EvFetch (LangVoiceClient.binary_request c "POST" "/tts/generate"
                 (GenerateRequest.toJSON req))
        (timer_delay (LangVoiceClient.timeout c))],
     Return (LangVoiceClient.response_of data (resp_headers resp))).
Proof.
  intros N A O B. unfold LangVoiceClient.generate.
  fold (request_data options). rewrite N. unfold lift, bind at 1.
  rewrite (requestBinary_ok _ _ _ _ _ _ _ A O B). reflexivity.
Qed.

(** C3.  The base64 view of a response built over any byte buffer decodes
    to that buffer; and when [generate] is answered by a successful binary
    response whose headers carry a duration of [2.5s] and [100] characters
    processed, it returns a response whose duration is 2.5, whose
    [charactersProcessed] is 100, whose audio is the body, and whose base64
    view decodes to the body. *)
Theorem generate_metadata_and_base64 :
  (forall (x : Buffer) (d g n : option jsnum),
     Buffer_from_base64
       (GenerateResponse.toBase64 (GenerateResponse.new (GenerateResponse.mk x d g n)))
     = x)
  /\ (forall P c options req resp data,
        GenerateRequest.new (request_data options) = Return req ->
        answered P c (LangVoiceClient.binary_request c "POST" "/tts/generate"
                        (GenerateRequest.toJSON req)) resp ->
        ok resp = true ->
        arrayBuffer resp = Return data ->
        headers_get (resp_headers resp) "X-Audio-Duration" = Some "2.5s" ->
        headers_get (resp_headers resp) "X-Characters-Processed" = Some "100" ->
        exists r,
          outcome (LangVoiceClient.generate P c options) = Return r
          /\ GenerateResponse.duration r = Some n2_5
          /\ GenerateResponse.charactersProcessed r = Some (Fin 100 0)
          /\ GenerateResponse.audioData r = data
          /\ Buffer_from_base64 (GenerateResponse.toBase64 r) = data).
Proof.
  split.
  - intros x d g n. apply base64_roundtrip.
  - intros P c options req resp data N A O B HD HC.
    rewrite (generate_ok _ _ _ _ _ _ N A O B).
    eexists; split; [reflexivity|].
    unfold LangVoiceClient.response_of, GenerateResponse.new; cbn [GenerateResponse.duration
      GenerateResponse.charactersProcessed GenerateResponse.audioData].
    rewrite HD, HC. repeat split.
    unfold GenerateResponse.toBase64; cbn [GenerateResponse.audioData].
    apply base64_roundtrip.
Qed.

(** The exchange of the client's unit test: headers [2.5s] and [100]
    give a duration of 2.5 and 100 characters, and the audio of the body. *)
Lemma generate_metadata_and_base64_witness :
  exists r,
    outcome (LangVoiceClient.generate (sample_platform sample_success true)
               sample_client hello_options) = Return r
    /\ GenerateResponse.duration r = Some n2_5
    /\ GenerateResponse.charactersProcessed r = Some (Fin 100 0)
    /\ GenerateResponse.audioData r = sample_audio
    /\ Buffer_from_base64 (GenerateResponse.toBase64 r) = sample_audio.
Proof.
  refine (proj2 generate_metadata_and_base64
            (sample_platform sample_success true) sample_client hello_options
            (GenerateRequest.mk (JStr "Hello world") (JStr "heart")
               (JStr "american_english") (JNum n1_0))
            sample_response sample_audio eq_refl _ eq_refl eq_refl eq_refl eq_refl).
  split; [reflexivity | vm_compute; discriminate].
Defined.

(** ** Timeout *)

Lemma fetch_aborted P req timeout :
  timer_delay timeout < latency (fetch P req) ->
  fetch_with_timer P req timeout
  = ([EvFetch req (timer_delay timeout)], Throw AbortError).
Proof.
  intros L. unfold fetch_with_timer. apply Z.ltb_lt in L. now rewrite L.
Qed.

Lemma fetch_rejected P req timeout e :
  latency (fetch P req) <= timer_delay timeout ->
  settles (fetch P req) = Throw e ->
  fetch_with_timer P req timeout = ([EvFetch req (timer_delay timeout)], Throw e).
Proof.
  intros L S. unfold fetch_with_timer. apply Z.ltb_ge in L. now rewrite L, S.
Qed.

(** C7 (amended).  A client built without a timeout waits 60000 ms.  When
    the promise of [fetch] is still pending as the abort timer of the
    client fires, [request] and [requestBinary] both reject with the API
    error [Request timeout], status code 408; and when [fetch] itself
    rejects in time with a network failure, that failure is passed on
    unchanged, so the two are told apart.  The timer is cleared as soon as
    [fetch] has settled: once a 2xx response is there in time, both
    methods return its body however long reading it takes. *)
Theorem request_timeout_is_api_error :
  (forall P options c,
     LangVoiceClientOptions.timeout options = None ->
     LangVoiceClient.new P options = Return c ->
     LangVoiceClient.timeout c = Fin 60000 0
     /\ timer_delay (LangVoiceClient.timeout c) = 60000)
  /\ (forall P c method endpoint body,
        timer_delay (LangVoiceClient.timeout c)
        < latency (fetch P (LangVoiceClient.json_request c method endpoint body)) ->
        outcome (LangVoiceClient.request P c method endpoint body)
        = Throw (APIError "Request timeout" (Some 408)))
  /\ (forall P c method endpoint body,
        timer_delay (LangVoiceClient.timeout c)
        < latency (fetch P (LangVoiceClient.binary_request c method endpoint body)) ->
        outcome (LangVoiceClient.requestBinary P c method endpoint body)
        = Throw (APIError "Request timeout" (Some 408)))
  /\ (forall P c method endpoint body message,
        latency (fetch P (LangVoiceClient.json_request c method endpoint body))
        <= timer_delay (LangVoiceClient.timeout c) ->
        settles (fetch P (LangVoiceClient.json_request c method endpoint body))
        = Throw (TypeError message) ->
        outcome (LangVoiceClient.request P c method endpoint body)
        = Throw (TypeError message))
  /\ (forall P c method endpoint body message,
        latency (fetch P (LangVoiceClient.binary_request c method endpoint body))
        <= timer_delay (LangVoiceClient.timeout c) ->
        settles (fetch P (LangVoiceClient.binary_request c method endpoint body))
        = Throw (TypeError message) ->
        outcome (LangVoiceClient.requestBinary P c method endpoint body)
        = Throw (TypeError message))
  /\ (forall P c method endpoint body status statusText headers data rejected time,
        let resp := mkResponse status statusText headers (Return data) rejected time in
        answered P c (LangVoiceClient.json_request c method endpoint body) resp ->
        ok resp = true ->
        outcome (LangVoiceClient.request P c method endpoint body)
        = Return (data, headers))
  /\ (forall P c method endpoint body status statusText headers data rejected time,
        let resp := mkResponse status statusText headers rejected (Return data) time in
        answered P c (LangVoiceClient.binary_request c method endpoint body) resp ->
        ok resp = true ->
        outcome (LangVoiceClient.requestBinary P c method endpoint body)
        = Return (data, headers)).
Proof.
  split.
  { intros P options c T N. unfold LangVoiceClient.new in N. rewrite T in N.
    destruct (str_eqb _ ""); [discriminate|]. inversion N. split; reflexivity. }
  repeat split.
  - intros P c method endpoint body L. unfold LangVoiceClient.request.
    now rewrite (fetch_aborted _ _ _ L).
  - intros P c method endpoint body L. unfold LangVoiceClient.requestBinary.
    now rewrite (fetch_aborted _ _ _ L).
  - intros P c method endpoint body message L S. unfold LangVoiceClient.request.
    now rewrite (fetch_rejected _ _ _ _ L S).
  - intros P c method endpoint body message L S. unfold LangVoiceClient.requestBinary.
    now rewrite (fetch_rejected _ _ _ _ L S).
  - intros P c method endpoint body st stt headers data rejected time resp A O.
    now rewrite (request_ok _ _ _ _ _ resp data A O eq_refl).
  - intros P c method endpoint body st stt headers data rejected time resp A O.
    now rewrite (requestBinary_ok _ _ _ _ _ resp data A O eq_refl).
Qed.

(** An answer that takes 120 ms against a timeout of 100 ms. *)
Lemma request_timeout_is_api_error_witness :
  outcome (LangVoiceClient.requestBinary (sample_platform sample_success true)
             hasty_client "POST" "/tts/generate" (JObj []))
  = Throw (APIError "Request timeout" (Some 408)).
Proof.
  refine (proj1 (proj2 (proj2 request_timeout_is_api_error))
            (sample_platform sample_success true) hasty_client
            "POST" "/tts/generate" (JObj []) _).
  vm_compute. reflexivity.
Defined.

(** C7 as stated fails: a request that exceeds the timeout does not
    always raise [Request timeout].  With a timeout of 100 ms, a response
    that is there after 80 ms and whose body takes a second to read makes
    a request of 1080 ms, and [requestBinary] returns the body. *)
Lemma request_timeout_counterexample :
  ~ (forall P c method endpoint body,
       timer_delay (LangVoiceClient.timeout c)
       < duration (fetch P (LangVoiceClient.binary_request c method endpoint body)) ->
       outcome (LangVoiceClient.requestBinary P c method endpoint body)
       = Throw (APIError "Request timeout" (Some 408))).
Proof.
  intros C.
  specialize (C (sample_platform slow_body true) hasty_client "POST" "/tts/generate"
                (JObj [])).
  assert (L : timer_delay (LangVoiceClient.timeout hasty_client)
              < duration (fetch (sample_platform slow_body true)
                            (LangVoiceClient.binary_request hasty_client "POST"
                               "/tts/generate" (JObj [])))) by (vm_compute; reflexivity).
  specialize (C L). vm_compute in C. discriminate C.
Qed.

(** ** Voice cloning *)

(** C5 (the code departs from the claim).  [generateCloned] builds its
    request with [new VoiceCloningRequest], a class that [models.ts] does
    not define: whatever the options, valid or not, the call rejects with
    a [TypeError] before any validation and before anything is sent, where
    [generate] on the same text and speed sends its request. *)
Theorem cloning_request_is_never_built :
  (forall P c options,
     exists message,
       LangVoiceClient.generateCloned P c options = ([], Throw (TypeError message)))
  /\ (forall message, ~ validation_failure (TypeError message))
  /\ (forall P c,
        trace (LangVoiceClient.generate P c
                 (GenerateOptions.mk (VoiceCloningOptions.text cloning_options)
                    JUndefined JUndefined (VoiceCloningOptions.speed cloning_options)))
        = [EvFetch (LangVoiceClient.binary_request c "POST" "/tts/generate"
                      (JObj [("text", VoiceCloningOptions.text cloning_options);
                             ("voice", JStr "heart");
                             ("language", JStr "american_english");
                             ("speed", JNum n1_0)]))
             (timer_delay (LangVoiceClient.timeout c))]).
Proof.
  split; [intros; eexists; reflexivity|]. split.
  - intros message (m & Hm & E). discriminate E.
  - intros P c. unfold LangVoiceClient.generate.
    cbn [GenerateOptions.text GenerateOptions.voice GenerateOptions.language
         GenerateOptions.speed cloning_options VoiceCloningOptions.text
         VoiceCloningOptions.speed].
    match goal with |- context [lift (GenerateRequest.new ?d)] =>
      change (GenerateRequest.new d)
        with (Return (GenerateRequest.mk
                        (JStr "Hello, this is my cloned voice speaking!")
                        (JStr "heart") (JStr "american_english") (JNum n1_0))) end.
    unfold lift.
    match goal with |- context [([], Return ?q)] => fold (ret q) end.
    rewrite bind_ret_l, trace_bind, requestBinary_trace.
    destruct (outcome _); cbn [trace ret fst]; now rewrite app_nil_r.
Qed.

Lemma app_nil_run {A} (m : Run A) : (let '(tr, r) := m in (tr ++ [], r)) = m.
Proof. destruct m. now rewrite app_nil_r. Qed.

(** ** Argument bags *)







(** ** The function map of the AutoGen adapter *)

Lemma functionMap_TTS :
  LangVoiceAutoGenTools.getFunctionMap TOOL_NAMES.TTS
  = LangVoiceAutoGenTools.Handler LangVoiceAutoGenTools.textToSpeechHandler.
Proof. reflexivity. Qed.

Lemma functionMap_MULTI_VOICE :
  LangVoiceAutoGenTools.getFunctionMap TOOL_NAMES.MULTI_VOICE
  = LangVoiceAutoGenTools.Handler LangVoiceAutoGenTools.multiVoiceHandler.
Proof. reflexivity. Qed.

Lemma functionMap_LIST_VOICES :
  LangVoiceAutoGenTools.getFunctionMap TOOL_NAMES.LIST_VOICES
  = LangVoiceAutoGenTools.Handler
      (fun P a _ => LangVoiceAutoGenTools.listVoicesHandler P a).
Proof. reflexivity. Qed.

Lemma functionMap_LIST_LANGUAGES :
  LangVoiceAutoGenTools.getFunctionMap TOOL_NAMES.LIST_LANGUAGES
  = LangVoiceAutoGenTools.Handler
      (fun P a _ => LangVoiceAutoGenTools.listLanguagesHandler P a).
Proof. reflexivity. Qed.

(** ** What the adapters catch and what escapes *)

(** A [try] whose [catch] block returns cannot throw. *)
Lemma try_catch_returns {A} (m : Run A) (h : thrown -> Run A) :
  (forall e, exists b, outcome (h e) = Return b) ->
  exists b, outcome (try_catch m h) = Return b.
Proof.
  intros H. destruct m as [tr [a|e]]; simpl.
  - now exists a.
  - destruct (H e) as [b E]. exists b. destruct (h e) as [tr' r]. exact E.
Qed.

Ltac by_catch := apply try_catch_returns; intros e; eexists; reflexivity.

Lemma get_prop_readable (v : jsval) (k : string) :
  readable v -> get_prop v k = Return (prop_of v k).
Proof.
  intros [H1 H2]. unfold prop_of. destruct v; try reflexivity; congruence.
Qed.

(** The operations of the generic toolkit, the LangChain tools and the
    AutoGen handlers never throw, whatever their input and whatever the
    platform does; the name dispatch of the generic toolkit never throws
    on a readable bag; [handleOpenAIToolCall] never throws once its client
    can be built. *)
Lemma adapters_never_throw :
  (forall P k params, exists v, outcome (LangVoiceToolkit.textToSpeech P k params) = Return v)
  /\ (forall P k params,
        exists v, outcome (LangVoiceToolkit.multiVoiceSpeech P k params) = Return v)
  /\ (forall P k, exists v, outcome (LangVoiceToolkit.listVoices P k) = Return v)
  /\ (forall P k, exists v, outcome (LangVoiceToolkit.listLanguages P k) = Return v)
  /\ (forall P k name args,
        readable args ->
        exists v, outcome (LangVoiceToolkit.handleToolCall P k name args) = Return v)
  /\ (forall P name args key c,
        LangVoiceClient.new P (LangVoiceClientOptions.with_key key) = Return c ->
        exists v, outcome (handleOpenAIToolCall P name args key) = Return v)
  /\ (forall P tool input, exists v, outcome (LangVoiceTTSTool.call P tool input) = Return v)
  /\ (forall P tool input,
        exists v, outcome (LangVoiceMultiVoiceTool.call P tool input) = Return v)
  /\ (forall P tool, exists v, outcome (LangVoiceVoicesTool.call P tool) = Return v)
  /\ (forall P tool, exists v, outcome (LangVoiceLanguagesTool.call P tool) = Return v)
  /\ (forall P a args,
        exists v, outcome (LangVoiceAutoGenTools.textToSpeechHandler P a args) = Return v)
  /\ (forall P a args,
        exists v, outcome (LangVoiceAutoGenTools.multiVoiceHandler P a args) = Return v)
  /\ (forall P a, exists v, outcome (LangVoiceAutoGenTools.listVoicesHandler P a) = Return v)
  /\ (forall P a,
        exists v, outcome (LangVoiceAutoGenTools.listLanguagesHandler P a) = Return v).
Proof.
  assert (G1 : forall P k params,
             exists v, outcome (LangVoiceToolkit.textToSpeech P k params) = Return v)
    by (intros; by_catch).
  assert (G2 : forall P k params,
             exists v, outcome (LangVoiceToolkit.multiVoiceSpeech P k params) = Return v)
    by (intros; by_catch).
  assert (G3 : forall P k, exists v, outcome (LangVoiceToolkit.listVoices P k) = Return v)
    by (intros; by_catch).
  assert (G4 : forall P k, exists v, outcome (LangVoiceToolkit.listLanguages P k) = Return v)
    by (intros; by_catch).
  repeat match goal with |- _ /\ _ => split end;
    try assumption; try (intros; by_catch).
  - intros P k name args R. unfold LangVoiceToolkit.handleToolCall.
    rewrite (get_prop_readable _ "text" R). unfold lift.
    fold (ret (prop_of args "text")). rewrite !bind_ret_l.
    repeat match goal with |- context [if ?b then _ else _] => destruct b end;
      try apply G1; try apply G2; try apply G3; try apply G4.
    eexists; reflexivity.
  - intros P name args key c C. unfold handleOpenAIToolCall. rewrite C.
    unfold lift. fold (ret c). rewrite bind_ret_l. by_catch.
Qed.

(** C4 (the code departs from the claim).  [handleFunctionCall] of the
    AutoGen adapter and [handleCall] of the OpenAI adapter parse a JSON
    argument string before any [try]: whenever [JSON.parse] rejects the
    string, the entry point rejects with that very error, whatever the
    tool name, and no envelope is produced.  [handleOpenAIToolCall] builds
    its client before its [try]: when no API key can be found it rejects
    with the authentication error of the constructor. *)
Theorem malformed_arguments_escape :
  (forall P a name s e,
     JSON_parse P s = Throw e ->
     LangVoiceAutoGenTools.handleFunctionCall P a (AutoGenFunctionCall.mk name (JStr s))
     = ([], Throw e))
  /\ (forall P o id name s e,
        JSON_parse P s = Throw e ->
        LangVoiceOpenAITools.handleCall P o (OpenAIToolCall.mk id name s) = ([], Throw e))
  /\ (forall P name args key e,
        LangVoiceClient.new P (LangVoiceClientOptions.with_key key) = Throw e ->
        handleOpenAIToolCall P name args key = ([], Throw e)).
Proof.
  repeat split.
  - intros P a name s e H. unfold LangVoiceAutoGenTools.handleFunctionCall.
    cbn [AutoGenFunctionCall.arguments LangVoiceAutoGenTools.read_arguments].
    now rewrite H.
  - intros P o id name s e H. unfold LangVoiceOpenAITools.handleCall.
    cbn [OpenAIToolCall.arguments]. now rewrite H.
  - intros P name args key e H. unfold handleOpenAIToolCall. now rewrite H.
Qed.

(** The argument string [{bad] given to the text-to-speech function. *)
Lemma malformed_arguments_escape_witness :
  LangVoiceAutoGenTools.handleFunctionCall (sample_platform sample_success true)
    sample_autogen (AutoGenFunctionCall.mk TOOL_NAMES.TTS (JStr "{bad"))
  = ([], Throw (SyntaxError "Unexpected token in JSON")).
Proof.
  exact (proj1 malformed_arguments_escape (sample_platform sample_success true)
           sample_autogen TOOL_NAMES.TTS "{bad"
           (SyntaxError "Unexpected token in JSON") eq_refl).
Defined.

(** ** Unknown names *)

Lemma unknown_tests (name : string) :
  ~ known name ->
  str_eqb name TOOL_NAMES.TTS = false
  /\ str_eqb name TOOL_NAMES.MULTI_VOICE = false
  /\ str_eqb name TOOL_NAMES.LIST_VOICES = false
  /\ str_eqb name TOOL_NAMES.LIST_LANGUAGES = false.
Proof.
  intros U. unfold known, TOOL_NAMES.all in U.
  repeat split; apply String.eqb_neq; intros E; apply U; subst; simpl; auto.
Qed.

Lemma includes_suffix (p q : string) : includes p (q ^^ p) = true.
Proof.
  assert (R : forall s, strip_prefix s s = Some "").
  { induction s as [|c s IH]; simpl; [reflexivity|]. now rewrite Ascii.eqb_refl. }
  assert (E : forall s, includes s s = true).
  { intros s. destruct s; simpl; [reflexivity|].
    now rewrite Ascii.eqb_refl, R. }
  induction q as [|c q IH].
  - apply E.
  - change (String c q ^^ p) with (String c (q ^^ p)). cbn [includes].
    destruct (strip_prefix p (String c (q ^^ p))); [reflexivity | exact IH].
Qed.

Lemma append_assoc_r (a b c : string) : (a ^^ b) ^^ c = a ^^ (b ^^ c).
Proof. induction a as [|x a IH]; simpl; [reflexivity | now rewrite IH]. Qed.

Lemma strip_prefix_append (p s : string) : strip_prefix p (p ^^ s) = Some s.
Proof.
  induction p as [|c p IH]; simpl; [reflexivity|]. now rewrite Ascii.eqb_refl.
Qed.

Lemma includes_prefix (p s : string) : includes p (p ^^ s) = true.
Proof.
  destruct (p ^^ s) eqn:E; cbn [includes].
  - destruct p; [reflexivity | discriminate].
  - rewrite <- E, strip_prefix_append. reflexivity.
Qed.

Lemma includes_middle (a p b : string) : includes p (a ^^ p ^^ b) = true.
Proof.
  induction a as [|c a IH].
  - change ("" ^^ p ^^ b) with (p ^^ b). apply includes_prefix.
  - change (String c a ^^ p ^^ b) with (String c (a ^^ p ^^ b)). cbn [includes].
    destruct (strip_prefix p (String c (a ^^ p ^^ b))); [reflexivity | exact IH].
Qed.

(** Where an unknown name is refused: always by the generic toolkit; by
    [handleOpenAIToolCall] once its client can be built; by the AutoGen
    adapter when the arguments are an object (or a string that parses)
    and the name is not a member of [Object.prototype].  The message
    ends with the name. *)
Lemma unknown_name_refused (name : string) :
  ~ known name ->
  (forall P k args,
     LangVoiceToolkit.handleToolCall P k name args
     = ([], Return (failure ("Unknown tool: " ^^ name))))
  /\ (forall P args key c,
        LangVoiceClient.new P (LangVoiceClientOptions.with_key key) = Return c ->
        handleOpenAIToolCall P name args key
        = ([], Return (JSON_stringify (failure ("Unknown tool: " ^^ name)))))
  /\ (forall P a args parsed,
        ~ In name Object_prototype_members ->
        LangVoiceAutoGenTools.read_arguments P args = Return parsed ->
        LangVoiceAutoGenTools.handleFunctionCall P a (AutoGenFunctionCall.mk name args)
        = ([], Return (ReplyJson (JSON_stringify (failure ("Unknown function: " ^^ name))))))
  /\ includes name ("Unknown tool: " ^^ name) = true
  /\ includes name ("Unknown function: " ^^ name) = true.
Proof.
  intros U. destruct (unknown_tests name U) as (T1 & T2 & T3 & T4).
  repeat split.
  - intros P k args. unfold LangVoiceToolkit.handleToolCall. now rewrite T1, T2, T3, T4.
  - intros P args key c C. unfold handleOpenAIToolCall. rewrite C, T1, T2, T3, T4.
    reflexivity.
  - intros P a args parsed NI E. unfold LangVoiceAutoGenTools.handleFunctionCall.
    cbn [AutoGenFunctionCall.arguments AutoGenFunctionCall.name]. rewrite E.
    unfold LangVoiceAutoGenTools.getFunctionMap. rewrite T1, T2, T3, T4.
    destruct (existsb (str_eqb name) Object_prototype_members) eqn:X.
    + exfalso. apply NI. apply existsb_exists in X. destruct X as [x [I X]].
      apply String.eqb_eq in X. now subst.
    + reflexivity.
  - apply includes_suffix.
  - apply includes_suffix.
Qed.

(** C8 (the code departs from the claim).  The AutoGen adapter looks the
    name up in an object literal, which inherits the members of
    [Object.prototype].  The name [constructor] is none of the four tool
    names, yet the lookup finds [Object], [handleFunctionCall] calls it on
    the arguments and returns the arguments themselves: no failure result
    and no message naming [constructor].  The name [__proto__] finds an
    object that cannot be called, and the entry point rejects with a
    [TypeError]. *)
Theorem inherited_name_not_refused :
  ~ known "constructor" /\ ~ known "__proto__"
  /\ (forall P a members,
        LangVoiceAutoGenTools.handleFunctionCall P a
          (AutoGenFunctionCall.mk "constructor" (JObj members))
        = ([], Return (ReplyValue (JObj members))))
  /\ (forall P a members,
        LangVoiceAutoGenTools.handleFunctionCall P a
          (AutoGenFunctionCall.mk "__proto__" (JObj members))
        = ([], Throw (TypeError "handler is not a function"))).
Proof.
  repeat split.
  - unfold known, TOOL_NAMES.all; simpl. intros [H|[H|[H|[H|[]]]]]; discriminate H.
  - unfold known, TOOL_NAMES.all; simpl. intros [H|[H|[H|[H|[]]]]]; discriminate H.
Qed.

(** ** Persisting the audio *)

Lemma writes_or_fails P path data : writes P path data \/ write_fails P path data.
Proof.
  unfold writes, write_fails. destruct (fs_writeFileSync P) as [w|] eqn:E.
  - destruct (w path data) as [u|e] eqn:W.
    + left. now exists w, u.
    + right. right. now exists w, e.
  - right. now left.
Qed.

Lemma persist_writes {A} P path data (a b : A) :
  writes P path data ->
  persist P path data a b = ([EvWriteFile path data], Return a).
Proof.
  intros [w [u [E W]]]. unfold persist, import_fs. rewrite E.
  unfold ret, bind, try_catch. now rewrite W.
Qed.

Lemma persist_fails {A} P path data (a b : A) :
  write_fails P path data ->
  outcome (persist P path data a b) = Return b
  /\ (forall ev, In ev (trace (persist P path data a b)) -> ev = EvWriteFile path data).
Proof.
  intros [E | [w [e [E W]]]]; unfold persist, import_fs; rewrite E.
  - split; [reflexivity | intros ev []].
  - unfold ret, bind, try_catch. rewrite W. split; [reflexivity|].
    intros ev [H|[]]. now symmetry.
Qed.

Lemma persist_returns {A} P path data (a b : A) :
  exists tr x, persist P path data a b = (tr, Return x).
Proof.
  destruct (writes_or_fails P path data) as [W|F].
  - rewrite (persist_writes _ _ _ a b W). now eexists _, _.
  - destruct (persist_fails _ _ _ a b F) as [O _].
    destruct (persist P path data a b) as [tr x]. simpl in O. subst x. now eexists _, _.
Qed.

Lemma persist_shown {A} P path data (f : string -> A) (a b : A) :
  a = match js_ToString path with Return shown => f shown | Throw _ => b end ->
  try_catch (fs <- import_fs P ;; fs path data ;;;
             shown <- lift (js_ToString path) ;; ret (f shown))
            (fun _ => ret b)
  = persist P path data a b.
Proof.
  intros ->. unfold persist, import_fs.
  destruct (fs_writeFileSync P) as [write|]; [|reflexivity].
  unfold ret, bind, lift, try_catch.
  destruct (write path data) as [u|e]; [|reflexivity].
  destruct (js_ToString path) as [shown|e]; reflexivity.
Qed.

(** Once [generate] has returned [r], the text-to-speech handler of the
    AutoGen adapter persists when [autoSave] is set and answers inline
    otherwise. *)
Lemma autogen_tts_shape P a args tr r :
  readable args ->
  LangVoiceClient.generate P (LangVoiceAutoGenTools.client a) (adapter_options args)
  = (tr, Return r) ->
  LangVoiceAutoGenTools.textToSpeechHandler P a args
  = if LangVoiceAutoGenTools.autoSave a then
      let '(tr', x) := persist P (autogen_path a args) (GenerateResponse.audioData r)
                         (JSON_stringify (autogen_saved (autogen_path a args) r))
                         (JSON_stringify (autogen_degraded r)) in
      (tr ++ tr', x)
    else (tr, Return (JSON_stringify (autogen_inline r))).
Proof.
  intros R G. unfold LangVoiceAutoGenTools.textToSpeechHandler.
  rewrite (get_prop_readable _ "text" R). unfold lift at 1.
  fold (ret (prop_of args "text")). rewrite bind_ret_l.
  fold (adapter_options args). rewrite G. unfold bind at 1.
  fold (autogen_path a args).
  destruct (LangVoiceAutoGenTools.autoSave a).
  - fold (autogen_degraded r).
    rewrite (persist_shown P (autogen_path a args) (GenerateResponse.audioData r) _
               (JSON_stringify (autogen_saved (autogen_path a args) r))
               (JSON_stringify (autogen_degraded r)))
      by (unfold autogen_saved; now destruct (js_ToString (autogen_path a args))).
    destruct (persist_returns P (autogen_path a args) (GenerateResponse.audioData r)
                (JSON_stringify (autogen_saved (autogen_path a args) r))
                (JSON_stringify (autogen_degraded r))) as [tr' [x E]].
    rewrite E. reflexivity.
  - unfold ret, try_catch. now rewrite app_nil_r.
Qed.

Lemma autogen_multi_shape P a args tr r :
  readable args ->
  LangVoiceClient.generateMultiVoice P (LangVoiceAutoGenTools.client a)
    (adapter_multi_options args) = (tr, Return r) ->
  LangVoiceAutoGenTools.multiVoiceHandler P a args
  = if LangVoiceAutoGenTools.autoSave a then
      let '(tr', x) := persist P (autogen_path a args) (GenerateResponse.audioData r)
                         (JSON_stringify (autogen_multi_saved (autogen_path a args) r))
                         (JSON_stringify (autogen_multi_degraded r)) in
      (tr ++ tr', x)
    else (tr, Return (JSON_stringify (autogen_multi_inline r))).
Proof.
  intros R G. unfold LangVoiceAutoGenTools.multiVoiceHandler.
  rewrite (get_prop_readable _ "text" R). unfold lift at 1.
  fold (ret (prop_of args "text")). rewrite bind_ret_l.
  fold (adapter_multi_options args). rewrite G. unfold bind at 1.
  fold (autogen_path a args).
  destruct (LangVoiceAutoGenTools.autoSave a).
  - fold (autogen_multi_degraded r).
    rewrite (persist_shown P (autogen_path a args) (GenerateResponse.audioData r) _
               (JSON_stringify (autogen_multi_saved (autogen_path a args) r))
               (JSON_stringify (autogen_multi_degraded r)))
      by (unfold autogen_multi_saved; now destruct (js_ToString (autogen_path a args))).
    destruct (persist_returns P (autogen_path a args) (GenerateResponse.audioData r)
                (JSON_stringify (autogen_multi_saved (autogen_path a args) r))
                (JSON_stringify (autogen_multi_degraded r))) as [tr' [x E]].
    rewrite E. reflexivity.
  - unfold ret, try_catch. now rewrite app_nil_r.
Qed.

Lemma langchain_tts_shape P tool input tr r :
  readable (langchain_params input) ->
  LangVoiceClient.generate P (LangVoiceTTSTool.client tool)
    (adapter_options (langchain_params input)) = (tr, Return r) ->
  LangVoiceTTSTool.call P tool input
  = if negb (str_eqb (LangVoiceTTSTool.outputFile tool) "") then
      let '(tr', x) := persist P (JStr (LangVoiceTTSTool.outputFile tool))
                         (GenerateResponse.audioData r)
                         (langchain_saved (LangVoiceTTSTool.outputFile tool) r)
                         (langchain_inline r) in
      (tr ++ tr', x)
    else (tr, Return (langchain_inline r)).
Proof.
  intros R G. unfold LangVoiceTTSTool.call. cbv zeta.
  rewrite (get_prop_readable _ "text" R). unfold lift.
  fold (ret (prop_of (langchain_params input) "text")). rewrite bind_ret_l.
  fold (adapter_options (langchain_params input)). rewrite G. unfold bind at 1.
  fold (langchain_saved (LangVoiceTTSTool.outputFile tool) r). fold (langchain_inline r).
  destruct (negb (str_eqb (LangVoiceTTSTool.outputFile tool) "")).
  - match goal with
    | |- context [try_catch (bind (import_fs P) ?k) ?h] =>
        change (try_catch (bind (import_fs P) k) h)
          with (persist P (JStr (LangVoiceTTSTool.outputFile tool))
                  (GenerateResponse.audioData r)
                  (langchain_saved (LangVoiceTTSTool.outputFile tool) r)
                  (langchain_inline r))
    end.
    destruct (persist_returns P (JStr (LangVoiceTTSTool.outputFile tool))
                (GenerateResponse.audioData r)
                (langchain_saved (LangVoiceTTSTool.outputFile tool) r)
                (langchain_inline r)) as [tr' [x E]].
    rewrite E. reflexivity.
  - unfold ret, try_catch. now rewrite app_nil_r.
Qed.

Lemma langchain_multi_shape P tool input tr r :
  readable (langchain_params input) ->
  LangVoiceClient.generateMultiVoice P (LangVoiceMultiVoiceTool.client tool)
    (adapter_multi_options (langchain_params input)) = (tr, Return r) ->
  let file := str_or (LangVoiceMultiVoiceTool.outputFile tool) "" in
  LangVoiceMultiVoiceTool.call P tool input
  = if negb (str_eqb file "") then
      let '(tr', x) := persist P (JStr file) (GenerateResponse.audioData r)
                         (langchain_multi_saved file r) (langchain_multi_inline r) in
      (tr ++ tr', x)
    else (tr, Return (langchain_multi_inline r)).
Proof.
  intros R G. unfold LangVoiceMultiVoiceTool.call. cbv zeta.
  rewrite (get_prop_readable _ "text" R). unfold lift.
  fold (ret (prop_of (langchain_params input) "text")). rewrite bind_ret_l.
  fold (adapter_multi_options (langchain_params input)). rewrite G. unfold bind at 1.
  set (file := str_or (LangVoiceMultiVoiceTool.outputFile tool) "").
  fold (langchain_multi_saved file r). fold (langchain_multi_inline r).
  destruct (negb (str_eqb file "")).
  - match goal with
    | |- context [try_catch (bind (import_fs P) ?k) ?h] =>
        change (try_catch (bind (import_fs P) k) h)
          with (persist P (JStr file) (GenerateResponse.audioData r)
                  (langchain_multi_saved file r) (langchain_multi_inline r))
    end.
    destruct (persist_returns P (JStr file) (GenerateResponse.audioData r)
                (langchain_multi_saved file r) (langchain_multi_inline r))
      as [tr' [x E]].
    rewrite E. reflexivity.
  - unfold ret, try_catch. now rewrite app_nil_r.
Qed.

(** An explicit save: [false] as soon as the write fails, whatever the
    result holds. *)
Lemma save_result_fails P result path :
  readable result ->
  (forall data, write_fails P path data) ->
  outcome (save_result P result path) = Return false.
Proof.
  intros R F. unfold save_result.
  rewrite (get_prop_readable _ "success" R). unfold lift.
  fold (ret (prop_of result "success")). rewrite bind_ret_l.
  destruct (negb (truthy (prop_of result "success"))
            || negb (truthy (prop_of result "audioBase64"))); [reflexivity|].
  unfold import_fs.
  destruct (fs_writeFileSync P) as [w|] eqn:E; [|reflexivity].
  rewrite bind_ret_l.
  destruct (Buffer_from P (prop_of result "audioBase64")) as [b|e]; [|reflexivity].
  fold (ret b). rewrite bind_ret_l.
  destruct (F b) as [N | [w' [e [E' W]]]]; [congruence|].
  assert (w' = w) by congruence. subst w'.
  unfold bind, try_catch, ret. now rewrite W.
Qed.

Lemma autogen_saveAudio_fails P a result path :
  (forall data, write_fails P (JStr (str_or path (LangVoiceAutoGenTools.outputFile a))) data) ->
  outcome (LangVoiceAutoGenTools.saveAudio P a result path) = Return false.
Proof.
  intros F. unfold LangVoiceAutoGenTools.saveAudio.
  destruct (negb (TTSResult.success result)
            || str_eqb (str_or (TTSResult.audioBase64 result) "") ""); [reflexivity|].
  unfold import_fs.
  destruct (fs_writeFileSync P) as [w|] eqn:E; [|reflexivity].
  rewrite bind_ret_l.
  destruct (F (Buffer_from_base64 (str_or (TTSResult.audioBase64 result) "")))
    as [N | [w' [e [E' W]]]]; [congruence|].
  assert (w' = w) by congruence. subst w'.
  unfold bind, try_catch, ret. now rewrite W.
Qed.

Lemma outcome_after {A} (tr : list Event) (m : Run A) :
  outcome (let '(tr', x) := m in (tr ++ tr', x)) = outcome m.
Proof. now destruct m. Qed.

(** C9 (amended).  When an adapter is asked to persist the audio of a
    generation that succeeded and the write fails, it does not raise.  The
    text-to-speech tool of the LangChain adapter and the text-to-speech
    handler of the AutoGen adapter return their success result without a
    file, carrying the duration and a preview of the audio: the first 100
    characters of its base64 text followed by three dots.  The multi-voice
    tool of the LangChain adapter returns its success string carrying the
    duration; the multi-voice handler of the AutoGen adapter returns a
    success result carrying the duration.  An explicit save returns
    [false].  When the write goes through, the same operations return
    their success result naming the file: success does not depend on the
    write. *)
Theorem persistence_failure_degrades :
  (forall P tool input tr r,
     readable (langchain_params input) ->
     LangVoiceClient.generate P (LangVoiceTTSTool.client tool)
       (adapter_options (langchain_params input)) = (tr, Return r) ->
     LangVoiceTTSTool.outputFile tool <> "" ->
     let path := JStr (LangVoiceTTSTool.outputFile tool) in
     (write_fails P path (GenerateResponse.audioData r) ->
      outcome (LangVoiceTTSTool.call P tool input) = Return (langchain_inline r))
     /\ (writes P path (GenerateResponse.audioData r) ->
         outcome (LangVoiceTTSTool.call P tool input)
         = Return (langchain_saved (LangVoiceTTSTool.outputFile tool) r)))
  /\ (forall P a args tr r,
        readable args ->
        LangVoiceClient.generate P (LangVoiceAutoGenTools.client a) (adapter_options args)
        = (tr, Return r) ->
        LangVoiceAutoGenTools.autoSave a = true ->
        (write_fails P (autogen_path a args) (GenerateResponse.audioData r) ->
         outcome (LangVoiceAutoGenTools.textToSpeechHandler P a args)
         = Return (JSON_stringify (autogen_degraded r)))
        /\ (writes P (autogen_path a args) (GenerateResponse.audioData r) ->
            outcome (LangVoiceAutoGenTools.textToSpeechHandler P a args)
            = Return (JSON_stringify (autogen_saved (autogen_path a args) r))))
  /\ (forall P tool input tr r file,
        readable (langchain_params input) ->
        LangVoiceClient.generateMultiVoice P (LangVoiceMultiVoiceTool.client tool)
          (adapter_multi_options (langchain_params input)) = (tr, Return r) ->
        LangVoiceMultiVoiceTool.outputFile tool = Some file -> file <> "" ->
        (write_fails P (JStr file) (GenerateResponse.audioData r) ->
         outcome (LangVoiceMultiVoiceTool.call P tool input)
         = Return (langchain_multi_inline r))
        /\ (writes P (JStr file) (GenerateResponse.audioData r) ->
            outcome (LangVoiceMultiVoiceTool.call P tool input)
            = Return (langchain_multi_saved file r)))
  /\ (forall P a args tr r,
        readable args ->
        LangVoiceClient.generateMultiVoice P (LangVoiceAutoGenTools.client a)
          (adapter_multi_options args) = (tr, Return r) ->
        LangVoiceAutoGenTools.autoSave a = true ->
        (write_fails P (autogen_path a args) (GenerateResponse.audioData r) ->
         exists v,
           outcome (LangVoiceAutoGenTools.multiVoiceHandler P a args)
           = Return (JSON_stringify v)
           /\ prop_of v "success" = JBool true
           /\ prop_of v "duration" = opt_num (GenerateResponse.duration r))
        /\ (writes P (autogen_path a args) (GenerateResponse.audioData r) ->
            outcome (LangVoiceAutoGenTools.multiVoiceHandler P a args)
            = Return (JSON_stringify (autogen_multi_saved (autogen_path a args) r))))
  /\ (forall P k o result path,
        readable result ->
        (forall data, write_fails P path data) ->
        outcome (LangVoiceToolkit.saveAudio P k result path) = Return false
        /\ outcome (LangVoiceOpenAITools.saveAudioFromResult P o result path)
           = Return false)
  /\ (forall P a result path,
        (forall data,
           write_fails P (JStr (str_or path (LangVoiceAutoGenTools.outputFile a))) data) ->
        outcome (LangVoiceAutoGenTools.saveAudio P a result path) = Return false)
  /\ (forall r,
        strip_prefix check_mark (langchain_inline r) <> None
        /\ includes (show_num (GenerateResponse.duration r)) (langchain_inline r) = true
        /\ includes (preview r) (langchain_inline r) = true
        /\ prop_of (autogen_degraded r) "success" = JBool true
        /\ prop_of (autogen_degraded r) "duration"
           = opt_num (GenerateResponse.duration r)
        /\ prop_of (autogen_degraded r) "audioBase64Preview" = JStr (preview r)
        /\ strip_prefix check_mark (langchain_multi_inline r) <> None
        /\ includes (show_num (GenerateResponse.duration r)) (langchain_multi_inline r)
           = true).
Proof.
  split.
  { intros P tool input tr r R G F path.
    rewrite (langchain_tts_shape _ _ _ _ _ R G).
    assert (N : negb (str_eqb (LangVoiceTTSTool.outputFile tool) "") = true).
    { apply negb_true_iff. now apply String.eqb_neq. }
    rewrite N. cbv iota. split.
    - intros W. etransitivity; [apply outcome_after|]. now apply persist_fails.
    - intros W. etransitivity; [apply outcome_after|].
      now rewrite (persist_writes _ _ _ _ _ W). }
  split.
  { intros P a args tr r R G S. rewrite (autogen_tts_shape _ _ _ _ _ R G), S.
    cbv iota. split.
    - intros W. etransitivity; [apply outcome_after|]. now apply persist_fails.
    - intros W. etransitivity; [apply outcome_after|].
      now rewrite (persist_writes _ _ _ _ _ W). }
  split.
  { intros P tool input tr r file R G F N.
    pose proof (langchain_multi_shape _ _ _ _ _ R G) as H. cbv zeta in H.
    rewrite H, F. cbn [str_or].
    assert (E : str_eqb file "" = false) by now apply String.eqb_neq.
    rewrite E. cbv iota. rewrite E. cbn [negb]. cbv iota. split.
    - intros W. etransitivity; [apply outcome_after|]. now apply persist_fails.
    - intros W. etransitivity; [apply outcome_after|].
      now rewrite (persist_writes _ _ _ _ _ W). }
  split.
  { intros P a args tr r R G S. rewrite (autogen_multi_shape _ _ _ _ _ R G), S.
    cbv iota. split.
    - intros W. exists (autogen_multi_degraded r).
      split; [etransitivity; [apply outcome_after|]; now apply persist_fails|].
      split; reflexivity.
    - intros W. etransitivity; [apply outcome_after|].
      now rewrite (persist_writes _ _ _ _ _ W). }
  split.
  { intros P k o result path R F. split; now apply save_result_fails. }
  split.
  { intros P a result path F. now apply autogen_saveAudio_fails. }
  intros r. repeat split; try reflexivity.
  - unfold langchain_inline, check_mark. simpl. discriminate.
  - unfold langchain_inline.
    change (check_mark ^^ " Speech generated! Duration: "
            ^^ show_num (GenerateResponse.duration r) ^^ "s. "
            ^^ "Audio (base64): " ^^ preview r)
      with ((check_mark ^^ " Speech generated! Duration: ")
            ^^ show_num (GenerateResponse.duration r)
            ^^ ("s. " ^^ "Audio (base64): " ^^ preview r)).
    apply includes_middle.
  - unfold langchain_inline.
    rewrite <- !append_assoc_r. apply includes_suffix.
  - unfold langchain_multi_inline, check_mark. simpl. discriminate.
  - unfold langchain_multi_inline.
    change (check_mark ^^ " Multi-voice speech generated! Duration: "
            ^^ show_num (GenerateResponse.duration r) ^^ "s. "
            ^^ "Audio available in base64 format.")
      with ((check_mark ^^ " Multi-voice speech generated! Duration: ")
            ^^ show_num (GenerateResponse.duration r)
            ^^ ("s. " ^^ "Audio available in base64 format.")).
    apply includes_middle.
Qed.

(** The text-to-speech tool of the LangChain adapter on a file system that
    refuses the write: the call returns the success string with the
    duration and the preview. *)
Lemma persistence_failure_degrades_witness :
  outcome (LangVoiceTTSTool.call unwritable sample_tts_tool (JStr "Hello world"))
  = Return (langchain_inline sample_generated).
Proof.
  refine (proj1 (proj1 persistence_failure_degrades unwritable sample_tts_tool
                   (JStr "Hello world") _ sample_generated _ _ _) _).
  - split; discriminate.
  - vm_compute. reflexivity.
  - discriminate.
  - right. eexists _, _. split; reflexivity.
Defined.

(** C9 as stated fails: a degraded outcome does not always carry a preview
    of the audio.  The multi-voice tool of the LangChain adapter, asked to
    write [podcast.mp3] on a file system that refuses, returns a success
    string in which no base64 text of the audio appears. *)
Lemma persistence_preview_counterexample :
  ~ (forall P tool input tr r file,
       readable (langchain_params input) ->
       LangVoiceClient.generateMultiVoice P (LangVoiceMultiVoiceTool.client tool)
         (adapter_multi_options (langchain_params input)) = (tr, Return r) ->
       LangVoiceMultiVoiceTool.outputFile tool = Some file -> file <> "" ->
       write_fails P (JStr file) (GenerateResponse.audioData r) ->
       exists reply,
         outcome (LangVoiceMultiVoiceTool.call P tool input) = Return reply
         /\ includes (substring0 100 (GenerateResponse.toBase64 r)) reply = true).
Proof.
  intros C.
  destruct (C unwritable sample_multi_tool (JStr "[heart] Hello! [michael] Hi there!")
              [EvFetch (LangVoiceClient.binary_request sample_client "POST"
                          "/tts/multi-voice-text"
                          (JObj [("text", JStr "[heart] Hello! [michael] Hi there!");
                                 ("language", JStr "american_english");
                                 ("speed", JNum n1_0)]))
                 60000]
              sample_generated "podcast.mp3")
    as [reply [O I]].
  - split; discriminate.
  - vm_compute. reflexivity.
  - reflexivity.
  - discriminate.
  - right. eexists _, _. split; reflexivity.
  - vm_compute in O. inversion O; subst reply. vm_compute in I. discriminate I.
Qed.

(** ** The four adapters against the client *)

Lemma persist_summary {A} P path data (a b : A) :
  exists tr x,
    persist P path data a b = (tr, Return x)
    /\ (x = a \/ x = b)
    /\ (forall ev, In ev tr -> ev = EvWriteFile path data)
    /\ (writes P path data -> tr = [EvWriteFile path data] /\ x = a).
Proof.
  destruct (writes_or_fails P path data) as [W|F].
  - exists [EvWriteFile path data], a. rewrite (persist_writes _ _ _ a b W).
    repeat split; auto. intros ev [H|[]]. now symmetry.
  - destruct (persist_fails _ _ _ a b F) as [O T].
    destruct (persist P path data a b) as [tr x] eqn:E. simpl in O, T. subst x.
    exists tr, b. repeat split; auto.
    + destruct F as [N | [w [e [N Y]]]]; destruct H as [w' [u [N' Y']]]; congruence.
    + destruct F as [N | [w [e [N Y]]]]; destruct H as [w' [u [N' Y']]]; congruence.
Qed.

Lemma persist_cases {A} P path data (a b : A) :
  exists tr x,
    persist P path data a b = (tr, Return x)
    /\ (forall ev, In ev tr -> ev = EvWriteFile path data)
    /\ (writes P path data -> tr = [EvWriteFile path data] /\ x = a)
    /\ (write_fails P path data -> x = b).
Proof.
  destruct (writes_or_fails P path data) as [W|F].
  - exists [EvWriteFile path data], a. rewrite (persist_writes _ _ _ a b W).
    repeat split; auto.
    + intros ev [H|[]]. now symmetry.
    + intros [N | [w [e [N Y]]]]; destruct W as [w' [u [N' Y']]]; congruence.
  - destruct (persist_fails _ _ _ a b F) as [O T].
    destruct (persist P path data a b) as [tr x] eqn:E. simpl in O, T. subst x.
    exists tr, b. repeat split; auto.
    + destruct F as [N | [w [e [N Y]]]]; destruct H as [w' [u [N' Y']]]; congruence.
    + destruct F as [N | [w [e [N Y]]]]; destruct H as [w' [u [N' Y']]]; congruence.
Qed.

(** Reading a member of an envelope after [JSON.stringify]: the optional
    numbers decide which members are kept. *)
Ltac by_metadata r :=
  unfold generic_success, JSON_stringify, JSON_parse_text;
  destruct (GenerateResponse.duration r) as [[| | |? ?]|];
  destruct (GenerateResponse.charactersProcessed r) as [[| | |? ?]|];
  reflexivity.

Lemma generic_success_members (r : GenerateResponse.t) :
  prop_of (generic_success r) "success" = JBool true
  /\ prop_of (generic_success r) "audioBase64" = JStr (GenerateResponse.toBase64 r)
  /\ prop_of (JSON_parse_text (JSON_stringify (generic_success r))) "success" = JBool true
  /\ prop_of (JSON_parse_text (JSON_stringify (generic_success r))) "audioBase64"
     = JStr (GenerateResponse.toBase64 r)
  /\ Buffer_from_base64 (GenerateResponse.toBase64 r) = GenerateResponse.audioData r.
Proof.
  repeat split; try by_metadata r. apply base64_roundtrip.
Qed.

Lemma default_resolution P c (t : jsval) :
  LangVoiceClient.generate P c (GenerateOptions.mk t JUndefined JUndefined JUndefined)
  = LangVoiceClient.generate P c
      (GenerateOptions.mk t (JStr "heart") (JStr "american_english") one).
Proof. reflexivity. Qed.

Lemma generic_tts_shape P k params tr r :
  LangVoiceClient.generate P (LangVoiceToolkit.client k)
    (GenerateOptions.mk (TTSInput.text params)
       (js_or (TTSInput.voice params) (JStr "heart"))
       (js_or (TTSInput.language params) (JStr "american_english"))
       (js_or (TTSInput.speed params) (JNum n1_0))) = (tr, Return r) ->
  LangVoiceToolkit.textToSpeech P k params = (tr, Return (generic_success r)).
Proof.
  intros G. unfold LangVoiceToolkit.textToSpeech. rewrite G.
  unfold bind, ret, try_catch. now rewrite app_nil_r.
Qed.

Lemma openai_tts_shape P args key c tr r :
  readable args ->
  LangVoiceClient.new P (LangVoiceClientOptions.with_key key) = Return c ->
  LangVoiceClient.generate P c (adapter_options args) = (tr, Return r) ->
  handleOpenAIToolCall P TOOL_NAMES.TTS args key
  = (tr, Return (JSON_stringify (generic_success r))).
Proof.
  intros R C G. unfold handleOpenAIToolCall. rewrite C. unfold lift.
  fold (ret c). rewrite bind_ret_l.
  change (str_eqb TOOL_NAMES.TTS TOOL_NAMES.TTS) with true. cbv iota.
  rewrite (get_prop_readable _ "text" R).
  fold (ret (prop_of args "text")). rewrite bind_ret_l.
  fold (adapter_options args). rewrite G.
  unfold bind, ret, try_catch. now rewrite !app_nil_r.
Qed.

(** C6 (amended).  Omitted arguments resolve in the request model to the
    voice [heart], the language [american_english] and the speed 1.0.  Let
    the direct call [client.generate] with these values and the text
    [Hello world] return a response [r] after the effects [tr].  Given only
    [{text: "Hello world"}], each adapter over the same client performs
    exactly that call and reports success.  The generic toolkit and the
    OpenAI handler return the success envelope whose [audioBase64] decodes
    to the audio of [r], and so does the AutoGen handler without
    [autoSave].  The LangChain tool, and the AutoGen handler with
    [autoSave], write the audio of [r] to their file and name the file in
    their reply; when the write fails, or the LangChain tool has no file,
    the reply holds a preview only: the first 100 characters of the base64
    text of the audio, followed by three dots. *)
Theorem adapters_agree_with_client :
  (forall P c t,
     LangVoiceClient.generate P c (GenerateOptions.mk t JUndefined JUndefined JUndefined)
     = LangVoiceClient.generate P c
         (GenerateOptions.mk t (JStr "heart") (JStr "american_english") one))
  /\ (forall P c tr r,
        LangVoiceClient.generate P c hello_defaults = (tr, Return r) ->
        LangVoiceToolkit.textToSpeech P (LangVoiceToolkit.mk c) hello_input
        = (tr, Return (generic_success r))
        /\ LangVoiceToolkit.handleToolCall P (LangVoiceToolkit.mk c) TOOL_NAMES.TTS hello_args
           = (tr, Return (generic_success r))
        /\ (forall key,
              LangVoiceClient.new P (LangVoiceClientOptions.with_key key) = Return c ->
              handleOpenAIToolCall P TOOL_NAMES.TTS hello_args key
              = (tr, Return (JSON_stringify (generic_success r))))
        /\ prop_of (generic_success r) "success" = JBool true
        /\ prop_of (generic_success r) "audioBase64"
           = JStr (GenerateResponse.toBase64 r)
        /\ prop_of (JSON_parse_text (JSON_stringify (generic_success r))) "success"
           = JBool true
        /\ prop_of (JSON_parse_text (JSON_stringify (generic_success r))) "audioBase64"
           = JStr (GenerateResponse.toBase64 r)
        /\ Buffer_from_base64 (GenerateResponse.toBase64 r) = GenerateResponse.audioData r
        /\ (forall file,
              exists tr' reply,
                LangVoiceTTSTool.call P (LangVoiceTTSTool.mk c file) hello_args
                = (tr ++ tr', Return reply)
                /\ strip_prefix check_mark reply <> None
                /\ (forall ev, In ev tr' ->
                      ev = EvWriteFile (JStr file) (GenerateResponse.audioData r))
                /\ (file <> "" ->
                    writes P (JStr file) (GenerateResponse.audioData r) ->
                    tr' = [EvWriteFile (JStr file) (GenerateResponse.audioData r)]
                    /\ reply = langchain_saved file r)
                /\ (file = "" \/ write_fails P (JStr file) (GenerateResponse.audioData r) ->
                    reply = langchain_inline r))
        /\ (forall file autoSave,
              exists tr' v,
                LangVoiceAutoGenTools.handleFunctionCall P
                  (LangVoiceAutoGenTools.mk c file autoSave)
                  (AutoGenFunctionCall.mk TOOL_NAMES.TTS hello_args)
                = (tr ++ tr', Return (ReplyJson (JSON_stringify v)))
                /\ LangVoiceAutoGenTools.textToSpeechHandler P
                     (LangVoiceAutoGenTools.mk c file autoSave) hello_args
                   = (tr ++ tr', Return (JSON_stringify v))
                /\ prop_of v "success" = JBool true
                /\ (forall ev, In ev tr' ->
                      ev = EvWriteFile (JStr file) (GenerateResponse.audioData r))
                /\ (autoSave = false ->
                    tr' = [] /\ v = autogen_inline r
                    /\ prop_of v "audioBase64" = JStr (GenerateResponse.toBase64 r))
                /\ (autoSave = true ->
                    writes P (JStr file) (GenerateResponse.audioData r) ->
                    tr' = [EvWriteFile (JStr file) (GenerateResponse.audioData r)]
                    /\ v = autogen_saved (JStr file) r)
                /\ (autoSave = true ->
                    write_fails P (JStr file) (GenerateResponse.audioData r) ->
                    v = autogen_degraded r)))
  /\ (forall r,
        preview r
        = substring0 100 (base64_encode (GenerateResponse.audioData r)) ^^ "..."
        /\ includes (preview r) (langchain_inline r) = true
        /\ prop_of (autogen_degraded r) "audioBase64Preview" = JStr (preview r)
        /\ prop_of (autogen_degraded r) "audioBase64" = JUndefined
        /\ (forall file,
              prop_of (autogen_saved (JStr file) r) "outputFile" = JStr file
              /\ prop_of (autogen_saved (JStr file) r) "audioBase64" = JUndefined
              /\ includes file (langchain_saved file r) = true)).
Proof.
  split; [intros; apply default_resolution|].
  split.
  2:{ intros r. split; [reflexivity|].
      split; [unfold langchain_inline; rewrite <- !append_assoc_r; apply includes_suffix|].
      split; [reflexivity|]. split; [reflexivity|].
      intros file. split; [reflexivity|]. split; [reflexivity|].
      unfold langchain_saved.
      change (check_mark ^^ " Speech generated and saved to " ^^ file ^^ "! "
              ^^ "Duration: " ^^ show_num (GenerateResponse.duration r) ^^ "s, "
              ^^ "Characters: " ^^ show_num (GenerateResponse.charactersProcessed r))
        with ((check_mark ^^ " Speech generated and saved to ") ^^ file
              ^^ ("! " ^^ "Duration: " ^^ show_num (GenerateResponse.duration r)
                  ^^ "s, " ^^ "Characters: "
                  ^^ show_num (GenerateResponse.charactersProcessed r))).
      apply includes_middle. }
  intros P c tr r G.
  assert (R : readable hello_args) by (split; discriminate).
  destruct (generic_success_members r) as (M1 & M2 & M3 & M4 & M5).
  split; [now apply generic_tts_shape|].
  split.
  { unfold LangVoiceToolkit.handleToolCall.
    change (str_eqb TOOL_NAMES.TTS TOOL_NAMES.TTS) with true. cbv iota.
    rewrite (get_prop_readable _ "text" R). unfold lift.
    fold (ret (prop_of hello_args "text")). rewrite bind_ret_l.
    now apply generic_tts_shape. }
  split; [intros key C; now apply (openai_tts_shape _ _ _ c)|].
  do 5 (split; [assumption|]).
  split.
  - intros file.
    pose proof (langchain_tts_shape P (LangVoiceTTSTool.mk c file) hello_args tr r R G) as S.
    cbn [LangVoiceTTSTool.outputFile] in S. rewrite S.
    destruct (str_eqb file "") eqn:E; cbn [negb].
    + exists [], (langchain_inline r). rewrite app_nil_r.
      split; [reflexivity|].
      split; [unfold langchain_inline, check_mark; simpl; discriminate|].
      split; [intros ev []|].
      split; [|reflexivity].
      intros N. apply String.eqb_eq in E. contradiction.
    + destruct (persist_summary P (JStr file) (GenerateResponse.audioData r)
                  (langchain_saved file r) (langchain_inline r))
        as (tr' & x & Q & X & T & W).
      destruct (persist_cases P (JStr file) (GenerateResponse.audioData r)
                  (langchain_saved file r) (langchain_inline r))
        as (tr2 & x2 & Q2 & _ & _ & F).
      rewrite Q in Q2. injection Q2 as <- <-.
      exists tr', x. rewrite Q.
      split; [reflexivity|].
      split; [destruct X as [-> | ->];
              unfold langchain_saved, langchain_inline, check_mark;
              simpl; discriminate|].
      split; [exact T|].
      split; [intros _ Y; now apply W|].
      intros [N | Y]; [subst file; discriminate E | now apply F].
  - intros file autoSave.
    unfold LangVoiceAutoGenTools.handleFunctionCall.
    cbn [AutoGenFunctionCall.arguments AutoGenFunctionCall.name
         LangVoiceAutoGenTools.read_arguments hello_args].
    fold hello_args. unfold lift. fold (ret hello_args). rewrite bind_ret_l.
    rewrite functionMap_TTS.
    pose proof (autogen_tts_shape P (LangVoiceAutoGenTools.mk c file autoSave)
                  hello_args tr r R G) as S.
    cbn [LangVoiceAutoGenTools.autoSave] in S. rewrite S.
    change (autogen_path (LangVoiceAutoGenTools.mk c file autoSave) hello_args)
      with (JStr file).
    destruct autoSave.
    + destruct (persist_summary P (JStr file) (GenerateResponse.audioData r)
                  (JSON_stringify (autogen_saved (JStr file) r))
                  (JSON_stringify (autogen_degraded r)))
        as (tr' & x & Q & X & T & W).
      destruct (writes_or_fails P (JStr file) (GenerateResponse.audioData r)) as [Y|N].
      * destruct (W Y) as [-> ->].
        rewrite Q. unfold bind, ret. rewrite app_nil_r.
        exists [EvWriteFile (JStr file) (GenerateResponse.audioData r)],
               (autogen_saved (JStr file) r).
        split; [reflexivity|]. split; [reflexivity|]. split; [reflexivity|].
        split; [exact T|]. split; [discriminate|].
        split; [intros _ _; split; reflexivity|].
        intros _ [N | [w [e [N Z]]]]; destruct Y as [w' [u [N' Z']]]; congruence.
      * destruct (persist_cases P (JStr file) (GenerateResponse.audioData r)
                    (JSON_stringify (autogen_saved (JStr file) r))
                    (JSON_stringify (autogen_degraded r)))
          as (tr2 & x2 & Q2 & _ & _ & F).
        rewrite Q in Q2. injection Q2 as <- <-.
        rewrite (F N) in Q. rewrite Q. unfold bind, ret. rewrite app_nil_r.
        exists tr', (autogen_degraded r).
        split; [reflexivity|]. split; [reflexivity|]. split; [reflexivity|].
        split; [exact T|]. split; [discriminate|].
        split; [|intros _ _; reflexivity].
        intros _ [w' [u [N' Z']]].
        destruct N as [N | [w [e [N Z]]]]; congruence.
    + exists [], (autogen_inline r). unfold bind, ret. rewrite !app_nil_r.
      split; [reflexivity|]. split; [reflexivity|]. split; [reflexivity|].
      split; [intros ev []|].
      split; [intros _; repeat split; reflexivity|].
      split; discriminate.
Qed.

(** The exchange of the sample platform seen through the generic
    toolkit. *)
Lemma adapters_agree_with_client_witness :
  LangVoiceToolkit.textToSpeech (sample_platform sample_success true)
    (LangVoiceToolkit.mk sample_client) hello_input
  = ([EvFetch (LangVoiceClient.binary_request sample_client "POST" "/tts/generate"
                 (JObj [("text", JStr "Hello world"); ("voice", JStr "heart");
                        ("language", JStr "american_english"); ("speed", one)]))
        60000],
     Return (generic_success sample_generated)).
Proof.
  refine (proj1 (proj1 (proj2 adapters_agree_with_client)
                   (sample_platform sample_success true) sample_client _
                   sample_generated _)).
  vm_compute. reflexivity.
Defined.

(** C6 as stated fails: what an adapter returns does not always yield the
    audio of the direct call.  Over a file system that refuses the write,
    and for an audio of 80 bytes, the LangChain tool answers with the first
    100 characters of the 108 of the base64 text: the reply does not hold
    the audio, and no file does. *)
Lemma adapters_audio_counterexample :
  ~ (forall P c file tr r,
       LangVoiceClient.generate P c hello_defaults = (tr, Return r) ->
       exists tr' reply,
         LangVoiceTTSTool.call P (LangVoiceTTSTool.mk c file) hello_args
         = (tr ++ tr', Return reply)
         /\ (includes (GenerateResponse.toBase64 r) reply = true
             \/ writes P (JStr file) (GenerateResponse.audioData r))).
Proof.
  intros C.
  destruct (C (sample_platform long_success false) sample_client "output.mp3"
              [EvFetch (LangVoiceClient.binary_request sample_client "POST"
                          "/tts/generate"
                          (JObj [("text", JStr "Hello world"); ("voice", JStr "heart");
                                 ("language", JStr "american_english");
                                 ("speed", one)]))
                 60000]
              long_generated)
    as (tr' & reply & E & [I | (w & u & Ew & Wr)]).
  - vm_compute. reflexivity.
  - vm_compute in E. injection E as _ <-. vm_compute in I. discriminate I.
  - vm_compute in Ew. injection Ew as <-. discriminate Wr.
Qed.

(** ** Speed zero *)










(* ================================================================== *)
(** * Further properties *)
(* ================================================================== *)

(** ** Building a client *)

Lemma str_or_given (o : option string) (d k : string) :
  o = Some k -> k <> "" -> str_or o d = k.
Proof.
  intros -> Hk. unfold str_or, str_eqb.
  destruct (String.eqb_spec k ""); [contradiction | reflexivity].
Qed.

Lemma str_or_missing (o : option string) (d : string) :
  missing o -> str_or o d = d.
Proof. intros [-> | ->]; reflexivity. Qed.

Lemma str_or_nonempty (o : option string) (d : string) :
  d <> "" -> str_or o d <> "".
Proof.
  intros Hd. unfold str_or, str_eqb. destruct o as [s|]; [|assumption].
  destruct (String.eqb_spec s ""); assumption.
Qed.

(** X1.  The key of a client is the [apiKey] option when that is a string
    that is not empty, whatever the environment holds; otherwise it is the
    environment variable [LANGVOICE_API_KEY]; when neither is there the
    constructor throws an [AuthenticationError] with status code 401.  A
    client that was built has a key and a base URL that are not empty and
    a timeout that is neither 0 nor NaN: an empty [baseUrl] gives the
    default URL, and a [timeout] of 0 or NaN gives 60000. *)
Theorem client_construction P options :
  let given := LangVoiceClientOptions.apiKey options in
  let env := env_LANGVOICE_API_KEY P in
  (forall k, given = Some k -> k <> "" ->
     exists c, LangVoiceClient.new P options = Return c
               /\ LangVoiceClient.getApiKey c = k)
  /\ (forall k, missing given -> env = Some k -> k <> "" ->
        exists c, LangVoiceClient.new P options = Return c
                  /\ LangVoiceClient.getApiKey c = k)
  /\ (missing given -> missing env ->
        exists e, LangVoiceClient.new P options = Throw (ThrowErr e)
                  /\ isAuthenticationError (ThrowErr e) = true
                  /\ statusCode e = Some 401)
  /\ (forall c, LangVoiceClient.new P options = Return c ->
        LangVoiceClient.getApiKey c <> ""
        /\ LangVoiceClient.baseUrl c <> ""
        /\ num_truthy (LangVoiceClient.timeout c) = true
        /\ (forall u, LangVoiceClientOptions.baseUrl options = Some u -> u <> "" ->
              LangVoiceClient.baseUrl c = u)
        /\ (missing (LangVoiceClientOptions.baseUrl options) ->
              LangVoiceClient.baseUrl c = "https://www.langvoice.pro/api")
        /\ (forall t, LangVoiceClientOptions.timeout options = Some t ->
              LangVoiceClient.timeout c
              = if num_truthy t then t else Fin 60000 0)).
Proof.
  intros given env.
  assert (Hnew : forall key,
            str_or given (LangVoiceClient.getEnvApiKey P) = key -> key <> "" ->
            LangVoiceClient.new P options
            = Return (LangVoiceClient.mk key
                        (str_or (LangVoiceClientOptions.baseUrl options)
                                "https://www.langvoice.pro/api")
                        (num_or (LangVoiceClientOptions.timeout options) (Fin 60000 0)))).
  { intros key Hk Hne. unfold LangVoiceClient.new. fold given. rewrite Hk.
    unfold str_eqb. destruct (String.eqb_spec key ""); [contradiction | reflexivity]. }
  repeat split.
  - intros k Hg Hk. eexists. split; [apply (Hnew k); [now apply str_or_given | assumption] |].
    reflexivity.
  - intros k Hg He Hk. eexists. split.
    + apply (Hnew k); [|assumption]. rewrite (str_or_missing _ _ Hg).
      unfold LangVoiceClient.getEnvApiKey. now apply str_or_given.
    + reflexivity.
  - intros Hg He. eexists. split.
    + unfold LangVoiceClient.new. fold given. rewrite (str_or_missing _ _ Hg).
      unfold LangVoiceClient.getEnvApiKey. fold env. rewrite (str_or_missing _ _ He).
      reflexivity.
    + split; reflexivity.
  - revert H. unfold LangVoiceClient.new, str_eqb.
    destruct (String.eqb_spec (str_or (LangVoiceClientOptions.apiKey options)
                                 (LangVoiceClient.getEnvApiKey P)) ""); [discriminate|].
    intros [= <-]. assumption.
  - revert H. unfold LangVoiceClient.new.
    destruct (str_eqb _ ""); [discriminate|]. intros [= <-]. simpl.
    apply str_or_nonempty. discriminate.
  - revert H. unfold LangVoiceClient.new.
    destruct (str_eqb _ ""); [discriminate|]. intros [= <-]. simpl.
    unfold num_or. destruct (LangVoiceClientOptions.timeout options) as [t|]; [|reflexivity].
    destruct (num_truthy t) eqn:E; [assumption | reflexivity].
  - intros u Hu Hne. revert H. unfold LangVoiceClient.new.
    destruct (str_eqb _ ""); [discriminate|]. intros [= <-]. simpl.
    now apply str_or_given.
  - intros Hm. revert H. unfold LangVoiceClient.new.
    destruct (str_eqb _ ""); [discriminate|]. intros [= <-]. simpl.
    now apply str_or_missing.
  - intros t Ht. revert H. unfold LangVoiceClient.new.
    destruct (str_eqb _ ""); [discriminate|]. intros [= <-]. simpl.
    rewrite Ht. reflexivity.
Qed.

(** With no key in the environment and none in the options, there is no
    client. *)
Lemma client_construction_witness :
  exists e,
    LangVoiceClient.new (sample_platform sample_success true)
      LangVoiceClientOptions.empty = Throw (ThrowErr e)
    /\ isAuthenticationError (ThrowErr e) = true
    /\ statusCode e = Some 401.
Proof.
  exact (proj1 (proj2 (proj2 (client_construction (sample_platform sample_success true)
                                LangVoiceClientOptions.empty)))
           (or_introl eq_refl) (or_introl eq_refl)).
Defined.

(** ** The guards of exceptions.ts *)

Lemma taxonomy_guards (code : Z) (m : string) :
  exists e,
    taxonomy code m = ThrowErr e
    /\ isLangVoiceError (ThrowErr e) = true
    /\ statusCode e = Some code
    /\ err_message e = m
    /\ (isAuthenticationError (ThrowErr e) = true <-> code = 401)
    /\ (isRateLimitError (ThrowErr e) = true <-> code = 429).
Proof.
  unfold taxonomy.
  destruct (Z.eqb_spec code 401) as [-> | H1].
  { eexists; repeat split; try reflexivity; intros; discriminate. }
  destruct (Z.eqb_spec code 429) as [-> | H2].
  { eexists; repeat split; try reflexivity; intros; discriminate. }
  destruct (Z.eqb_spec code 400) as [-> | H3].
  { eexists; repeat split; try reflexivity; intros; discriminate. }
  eexists; repeat split; try reflexivity; simpl; intros; try discriminate; contradiction.
Qed.

Lemma error_text_taxonomy (code : Z) (m : string) : error_text (taxonomy code m) = m.
Proof.
  unfold taxonomy. destruct (code =? 401); [reflexivity|].
  destruct (code =? 429); [reflexivity|]. now destruct (code =? 400).
Qed.

(** X2.  The error raised for a response that is not 2xx, by
    [handleResponseErrors] and so by [request] and [requestBinary], depends
    on whether the message the body gives has a string form.  When it has
    one, as it always does unless it is an object or an array, the error
    carries that string, satisfies [isLangVoiceError], and its [statusCode]
    is the status of the response; it satisfies [isAuthenticationError]
    exactly when the status is 401 and [isRateLimitError] exactly when it
    is 429.  When it has none, the [TypeError] of the conversion is raised
    in its place, which none of the guards takes. *)
Theorem response_errors_by_guard (r : Response) :
  ok r = false ->
  (forall m,
     js_ToString (error_message r) = Return m ->
     exists e,
       LangVoiceClient.handleResponseErrors r = throw (ThrowErr e)
       /\ isLangVoiceError (ThrowErr e) = true
       /\ statusCode e = Some (status r)
       /\ err_message e = m
       /\ (isAuthenticationError (ThrowErr e) = true <-> status r = 401)
       /\ (isRateLimitError (ThrowErr e) = true <-> status r = 429)
       /\ (forall P c method endpoint body,
             answered P c (LangVoiceClient.json_request c method endpoint body) r ->
             outcome (LangVoiceClient.request P c method endpoint body)
             = Throw (ThrowErr e))
       /\ (forall P c method endpoint body,
             answered P c (LangVoiceClient.binary_request c method endpoint body) r ->
             outcome (LangVoiceClient.requestBinary P c method endpoint body)
             = Throw (ThrowErr e)))
  /\ (forall t,
        js_ToString (error_message r) = Throw t ->
        LangVoiceClient.handleResponseErrors r = throw no_primitive
        /\ isLangVoiceError no_primitive = false
        /\ isAuthenticationError no_primitive = false
        /\ isRateLimitError no_primitive = false
        /\ (forall P c method endpoint body,
              answered P c (LangVoiceClient.json_request c method endpoint body) r ->
              outcome (LangVoiceClient.request P c method endpoint body)
              = Throw no_primitive)
        /\ (forall P c method endpoint body,
              answered P c (LangVoiceClient.binary_request c method endpoint body) r ->
              outcome (LangVoiceClient.requestBinary P c method endpoint body)
              = Throw no_primitive))
  /\ ((forall members, error_message r <> JObj members) ->
      (forall items, error_message r <> JArr items) ->
      exists m, js_ToString (error_message r) = Return m).
Proof.
  intros Hok. destruct (response_error_cases r) as [Hm Ht].
  split; [|split].
  - intros m Em.
    destruct (taxonomy_guards (status r) m) as (e & He & Hl & Hs & Hmsg & Ha & Hr).
    exists e. rewrite <- He, <- (Hm m Em).
    split; [now apply handleResponseErrors_throws|].
    rewrite (Hm m Em), He.
    do 5 (split; [assumption|]).
    rewrite <- He, <- (Hm m Em).
    split; intros; [now apply request_rejected | now apply requestBinary_rejected].
  - intros t Et. rewrite <- (Ht t Et).
    split; [now apply handleResponseErrors_throws|].
    rewrite (Ht t Et). do 3 (split; [reflexivity|]).
    rewrite <- (Ht t Et).
    split; intros; [now apply request_rejected | now apply requestBinary_rejected].
  - intros Ho Ha. destruct (error_message r) as [| | [|] | n | s | items | members];
      try (eexists; reflexivity).
    + now destruct (Ha items).
    + now destruct (Ho members).
Qed.

(** A 404: an error of the SDK carrying 404 that neither of the two
    narrower guards takes. *)
Lemma response_errors_by_guard_witness :
  exists e,
    LangVoiceClient.handleResponseErrors not_found_response = throw (ThrowErr e)
    /\ isLangVoiceError (ThrowErr e) = true
    /\ statusCode e = Some 404
    /\ err_message e = "Voice not found"
    /\ isAuthenticationError (ThrowErr e) = false
    /\ isRateLimitError (ThrowErr e) = false.
Proof.
  destruct (proj1 (response_errors_by_guard not_found_response eq_refl)
              "Voice not found" eq_refl)
    as (e & H & Hl & Hs & Hm & Ha & Hr & _).
  exists e. repeat split; try assumption.
  - destruct (isAuthenticationError (ThrowErr e)) eqn:E; [|reflexivity].
    discriminate (proj1 Ha eq_refl).
  - destruct (isRateLimitError (ThrowErr e)) eqn:E; [|reflexivity].
    discriminate (proj1 Hr eq_refl).
Defined.

(** ** What the generating methods send *)

Lemma validation_failure_plain (e : thrown) :
  validation_failure e -> isLangVoiceError e = false.
Proof. intros (m & _ & ->). reflexivity. Qed.

Lemma js_ToNumber_throws (v : jsval) (e : thrown) :
  js_ToNumber v = Throw e -> e = no_primitive.
Proof.
  destruct v as [| | [|] | n | s | items | members]; cbn [js_ToNumber];
    try discriminate.
  - destruct (js_ToString (JArr items)) eqn:E; [discriminate|].
    intros [= <-]. now apply js_ToString_throws in E.
  - destruct (js_ToString (JObj members)) eqn:E; [discriminate|].
    intros [= <-]. now apply js_ToString_throws in E.
Qed.

Lemma comparison_throws (v : jsval) (n : jsnum) (e : thrown) :
  (js_lt_num v n = Throw e -> e = no_primitive)
  /\ (js_gt_num v n = Throw e -> e = no_primitive).
Proof.
  unfold js_lt_num, js_gt_num.
  split; (destruct (js_ToNumber v) eqn:E; [discriminate|]);
    intros [= <-]; now apply js_ToNumber_throws in E.
Qed.

Lemma or_else_throws (v : jsval) (n1 n2 : jsnum) (e : thrown) :
  js_or_else (js_lt_num v n1) (js_gt_num v n2) = Throw e -> e = no_primitive.
Proof.
  unfold js_or_else. destruct (js_lt_num v n1) as [[|]|e1] eqn:E1.
  - discriminate.
  - apply (proj2 (comparison_throws v n2 e)).
  - intros [= <-]. now apply (proj1 (comparison_throws v n1 e1)).
Qed.

(** What a request constructor throws is one of the three validation
    failures, or the [TypeError] of a length or a speed that has no
    primitive value to compare. *)
Lemma GenerateRequest_new_throws (data : GenerateRequest.t) (e : thrown) :
  GenerateRequest.new data = Throw e -> validation_failure e \/ e = no_primitive.
Proof.
  unfold GenerateRequest.new, validation_failure, validation_messages.
  destruct (_ || _).
  { intros [= <-]. left. eexists; split; [|reflexivity]. simpl; auto. }
  destruct (js_gt_num _ _) as [[|]|e1] eqn:E1.
  { intros [= <-]. left. eexists; split; [|reflexivity]. simpl; auto. }
  - destruct (js_or_else _ _) as [[|]|e2] eqn:E2.
    + intros [= <-]. left. eexists; split; [|reflexivity]. simpl; auto.
    + discriminate.
    + intros [= <-]. right. now apply or_else_throws in E2.
  - intros [= <-]. right. now apply comparison_throws in E1.
Qed.

Lemma MultiVoiceRequest_new_throws (data : MultiVoiceRequest.t) (e : thrown) :
  MultiVoiceRequest.new data = Throw e -> validation_failure e \/ e = no_primitive.
Proof.
  unfold MultiVoiceRequest.new, validation_failure, validation_messages.
  destruct (_ || _).
  { intros [= <-]. left. eexists; split; [|reflexivity]. simpl; auto. }
  destruct (js_gt_num _ _) as [[|]|e1] eqn:E1.
  { intros [= <-]. left. eexists; split; [|reflexivity]. simpl; auto. }
  - destruct (js_or_else _ _) as [[|]|e2] eqn:E2.
    + intros [= <-]. left. eexists; split; [|reflexivity]. simpl; auto.
    + discriminate.
    + intros [= <-]. right. now apply or_else_throws in E2.
  - intros [= <-]. right. now apply comparison_throws in E1.
Qed.

Lemma generate_trace P c options :
  trace (LangVoiceClient.generate P c options)
  = match GenerateRequest.new (request_data options) with
    | Return req =>
        [EvFetch (post_of c "/tts/generate" (GenerateRequest.toJSON req))
           (timer_delay (LangVoiceClient.timeout c))]
    | Throw _ => []
    end.
Proof.
  unfold LangVoiceClient.generate. fold (request_data options).
  destruct (GenerateRequest.new (request_data options)) as [req|e]; [|reflexivity].
  unfold lift. fold (@ret GenerateRequest.t req). rewrite bind_ret_l.
  rewrite trace_bind, requestBinary_trace.
  destruct (outcome _); reflexivity.
Qed.

Lemma generateMultiVoice_trace P c options :
  trace (LangVoiceClient.generateMultiVoice P c options)
  = match MultiVoiceRequest.new (multi_request_data options) with
    | Return req =>
        [EvFetch (post_of c "/tts/multi-voice-text" (MultiVoiceRequest.toJSON req))
           (timer_delay (LangVoiceClient.timeout c))]
    | Throw _ => []
    end.
Proof.
  unfold LangVoiceClient.generateMultiVoice. fold (multi_request_data options).
  destruct (MultiVoiceRequest.new (multi_request_data options)) as [req|e]; [|reflexivity].
  unfold lift. fold (@ret MultiVoiceRequest.t req). rewrite bind_ret_l.
  rewrite trace_bind, requestBinary_trace.
  destruct (outcome _); reflexivity.
Qed.

(** X3.  [generate] and [generateMultiVoice] validate before they send.
    Either the request cannot be built: the method rejects and nothing has
    been sent.  What it rejects with is one of the three validation
    failures, a plain [Error], or, for a text length or a speed that is an
    object without a primitive value to compare, the [TypeError] of the
    comparison (never so for a text that is a string with a speed that is
    a number or absent); [isLangVoiceError] takes neither.  Or the request
    can be built: exactly one request is sent, a POST to [/tts/generate]
    (to [/tts/multi-voice-text]) under the base URL, with the headers
    [X-API-Key] and [Content-Type] and the wire form of the request as its
    body. *)
Theorem generation_validates_before_sending P c :
  (forall options,
     (exists e, LangVoiceClient.generate P c options = ([], Throw e)
                /\ (validation_failure e \/ e = no_primitive)
                /\ isLangVoiceError e = false)
     \/ (exists req, GenerateRequest.new (request_data options) = Return req
                     /\ trace (LangVoiceClient.generate P c options)
                        = [EvFetch (post_of c "/tts/generate" (GenerateRequest.toJSON req))
                             (timer_delay (LangVoiceClient.timeout c))]))
  /\ (forall options,
        (exists e, LangVoiceClient.generateMultiVoice P c options = ([], Throw e)
                   /\ (validation_failure e \/ e = no_primitive)
                   /\ isLangVoiceError e = false)
        \/ (exists req, MultiVoiceRequest.new (multi_request_data options) = Return req
                        /\ trace (LangVoiceClient.generateMultiVoice P c options)
                           = [EvFetch (post_of c "/tts/multi-voice-text"
                                         (MultiVoiceRequest.toJSON req))
                                (timer_delay (LangVoiceClient.timeout c))]))
  /\ (forall (t : string) v l s e,
        outcome (LangVoiceClient.generate P c
                   (GenerateOptions.mk (JStr t) v l (opt_num s))) = Throw e ->
        trace (LangVoiceClient.generate P c
                 (GenerateOptions.mk (JStr t) v l (opt_num s))) = [] ->
        validation_failure e)
  /\ (forall (t : string) l s e,
        outcome (LangVoiceClient.generateMultiVoice P c
                   (MultiVoiceOptions.mk (JStr t) l (opt_num s))) = Throw e ->
        trace (LangVoiceClient.generateMultiVoice P c
                 (MultiVoiceOptions.mk (JStr t) l (opt_num s))) = [] ->
        validation_failure e).
Proof.
  assert (Hplain : forall e, validation_failure e \/ e = no_primitive ->
                             isLangVoiceError e = false).
  { intros e [H | ->]; [now apply validation_failure_plain | reflexivity]. }
  split; [|split; [|split]].
  - intros options. pose proof (generate_trace P c options) as Ht.
    destruct (GenerateRequest.new (request_data options)) as [req|e] eqn:E.
    + right. exists req. split; [reflexivity | assumption].
    + left. exists e. pose proof (GenerateRequest_new_throws _ _ E) as Hv.
      split; [|split; [assumption | now apply Hplain]].
      unfold LangVoiceClient.generate. fold (request_data options). now rewrite E.
  - intros options. pose proof (generateMultiVoice_trace P c options) as Ht.
    destruct (MultiVoiceRequest.new (multi_request_data options)) as [req|e] eqn:E.
    + right. exists req. split; [reflexivity | assumption].
    + left. exists e. pose proof (MultiVoiceRequest_new_throws _ _ E) as Hv.
      split; [|split; [assumption | now apply Hplain]].
      unfold LangVoiceClient.generateMultiVoice. fold (multi_request_data options).
      now rewrite E.
  - intros t v l s e Ho Ht. rewrite generate_trace in Ht.
    unfold LangVoiceClient.generate in Ho. fold (request_data (GenerateOptions.mk (JStr t) v l (opt_num s))) in Ho.
    destruct (GenerateRequest.new _) as [req|e'] eqn:E; [discriminate Ht|].
    cbn in Ho. injection Ho as <-.
    destruct (GenerateRequest_new_typed t v l s) as [Y N]. cbv zeta in Y, N.
    unfold request_data in E. cbn [GenerateOptions.text GenerateOptions.voice
      GenerateOptions.language GenerateOptions.speed] in E.
    match type of N with ~ ?C -> _ => assert (D : C \/ ~ C) end.
    { destruct (Z_le_dec 1 (Z.of_nat (String.length t)));
      destruct (Z_le_dec (Z.of_nat (String.length t)) 5000);
      destruct (num_ltb (effective_speed s) n0_5 || num_gtb (effective_speed s) n2_0);
      (left; now auto) || (right; intros [[? ?] ?]; (lia || discriminate)). }
    destruct D as [D|D]; [rewrite (Y D) in E; discriminate|].
    destruct (N D) as [e0 [E0 V]]. congruence.
  - intros t l s e Ho Ht. rewrite generateMultiVoice_trace in Ht.
    unfold LangVoiceClient.generateMultiVoice in Ho.
    fold (multi_request_data (MultiVoiceOptions.mk (JStr t) l (opt_num s))) in Ho.
    destruct (MultiVoiceRequest.new _) as [req|e'] eqn:E; [discriminate Ht|].
    cbn in Ho. injection Ho as <-.
    destruct (MultiVoiceRequest_new_typed t l s) as [Y N]. cbv zeta in Y, N.
    unfold multi_request_data in E. cbn [MultiVoiceOptions.text
      MultiVoiceOptions.language MultiVoiceOptions.speed] in E.
    match type of N with ~ ?C -> _ => assert (D : C \/ ~ C) end.
    { destruct (Z_le_dec 1 (Z.of_nat (String.length t)));
      destruct (Z_le_dec (Z.of_nat (String.length t)) 5000);
      destruct (num_ltb (effective_speed s) n0_5 || num_gtb (effective_speed s) n2_0);
      (left; now auto) || (right; intros [[? ?] ?]; (lia || discriminate)). }
    destruct D as [D|D]; [rewrite (Y D) in E; discriminate|].
    destruct (N D) as [e0 [E0 V]]. congruence.
Qed.

(** The object [{ toString: 1 }] given as the speed: the comparison
    throws, and nothing is sent. *)
Lemma generation_validates_before_sending_witness :
  LangVoiceClient.generate (sample_platform sample_success true) sample_client
    (GenerateOptions.mk (JStr "Hello") JUndefined JUndefined
       (JObj [("toString", JNum (Fin 1 0))]))
  = ([], Throw no_primitive).
Proof.
  destruct (proj1 (generation_validates_before_sending
                     (sample_platform sample_success true) sample_client)
              (GenerateOptions.mk (JStr "Hello") JUndefined JUndefined
                 (JObj [("toString", JNum (Fin 1 0))])))
    as [(e & E & _) | (req & E & _)].
  - rewrite E. vm_compute in E. injection E as <-. reflexivity.
  - vm_compute in E. discriminate E.
Defined.

(** ** Listing voices and languages *)

Lemma Voice_new_readable (item : jsval) :
  readable item -> Voice.new item = Return (voice_of item).
Proof.
  intros H. unfold Voice.new. rewrite (get_prop_readable _ _ H). reflexivity.
Qed.

Lemma Language_new_readable (item : jsval) :
  readable item -> Language.new item = Return (language_of item).
Proof.
  intros H. unfold Language.new. rewrite (get_prop_readable _ _ H). reflexivity.
Qed.

Lemma Voice_new_nullish (item : jsval) :
  nullish item -> Voice.new item = Throw (cannot_read item "id").
Proof. intros [-> | ->]; reflexivity. Qed.

Lemma Language_new_nullish (item : jsval) :
  nullish item -> Language.new item = Throw (cannot_read item "id").
Proof. intros [-> | ->]; reflexivity. Qed.

Lemma map_result_all {A B} (f : A -> Result B) (g : A -> B) (l : list A) :
  Forall (fun x => f x = Return (g x)) l -> map_result f l = Return (map g l).
Proof.
  induction 1 as [|x l Hx _ IH]; [reflexivity|].
  simpl. now rewrite Hx, IH.
Qed.

Lemma map_result_first {A B} (f : A -> Result B) (g : A -> B) (l r : list A)
    (x : A) (e : thrown) :
  Forall (fun y => f y = Return (g y)) l -> f x = Throw e ->
  map_result f (l ++ x :: r) = Throw e.
Proof.
  induction 1 as [|y l Hy _ IH]; intros Hx; simpl.
  - now rewrite Hx.
  - now rewrite Hy, IH.
Qed.

Lemma listVoices_answered P c resp data :
  answered P c (get_of c "/tts/voices") resp ->
  ok resp = true -> json resp = Return data ->
  LangVoiceClient.listVoices P c
  = ([EvFetch (get_of c "/tts/voices") (timer_delay (LangVoiceClient.timeout c))],
     VoicesResponse.new data).
Proof.
  intros Ha Hok Hj. unfold LangVoiceClient.listVoices.
  rewrite (request_ok P c "GET" "/tts/voices" None resp data Ha Hok Hj).
  unfold bind, lift. simpl. reflexivity.
Qed.

Lemma listLanguages_answered P c resp data :
  answered P c (get_of c "/tts/languages") resp ->
  ok resp = true -> json resp = Return data ->
  LangVoiceClient.listLanguages P c
  = ([EvFetch (get_of c "/tts/languages") (timer_delay (LangVoiceClient.timeout c))],
     LanguagesResponse.new data).
Proof.
  intros Ha Hok Hj. unfold LangVoiceClient.listLanguages.
  rewrite (request_ok P c "GET" "/tts/languages" None resp data Ha Hok Hj).
  unfold bind, lift. simpl. reflexivity.
Qed.

(** X4.  [listVoices] sends one GET to [/tts/voices] without a body.  On a
    2xx answer whose JSON body is [data], it returns one [Voice] for each
    item of [data.voices], in order, holding the five members read from
    the item; it rejects with the [TypeError] of the failed read when an
    item is [null], when [data.voices] is missing or [null], and when
    [data] itself is [null]. *)
Theorem listVoices_reads_the_body P c resp data :
  answered P c (get_of c "/tts/voices") resp ->
  ok resp = true ->
  json resp = Return data ->
  trace (LangVoiceClient.listVoices P c)
  = [EvFetch (get_of c "/tts/voices") (timer_delay (LangVoiceClient.timeout c))]
  /\ (forall items,
        get_prop data "voices" = Return (JArr items) ->
        Forall readable items ->
        outcome (LangVoiceClient.listVoices P c) = Return (map voice_of items))
  /\ (forall items item rest,
        get_prop data "voices" = Return (JArr (items ++ item :: rest)) ->
        Forall readable items -> nullish item ->
        outcome (LangVoiceClient.listVoices P c) = Throw (cannot_read item "id"))
  /\ (forall v,
        get_prop data "voices" = Return v -> nullish v ->
        outcome (LangVoiceClient.listVoices P c) = Throw (cannot_read v "map"))
  /\ (nullish data ->
        outcome (LangVoiceClient.listVoices P c) = Throw (cannot_read data "voices")).
Proof.
  intros Ha Hok Hj. rewrite (listVoices_answered P c resp data Ha Hok Hj).
  split; [reflexivity|]. unfold outcome, snd, VoicesResponse.new.
  repeat split.
  - intros items -> Hall. simpl. apply map_result_all.
    eapply Forall_impl; [|exact Hall]. apply Voice_new_readable.
  - intros items item rest -> Hall Hn. simpl.
    apply map_result_first with (g := voice_of).
    + eapply Forall_impl; [|exact Hall]. apply Voice_new_readable.
    + now apply Voice_new_nullish.
  - intros v -> [-> | ->]; reflexivity.
  - intros [-> | ->]; reflexivity.
Qed.

(** Two voices listed by the server, the second without a gender. *)
Lemma listVoices_reads_the_body_witness :
  outcome (LangVoiceClient.listVoices listing_platform sample_client)
  = Return [Voice.mk (JStr "heart") (JStr "Heart") (JStr "female") JUndefined JUndefined;
            Voice.mk (JStr "michael") (JStr "Michael") JUndefined JUndefined JUndefined].
Proof.
  refine (proj1 (proj2 (listVoices_reads_the_body listing_platform sample_client
                          (sample_json_response 200 "OK" sample_listing) sample_listing
                          _ eq_refl eq_refl))
            sample_voice_items eq_refl _).
  - split; [reflexivity | vm_compute; discriminate].
  - repeat (constructor; [split; discriminate|]). constructor.
Defined.

(** X5.  [listLanguages] sends one GET to [/tts/languages] without a body.
    On a 2xx answer whose JSON body is [data], it returns one [Language]
    for each item of [data.languages], in order; it rejects with the
    [TypeError] of the failed read when an item is [null], when
    [data.languages] is missing or [null], and when [data] is [null]. *)
Theorem listLanguages_reads_the_body P c resp data :
  answered P c (get_of c "/tts/languages") resp ->
  ok resp = true ->
  json resp = Return data ->
  trace (LangVoiceClient.listLanguages P c)
  = [EvFetch (get_of c "/tts/languages") (timer_delay (LangVoiceClient.timeout c))]
  /\ (forall items,
        get_prop data "languages" = Return (JArr items) ->
        Forall readable items ->
        outcome (LangVoiceClient.listLanguages P c) = Return (map language_of items))
  /\ (forall items item rest,
        get_prop data "languages" = Return (JArr (items ++ item :: rest)) ->
        Forall readable items -> nullish item ->
        outcome (LangVoiceClient.listLanguages P c) = Throw (cannot_read item "id"))
  /\ (forall v,
        get_prop data "languages" = Return v -> nullish v ->
        outcome (LangVoiceClient.listLanguages P c) = Throw (cannot_read v "map"))
  /\ (nullish data ->
        outcome (LangVoiceClient.listLanguages P c)
        = Throw (cannot_read data "languages")).
Proof.
  intros Ha Hok Hj. rewrite (listLanguages_answered P c resp data Ha Hok Hj).
  split; [reflexivity|]. unfold outcome, snd, LanguagesResponse.new.
  repeat split.
  - intros items -> Hall. simpl. apply map_result_all.
    eapply Forall_impl; [|exact Hall]. apply Language_new_readable.
  - intros items item rest -> Hall Hn. simpl.
    apply map_result_first with (g := language_of).
    + eapply Forall_impl; [|exact Hall]. apply Language_new_readable.
    + now apply Language_new_nullish.
  - intros v -> [-> | ->]; reflexivity.
  - intros [-> | ->]; reflexivity.
Qed.

Lemma listLanguages_reads_the_body_witness :
  outcome (LangVoiceClient.listLanguages listing_platform sample_client)
  = Return [Language.mk (JStr "american_english") (JStr "American English") JUndefined].
Proof.
  refine (proj1 (proj2 (listLanguages_reads_the_body listing_platform sample_client
                          (sample_json_response 200 "OK" sample_listing) sample_listing
                          _ eq_refl eq_refl))
            sample_language_items eq_refl _).
  - split; [reflexivity | vm_compute; discriminate].
  - repeat (constructor; [split; discriminate|]). constructor.
Defined.

(** ** The listing adapters *)

Lemma label_throws_voice (v : Voice.t) (e : thrown) :
  LangVoiceVoicesTool.label v = Throw e -> e = no_primitive.
Proof.
  unfold LangVoiceVoicesTool.label.
  destruct (js_ToString (Voice.id v)) eqn:Ei.
  - destruct (js_ToString (Voice.name v)) eqn:En; [discriminate|].
    intros [= <-]. now apply js_ToString_throws in En.
  - intros [= <-]. now apply js_ToString_throws in Ei.
Qed.

Lemma label_throws_language (l : Language.t) (e : thrown) :
  LangVoiceLanguagesTool.label l = Throw e -> e = no_primitive.
Proof.
  unfold LangVoiceLanguagesTool.label.
  destruct (js_ToString (Language.id l)) eqn:Ei.
  - destruct (js_ToString (Language.name l)) eqn:En; [discriminate|].
    intros [= <-]. now apply js_ToString_throws in En.
  - intros [= <-]. now apply js_ToString_throws in Ei.
Qed.

Lemma label_throws_voices (l : list Voice.t) (e : thrown) :
  map_result LangVoiceVoicesTool.label l = Throw e -> e = no_primitive.
Proof.
  revert e. induction l as [|x r IH]; intros e; [discriminate|].
  cbn [map_result]. destruct (LangVoiceVoicesTool.label x) eqn:Ex.
  - destruct (map_result LangVoiceVoicesTool.label r) eqn:Er; [discriminate|].
    intros [= <-]. now apply IH.
  - intros [= <-]. now apply label_throws_voice in Ex.
Qed.

Lemma label_throws_languages (l : list Language.t) (e : thrown) :
  map_result LangVoiceLanguagesTool.label l = Throw e -> e = no_primitive.
Proof.
  revert e. induction l as [|x r IH]; intros e; [discriminate|].
  cbn [map_result]. destruct (LangVoiceLanguagesTool.label x) eqn:Ex.
  - destruct (map_result LangVoiceLanguagesTool.label r) eqn:Er; [discriminate|].
    intros [= <-]. now apply IH.
  - intros [= <-]. now apply label_throws_language in Ex.
Qed.

(** X6.  The four adapters list voices through [client.listVoices] and add
    no effect of their own.  When the client returns the voices, the
    generic toolkit (directly and by name, whatever the arguments) and the
    OpenAI handler return the success envelope holding the [id] and the
    [name] of each voice, in order, and nothing else of it; the AutoGen
    handler adds their number as [count]; the LangChain tool makes the
    label [id (name)] of each voice and returns the line
    [Available voices: id (name), ...], or, when an [id] or a [name] has no
    string form, its failure line with the message of that [TypeError].  A
    label exists whenever the [id] and the [name] are strings.  When the
    client rejects, each returns its failure carrying the message of the
    error. *)
Theorem voice_listing_adapters P c tr :
  (forall voices,
     LangVoiceClient.listVoices P c = (tr, Return voices) ->
     LangVoiceToolkit.listVoices P (LangVoiceToolkit.mk c)
     = (tr, Return (voices_envelope voices))
     /\ (forall args,
           LangVoiceToolkit.handleToolCall P (LangVoiceToolkit.mk c)
             TOOL_NAMES.LIST_VOICES args
           = (tr, Return (voices_envelope voices)))
     /\ (forall args key,
           LangVoiceClient.new P (LangVoiceClientOptions.with_key key) = Return c ->
           handleOpenAIToolCall P TOOL_NAMES.LIST_VOICES args key
           = (tr, Return (JSON_stringify (voices_envelope voices))))
     /\ (forall file save,
           LangVoiceAutoGenTools.listVoicesHandler P (LangVoiceAutoGenTools.mk c file save)
           = (tr, Return (JSON_stringify (voices_counted voices))))
     /\ (forall labels,
           map_result LangVoiceVoicesTool.label voices = Return labels ->
           LangVoiceVoicesTool.call P (LangVoiceVoicesTool.mk c)
           = (tr, Return (voices_line labels)))
     /\ (forall e,
           map_result LangVoiceVoicesTool.label voices = Throw e ->
           e = no_primitive
           /\ LangVoiceVoicesTool.call P (LangVoiceVoicesTool.mk c)
              = (tr, Return ("Error listing voices: " ^^ error_text e))))
  /\ (forall e,
        LangVoiceClient.listVoices P c = (tr, Throw e) ->
        LangVoiceToolkit.listVoices P (LangVoiceToolkit.mk c)
        = (tr, Return (failure (error_text e)))
        /\ (forall args key,
              LangVoiceClient.new P (LangVoiceClientOptions.with_key key) = Return c ->
              handleOpenAIToolCall P TOOL_NAMES.LIST_VOICES args key
              = (tr, Return (JSON_stringify (failure (error_text e)))))
        /\ (forall file save,
              LangVoiceAutoGenTools.listVoicesHandler P
                (LangVoiceAutoGenTools.mk c file save)
              = (tr, Return (JSON_stringify (failure (error_text e)))))
        /\ LangVoiceVoicesTool.call P (LangVoiceVoicesTool.mk c)
           = (tr, Return ("Error listing voices: " ^^ error_text e)))
  /\ (forall items,
        voice_infos (map voice_of items) = JArr (map id_and_name items))
  /\ (forall x i n,
        Voice.id x = JStr i -> Voice.name x = JStr n ->
        LangVoiceVoicesTool.label x = Return (i ^^ " (" ^^ n ^^ ")")).
Proof.
  split; [|split; [|split]].
  - intros voices H. repeat split.
    + unfold LangVoiceToolkit.listVoices. simpl. rewrite H. simpl.
      now rewrite app_nil_r.
    + intros args. change (LangVoiceToolkit.handleToolCall P (LangVoiceToolkit.mk c)
                             TOOL_NAMES.LIST_VOICES args)
        with (LangVoiceToolkit.listVoices P (LangVoiceToolkit.mk c)).
      unfold LangVoiceToolkit.listVoices. simpl. rewrite H. simpl.
      now rewrite app_nil_r.
    + intros args key Hc. unfold handleOpenAIToolCall. rewrite Hc.
      unfold lift. fold (@ret LangVoiceClient.t c). rewrite bind_ret_l.
      simpl. rewrite H. simpl. now rewrite !app_nil_r.
    + intros file save. unfold LangVoiceAutoGenTools.listVoicesHandler. simpl.
      rewrite H. simpl. now rewrite app_nil_r.
    + intros labels L. unfold LangVoiceVoicesTool.call.
      cbn [LangVoiceVoicesTool.client]. rewrite H. unfold bind at 1. rewrite L.
      unfold lift, bind, ret, try_catch. now rewrite !app_nil_r.
    + now apply (label_throws_voices voices e).
    + unfold LangVoiceVoicesTool.call.
      cbn [LangVoiceVoicesTool.client]. rewrite H. unfold bind at 1. rewrite H0.
      unfold lift, bind, ret, try_catch. now rewrite !app_nil_r.
  - intros e H. repeat split.
    + unfold LangVoiceToolkit.listVoices. simpl. rewrite H. simpl.
      now rewrite app_nil_r.
    + intros args key Hc. unfold handleOpenAIToolCall. rewrite Hc.
      unfold lift. fold (@ret LangVoiceClient.t c). rewrite bind_ret_l.
      simpl. rewrite H. simpl. now rewrite !app_nil_r.
    + intros file save. unfold LangVoiceAutoGenTools.listVoicesHandler. simpl.
      rewrite H. simpl. now rewrite app_nil_r.
    + unfold LangVoiceVoicesTool.call. simpl. rewrite H. simpl. now rewrite app_nil_r.
  - intros items. unfold voice_infos. now rewrite map_map.
  - intros x i n Hi Hn. unfold LangVoiceVoicesTool.label. now rewrite Hi, Hn.
Qed.

(** The line of the LangChain tool for the two voices of the sample. *)
Lemma voice_listing_adapters_witness :
  outcome (LangVoiceVoicesTool.call listing_platform (LangVoiceVoicesTool.mk sample_client))
  = Return "Available voices: heart (Heart), michael (Michael)".
Proof.
  refine (f_equal snd
            (proj1 (proj2 (proj2 (proj2 (proj2
               (proj1 (voice_listing_adapters listing_platform sample_client
                         [EvFetch (get_of sample_client "/tts/voices") 60000])
                  (map voice_of sample_voice_items) _)))))
               ["heart (Heart)"; "michael (Michael)"] _)).
  - vm_compute. reflexivity.
  - reflexivity.
Defined.

(** X7.  The four adapters list languages through [client.listLanguages] and add
    no effect of their own.  When the client returns the languages, the
    generic toolkit (directly and by name, whatever the arguments) and the
    OpenAI handler return the success envelope holding the [id] and the
    [name] of each language, in order, and nothing else of it; the AutoGen
    handler adds their number as [count]; the LangChain tool makes the
    label [id (name)] of each language and returns the line
    [Supported languages: id (name), ...], or, when an [id] or a [name] has no
    string form, its failure line with the message of that [TypeError].  A
    label exists whenever the [id] and the [name] are strings.  When the
    client rejects, each returns its failure carrying the message of the
    error. *)
Theorem language_listing_adapters P c tr :
  (forall languages,
     LangVoiceClient.listLanguages P c = (tr, Return languages) ->
     LangVoiceToolkit.listLanguages P (LangVoiceToolkit.mk c)
     = (tr, Return (languages_envelope languages))
     /\ (forall args,
           LangVoiceToolkit.handleToolCall P (LangVoiceToolkit.mk c)
             TOOL_NAMES.LIST_LANGUAGES args
           = (tr, Return (languages_envelope languages)))
     /\ (forall args key,
           LangVoiceClient.new P (LangVoiceClientOptions.with_key key) = Return c ->
           handleOpenAIToolCall P TOOL_NAMES.LIST_LANGUAGES args key
           = (tr, Return (JSON_stringify (languages_envelope languages))))
     /\ (forall file save,
           LangVoiceAutoGenTools.listLanguagesHandler P (LangVoiceAutoGenTools.mk c file save)
           = (tr, Return (JSON_stringify (languages_counted languages))))
     /\ (forall labels,
           map_result LangVoiceLanguagesTool.label languages = Return labels ->
           LangVoiceLanguagesTool.call P (LangVoiceLanguagesTool.mk c)
           = (tr, Return (languages_line labels)))
     /\ (forall e,
           map_result LangVoiceLanguagesTool.label languages = Throw e ->
           e = no_primitive
           /\ LangVoiceLanguagesTool.call P (LangVoiceLanguagesTool.mk c)
              = (tr, Return ("Error listing languages: " ^^ error_text e))))
  /\ (forall e,
        LangVoiceClient.listLanguages P c = (tr, Throw e) ->
        LangVoiceToolkit.listLanguages P (LangVoiceToolkit.mk c)
        = (tr, Return (failure (error_text e)))
        /\ (forall args key,
              LangVoiceClient.new P (LangVoiceClientOptions.with_key key) = Return c ->
              handleOpenAIToolCall P TOOL_NAMES.LIST_LANGUAGES args key
              = (tr, Return (JSON_stringify (failure (error_text e)))))
        /\ (forall file save,
              LangVoiceAutoGenTools.listLanguagesHandler P
                (LangVoiceAutoGenTools.mk c file save)
              = (tr, Return (JSON_stringify (failure (error_text e)))))
        /\ LangVoiceLanguagesTool.call P (LangVoiceLanguagesTool.mk c)
           = (tr, Return ("Error listing languages: " ^^ error_text e)))
  /\ (forall items,
        language_infos (map language_of items) = JArr (map id_and_name items))
  /\ (forall x i n,
        Language.id x = JStr i -> Language.name x = JStr n ->
        LangVoiceLanguagesTool.label x = Return (i ^^ " (" ^^ n ^^ ")")).
Proof.
  split; [|split; [|split]].
  - intros languages H. repeat split.
    + unfold LangVoiceToolkit.listLanguages. simpl. rewrite H. simpl.
      now rewrite app_nil_r.
    + intros args. change (LangVoiceToolkit.handleToolCall P (LangVoiceToolkit.mk c)
                             TOOL_NAMES.LIST_LANGUAGES args)
        with (LangVoiceToolkit.listLanguages P (LangVoiceToolkit.mk c)).
      unfold LangVoiceToolkit.listLanguages. simpl. rewrite H. simpl.
      now rewrite app_nil_r.
    + intros args key Hc. unfold handleOpenAIToolCall. rewrite Hc.
      unfold lift. fold (@ret LangVoiceClient.t c). rewrite bind_ret_l.
      simpl. rewrite H. simpl. now rewrite !app_nil_r.
    + intros file save. unfold LangVoiceAutoGenTools.listLanguagesHandler. simpl.
      rewrite H. simpl. now rewrite app_nil_r.
    + intros labels L. unfold LangVoiceLanguagesTool.call.
      cbn [LangVoiceLanguagesTool.client]. rewrite H. unfold bind at 1. rewrite L.
      unfold lift, bind, ret, try_catch. now rewrite !app_nil_r.
    + now apply (label_throws_languages languages e).
    + unfold LangVoiceLanguagesTool.call.
      cbn [LangVoiceLanguagesTool.client]. rewrite H. unfold bind at 1. rewrite H0.
      unfold lift, bind, ret, try_catch. now rewrite !app_nil_r.
  - intros e H. repeat split.
    + unfold LangVoiceToolkit.listLanguages. simpl. rewrite H. simpl.
      now rewrite app_nil_r.
    + intros args key Hc. unfold handleOpenAIToolCall. rewrite Hc.
      unfold lift. fold (@ret LangVoiceClient.t c). rewrite bind_ret_l.
      simpl. rewrite H. simpl. now rewrite !app_nil_r.
    + intros file save. unfold LangVoiceAutoGenTools.listLanguagesHandler. simpl.
      rewrite H. simpl. now rewrite app_nil_r.
    + unfold LangVoiceLanguagesTool.call. simpl. rewrite H. simpl. now rewrite app_nil_r.
  - intros items. unfold language_infos. now rewrite map_map.
  - intros x i n Hi Hn. unfold LangVoiceLanguagesTool.label. now rewrite Hi, Hn.
Qed.

(** The line of the LangChain tool for the language of the sample. *)
Lemma language_listing_adapters_witness :
  outcome (LangVoiceLanguagesTool.call listing_platform (LangVoiceLanguagesTool.mk sample_client))
  = Return "Supported languages: american_english (American English)".
Proof.
  refine (f_equal snd
            (proj1 (proj2 (proj2 (proj2 (proj2
               (proj1 (language_listing_adapters listing_platform sample_client
                         [EvFetch (get_of sample_client "/tts/languages") 60000])
                  (map language_of sample_language_items) _)))))
               ["american_english (American English)"] _)).
  - vm_compute. reflexivity.
  - reflexivity.
Defined.

(** ** The models and JSON *)

Lemma json_image_strings (l : list string) : json_image (strings l) = strings l.
Proof.
  unfold strings. simpl. f_equal. rewrite map_map. apply map_ext. reflexivity.
Qed.

(** X8.  A [Voice] and a [Language] are given back by their constructor
    from their [toJSON()]; and when their members have their declared
    types (strings, an array of strings, or [undefined]) also from the
    text [JSON.stringify] makes of them, in which the members that are
    [undefined] do not appear. *)
Theorem model_json_roundtrip :
  (forall v, Voice.new (Voice.toJSON v) = Return v)
  /\ (forall l, Language.new (Language.toJSON l) = Return l)
  /\ (forall v, typed_voice v ->
        Voice.new (JSON_parse_text (JSON_stringify (Voice.toJSON v))) = Return v)
  /\ (forall l, typed_language l ->
        Language.new (JSON_parse_text (JSON_stringify (Language.toJSON l))) = Return l).
Proof.
  repeat split.
  - intros [i n g l d]. reflexivity.
  - intros [i n v]. reflexivity.
  - intros [i n g l d] (Hi & Hn & Hg & Hl & Hd). simpl in *.
    destruct Hi as [-> | [? ->]], Hn as [-> | [? ->]], Hg as [-> | [? ->]],
             Hl as [-> | [? ->]], Hd as [-> | [? ->]]; reflexivity.
  - intros [i n v] (Hi & Hn & Hv). simpl in *.
    unfold JSON_stringify, JSON_parse_text, Language.toJSON.
    destruct Hv as [-> | [vs ->]].
    + destruct Hi as [-> | [? ->]], Hn as [-> | [? ->]]; reflexivity.
    + assert (Hs : json_image (strings vs) = strings vs) by apply json_image_strings.
      destruct Hi as [-> | [? ->]], Hn as [-> | [? ->]];
        cbn [json_image]; cbn [json_image] in Hs; rewrite Hs; reflexivity.
Qed.

(** A voice without a language and without a description. *)
Lemma model_json_roundtrip_witness :
  Voice.new (JSON_parse_text (JSON_stringify (Voice.toJSON
    (Voice.mk (JStr "heart") (JStr "Heart") (JStr "female") JUndefined JUndefined))))
  = Return (Voice.mk (JStr "heart") (JStr "Heart") (JStr "female") JUndefined JUndefined).
Proof.
  refine (proj1 (proj2 (proj2 model_json_roundtrip))
            (Voice.mk (JStr "heart") (JStr "Heart") (JStr "female") JUndefined JUndefined)
            _).
  repeat split; first [now left | right; eexists; reflexivity].
Defined.

Lemma js_or_idem (v d : jsval) : truthy d = true -> js_or (js_or v d) d = js_or v d.
Proof.
  intros Hd. unfold js_or. destruct (truthy v) eqn:E; [now rewrite E | now rewrite Hd].
Qed.

Lemma js_or_truthy (v d : jsval) : truthy d = true -> truthy (js_or v d) = true.
Proof. intros Hd. unfold js_or. now destruct (truthy v) eqn:E. Qed.

Lemma js_nullish_idem (v d : jsval) :
  d <> JUndefined -> d <> JNull -> js_nullish (js_nullish v d) d = js_nullish v d.
Proof. intros H1 H2. destruct v; simpl; try reflexivity; now destruct d. Qed.

Lemma js_nullish_defined (v d : jsval) :
  d <> JUndefined -> d <> JNull ->
  js_nullish v d <> JUndefined /\ js_nullish v d <> JNull.
Proof. intros H1 H2. destruct v; simpl; split; try assumption; discriminate. Qed.

Lemma truthy_defined (v : jsval) : truthy v = true -> v <> JUndefined.
Proof. intros H ->. discriminate. Qed.

Lemma GenerateRequest_new_returns (data r : GenerateRequest.t) :
  GenerateRequest.new data = Return r ->
  truthy (GenerateRequest.text data) = true
  /\ js_gt_num (prop_of (GenerateRequest.text data) "length") (Fin 5000 0)
     = Return false
  /\ js_strict_eq_num (prop_of (GenerateRequest.text data) "length") (Fin 0 0) = false
  /\ (let s := js_nullish (GenerateRequest.speed data) (JNum n1_0) in
      js_or_else (js_lt_num s n0_5) (js_gt_num s n2_0) = Return false)
  /\ r = {| GenerateRequest.text := GenerateRequest.text data;
            GenerateRequest.voice := js_or (GenerateRequest.voice data) (JStr "heart");
            GenerateRequest.language :=
              js_or (GenerateRequest.language data) (JStr "american_english");
            GenerateRequest.speed :=
              js_nullish (GenerateRequest.speed data) (JNum n1_0) |}.
Proof.
  unfold GenerateRequest.new.
  destruct (truthy (GenerateRequest.text data)) eqn:Et; [|discriminate]. cbn [negb orb].
  destruct (js_strict_eq_num _ _) eqn:E0; [discriminate|].
  destruct (js_gt_num _ _) as [[|]|] eqn:E1; [discriminate| |discriminate].
  destruct (js_or_else _ _) as [[|]|] eqn:E2; [discriminate| |discriminate].
  intros [= <-]. repeat split; assumption.
Qed.

Lemma MultiVoiceRequest_new_returns (data r : MultiVoiceRequest.t) :
  MultiVoiceRequest.new data = Return r ->
  truthy (MultiVoiceRequest.text data) = true
  /\ js_gt_num (prop_of (MultiVoiceRequest.text data) "length") (Fin 5000 0)
     = Return false
  /\ js_strict_eq_num (prop_of (MultiVoiceRequest.text data) "length") (Fin 0 0) = false
  /\ (let s := js_nullish (MultiVoiceRequest.speed data) (JNum n1_0) in
      js_or_else (js_lt_num s n0_5) (js_gt_num s n2_0) = Return false)
  /\ r = {| MultiVoiceRequest.text := MultiVoiceRequest.text data;
            MultiVoiceRequest.language :=
              js_or (MultiVoiceRequest.language data) (JStr "american_english");
            MultiVoiceRequest.speed :=
              js_nullish (MultiVoiceRequest.speed data) (JNum n1_0) |}.
Proof.
  unfold MultiVoiceRequest.new.
  destruct (truthy (MultiVoiceRequest.text data)) eqn:Et; [|discriminate]. cbn [negb orb].
  destruct (js_strict_eq_num _ _) eqn:E0; [discriminate|].
  destruct (js_gt_num _ _) as [[|]|] eqn:E1; [discriminate| |discriminate].
  destruct (js_or_else _ _) as [[|]|] eqn:E2; [discriminate| |discriminate].
  intros [= <-]. repeat split; assumption.
Qed.

Lemma json_image_keeps (k : string) (v : jsval) (rest : list (string * jsval)) :
  v <> JUndefined ->
  keys (json_image (JObj ((k, v) :: rest))) = k :: keys (json_image (JObj rest)).
Proof. intros H. destruct v; try reflexivity. contradiction. Qed.

(** X9.  A request that was built passes its own constructor unchanged:
    [new GenerateRequest(r)] is [r] again, and the same for
    [MultiVoiceRequest].  Its text, voice and language are truthy and its
    speed is neither [undefined] nor [null], so the JSON text of its wire
    form always has the members [text], [voice], [language] and [speed]
    (for a multi-voice request [text], [language] and [speed], and never a
    voice). *)
Theorem request_construction_is_idempotent :
  (forall data r,
     GenerateRequest.new data = Return r ->
     GenerateRequest.new r = Return r
     /\ truthy (GenerateRequest.text r) = true
     /\ truthy (GenerateRequest.voice r) = true
     /\ truthy (GenerateRequest.language r) = true
     /\ GenerateRequest.speed r <> JUndefined /\ GenerateRequest.speed r <> JNull
     /\ keys (JSON_parse_text (JSON_stringify (GenerateRequest.toJSON r)))
        = ["text"; "voice"; "language"; "speed"])
  /\ (forall data r,
        MultiVoiceRequest.new data = Return r ->
        MultiVoiceRequest.new r = Return r
        /\ truthy (MultiVoiceRequest.text r) = true
        /\ truthy (MultiVoiceRequest.language r) = true
        /\ MultiVoiceRequest.speed r <> JUndefined /\ MultiVoiceRequest.speed r <> JNull
        /\ keys (JSON_parse_text (JSON_stringify (MultiVoiceRequest.toJSON r)))
           = ["text"; "language"; "speed"]).
Proof.
  assert (Hh : truthy (JStr "heart") = true) by reflexivity.
  assert (Ha : truthy (JStr "american_english") = true) by reflexivity.
  assert (H1 : JNum n1_0 <> JUndefined) by discriminate.
  assert (H2 : JNum n1_0 <> JNull) by discriminate.
  split; intros data r Hnew.
  - destruct (GenerateRequest_new_returns _ _ Hnew) as (Ht & Hlen & Hz & Hs & ->).
    pose proof (js_nullish_defined (GenerateRequest.speed data) _ H1 H2) as [Hu Hn].
    pose proof (js_or_truthy (GenerateRequest.voice data) _ Hh) as Hv.
    pose proof (js_or_truthy (GenerateRequest.language data) _ Ha) as Hl.
    repeat split; try assumption.
    + unfold GenerateRequest.new. cbn [GenerateRequest.text GenerateRequest.voice
        GenerateRequest.language GenerateRequest.speed].
      rewrite Ht, Hz, Hlen. cbn [negb orb].
      rewrite (js_nullish_idem _ _ H1 H2). cbv zeta in Hs. rewrite Hs.
      now rewrite (js_or_idem _ _ Hh), (js_or_idem _ _ Ha).
    + unfold JSON_stringify, JSON_parse_text, GenerateRequest.toJSON.
      cbn [GenerateRequest.text GenerateRequest.voice
             GenerateRequest.language GenerateRequest.speed].
      rewrite !json_image_keeps; auto using truthy_defined.
  - destruct (MultiVoiceRequest_new_returns _ _ Hnew) as (Ht & Hlen & Hz & Hs & ->).
    pose proof (js_nullish_defined (MultiVoiceRequest.speed data) _ H1 H2) as [Hu Hn].
    pose proof (js_or_truthy (MultiVoiceRequest.language data) _ Ha) as Hl.
    repeat split; try assumption.
    + unfold MultiVoiceRequest.new. cbn [MultiVoiceRequest.text
        MultiVoiceRequest.language MultiVoiceRequest.speed].
      rewrite Ht, Hz, Hlen. cbn [negb orb].
      rewrite (js_nullish_idem _ _ H1 H2). cbv zeta in Hs. rewrite Hs.
      now rewrite (js_or_idem _ _ Ha).
    + unfold JSON_stringify, JSON_parse_text, MultiVoiceRequest.toJSON.
      cbn [MultiVoiceRequest.text MultiVoiceRequest.language MultiVoiceRequest.speed].
      rewrite !json_image_keeps; auto using truthy_defined.
Qed.

(** The request built from a text alone. *)
Lemma request_construction_is_idempotent_witness :
  GenerateRequest.new (GenerateRequest.mk (JStr "Hello") (JStr "heart")
                         (JStr "american_english") (JNum n1_0))
  = Return (GenerateRequest.mk (JStr "Hello") (JStr "heart")
              (JStr "american_english") (JNum n1_0)).
Proof.
  exact (proj1 (proj1 request_construction_is_idempotent
                  (GenerateRequest.mk (JStr "Hello") JUndefined JUndefined JUndefined)
                  (GenerateRequest.mk (JStr "Hello") (JStr "heart")
                     (JStr "american_english") (JNum n1_0))
                  eq_refl)).
Defined.

(** ** The audio of a result *)

Lemma base64_encode_empty (x : Buffer) :
  str_eqb (base64_encode x) "" = match x with [] => true | _ => false end.
Proof. destruct x as [|a [|b [|c x]]]; reflexivity. Qed.

Lemma envelope_success (r : GenerateResponse.t) :
  get_prop (generic_success r) "success" = Return (JBool true)
  /\ prop_of (generic_success r) "audioBase64" = JStr (GenerateResponse.toBase64 r)
  /\ get_prop (JSON_parse_text (JSON_stringify (generic_success r))) "success"
     = Return (JBool true)
  /\ prop_of (JSON_parse_text (JSON_stringify (generic_success r))) "audioBase64"
     = JStr (GenerateResponse.toBase64 r).
Proof. repeat split; by_metadata r. Qed.

Lemma getAudioBuffer_envelope P (result : jsval) (r : GenerateResponse.t) :
  get_prop result "success" = Return (JBool true) ->
  prop_of result "audioBase64" = JStr (GenerateResponse.toBase64 r) ->
  (forall k, LangVoiceToolkit.getAudioBuffer P k result = Return (audio_of r))
  /\ (forall o, LangVoiceOpenAITools.getAudioBuffer P o result = Return (audio_of r))
  /\ (forall k, LangVoiceToolkit.getAudioUint8Array P k result = Return (audio_of r)).
Proof.
  intros Hs Ha.
  assert (H : forall k, LangVoiceToolkit.getAudioBuffer P k result = Return (audio_of r)).
  { intros k. unfold LangVoiceToolkit.getAudioBuffer. rewrite Hs, Ha.
    unfold truthy, GenerateResponse.toBase64, Buffer_from. rewrite base64_encode_empty.
    unfold audio_of. rewrite base64_roundtrip.
    destruct (GenerateResponse.audioData r); reflexivity. }
  repeat split.
  - exact H.
  - intros o. exact (H (LangVoiceToolkit.mk (LangVoiceOpenAITools.client o))).
  - intros k. unfold LangVoiceToolkit.getAudioUint8Array. rewrite H.
    now destruct (audio_of r).
Qed.

(** X10.  [getAudioBuffer] and [getAudioUint8Array], given the success
    result the adapter built from a response, give back the bytes of that
    response, also after the result went through [JSON.stringify] and
    [JSON.parse]; except that they give [null] when the audio has no byte,
    its base64 text being empty.  Given a failure result they give
    [null]. *)
Theorem audio_buffer_of_result P r :
  (forall k, LangVoiceToolkit.getAudioBuffer P k (generic_success r)
             = Return (audio_of r))
  /\ (forall k, LangVoiceToolkit.getAudioUint8Array P k (generic_success r)
                = Return (audio_of r))
  /\ (forall o, LangVoiceOpenAITools.getAudioBuffer P o
                  (JSON_parse_text (JSON_stringify (generic_success r)))
                = Return (audio_of r))
  /\ (forall k message,
        LangVoiceToolkit.getAudioBuffer P k (failure message) = Return None)
  /\ (forall o message,
        LangVoiceOpenAITools.getAudioBuffer P o
          (JSON_parse_text (JSON_stringify (failure message))) = Return None).
Proof.
  destruct (envelope_success r) as (H1 & H2 & H3 & H4).
  destruct (getAudioBuffer_envelope P _ r H1 H2) as (Ha & _ & Hc).
  destruct (getAudioBuffer_envelope P _ r H3 H4) as (_ & Hb & _).
  repeat split; try assumption; reflexivity.
Qed.

Lemma save_result_writes P (result path : jsval) (r : GenerateResponse.t) :
  get_prop result "success" = Return (JBool true) ->
  prop_of result "audioBase64" = JStr (GenerateResponse.toBase64 r) ->
  GenerateResponse.audioData r <> [] ->
  writes P path (GenerateResponse.audioData r) ->
  save_result P result path
  = ([EvWriteFile path (GenerateResponse.audioData r)], Return true).
Proof.
  intros Hs Ha Hne (write & u & Hw & Hu). unfold save_result.
  rewrite Hs, Ha. unfold lift. fold (@ret jsval (JBool true)). rewrite bind_ret_l.
  unfold truthy, GenerateResponse.toBase64. rewrite base64_encode_empty.
  destruct (GenerateResponse.audioData r) as [|b l] eqn:E; [contradiction|].
  cbn [negb orb]. unfold import_fs. rewrite Hw. rewrite bind_ret_l.
  unfold Buffer_from, lift. rewrite base64_roundtrip.
  fold (@ret Buffer (b :: l)). rewrite bind_ret_l.
  unfold bind, try_catch, ret. rewrite Hu. reflexivity.
Qed.

Lemma save_result_silent P (result path : jsval) :
  get_prop result "success" = Return (JBool false)
  \/ (exists s, get_prop result "success" = Return s
                /\ prop_of result "audioBase64" = JStr "") ->
  save_result P result path = ([], Return false).
Proof.
  unfold save_result. intros [Hs | (s & Hs & Ha)]; rewrite Hs.
  - reflexivity.
  - unfold lift. fold (@ret jsval s). rewrite bind_ret_l. rewrite Ha.
    cbn [truthy str_eqb String.eqb negb]. now rewrite orb_true_r.
Qed.

(** X11.  An explicit save of a success result whose audio is not empty
    writes, when the write goes through, exactly the bytes of the response
    to the path given and returns [true]: [saveAudio] of the generic
    toolkit, [saveAudioFromResult] of the OpenAI adapter on the parsed
    result, and [saveAudio] of the AutoGen adapter, whose path is the one
    given or else the output file of the adapter. *)
Theorem explicit_save_writes_the_audio P r :
  GenerateResponse.audioData r <> [] ->
  (forall path,
     writes P path (GenerateResponse.audioData r) ->
     (forall k, LangVoiceToolkit.saveAudio P k (generic_success r) path
                = ([EvWriteFile path (GenerateResponse.audioData r)], Return true))
     /\ (forall o, LangVoiceOpenAITools.saveAudioFromResult P o
                     (JSON_parse_text (JSON_stringify (generic_success r))) path
                   = ([EvWriteFile path (GenerateResponse.audioData r)], Return true)))
  /\ (forall a file,
        let path := JStr (str_or file (LangVoiceAutoGenTools.outputFile a)) in
        writes P path (GenerateResponse.audioData r) ->
        LangVoiceAutoGenTools.saveAudio P a (autogen_result r) file
        = ([EvWriteFile path (GenerateResponse.audioData r)], Return true)).
Proof.
  intros Hne. split.
  - intros path Hw. destruct (envelope_success r) as (H1 & H2 & H3 & H4).
    split; intros ?; now apply save_result_writes.
  - intros a file path (write & u & Hw & Hu).
    unfold LangVoiceAutoGenTools.saveAudio, autogen_result.
    cbn [TTSResult.success TTSResult.audioBase64 negb orb].
    assert (Hs : str_or (Some (GenerateResponse.toBase64 r)) ""
                 = GenerateResponse.toBase64 r).
    { unfold str_or. now destruct (str_eqb _ "") eqn:E; [apply String.eqb_eq in E|]. }
    rewrite Hs. unfold GenerateResponse.toBase64. rewrite base64_encode_empty.
    destruct (GenerateResponse.audioData r) as [|b l] eqn:E; [contradiction|].
    unfold import_fs. rewrite Hw. rewrite bind_ret_l. rewrite base64_roundtrip.
    fold path. unfold bind, try_catch, ret. rewrite Hu. reflexivity.
Qed.

(** The result of the sample generation saved to [speech.mp3]. *)
Lemma explicit_save_writes_the_audio_witness :
  LangVoiceToolkit.saveAudio (sample_platform sample_success true)
    (LangVoiceToolkit.mk sample_client) (generic_success sample_generated)
    (JStr "speech.mp3")
  = ([EvWriteFile (JStr "speech.mp3") sample_audio], Return true).
Proof.
  refine (proj1 (proj1 (explicit_save_writes_the_audio
                          (sample_platform sample_success true) sample_generated _)
                   (JStr "speech.mp3") _) (LangVoiceToolkit.mk sample_client)).
  - discriminate.
  - exists (fun _ _ => Return tt), tt. split; reflexivity.
Defined.

(** X12.  An explicit save of a result that holds no audio returns [false]
    and does not touch the file system: a failure result, and a success
    result whose audio has no byte. *)
Theorem explicit_save_skips_what_has_no_audio P path :
  (forall k message,
     LangVoiceToolkit.saveAudio P k (failure message) path = ([], Return false))
  /\ (forall o message,
        LangVoiceOpenAITools.saveAudioFromResult P o
          (JSON_parse_text (JSON_stringify (failure message))) path
        = ([], Return false))
  /\ (forall k r,
        GenerateResponse.audioData r = [] ->
        LangVoiceToolkit.saveAudio P k (generic_success r) path = ([], Return false))
  /\ (forall a message file,
        LangVoiceAutoGenTools.saveAudio P a (TTSResult.failed message) file
        = ([], Return false))
  /\ (forall a r file,
        GenerateResponse.audioData r = [] ->
        LangVoiceAutoGenTools.saveAudio P a (autogen_result r) file
        = ([], Return false)).
Proof.
  split; [reflexivity|]. split; [reflexivity|]. split; [|split; [reflexivity|]].
  - intros k r H. apply save_result_silent. right. exists (JBool true).
    destruct (envelope_success r) as (H1 & H2 & _). split; [assumption|].
    rewrite H2. unfold GenerateResponse.toBase64. now rewrite H.
  - intros a r file H. unfold LangVoiceAutoGenTools.saveAudio, autogen_result.
    cbn [TTSResult.success TTSResult.audioBase64 negb orb str_or].
    unfold GenerateResponse.toBase64. rewrite H. reflexivity.
Qed.

(** A success result over no byte at all. *)
Lemma explicit_save_skips_what_has_no_audio_witness :
  LangVoiceToolkit.saveAudio (sample_platform sample_success true)
    (LangVoiceToolkit.mk sample_client)
    (generic_success (GenerateResponse.mk [] None None None)) (JStr "speech.mp3")
  = ([], Return false).
Proof.
  exact (proj1 (proj2 (proj2 (explicit_save_skips_what_has_no_audio
                                (sample_platform sample_success true)
                                (JStr "speech.mp3"))))
           (LangVoiceToolkit.mk sample_client)
           (GenerateResponse.mk [] None None None) eq_refl).
Defined.

(** ** Where no file is touched *)

Lemma trace_catch_ret {A} (m : Run A) (h : thrown -> A) :
  trace (try_catch m (fun e => ret (h e))) = trace m.
Proof. destruct m as [tr [a|e]]; cbn; now rewrite ?app_nil_r. Qed.

Lemma trace_bind_ret {A B} (m : Run A) (f : A -> B) :
  trace (x <- m ;; ret (f x)) = trace m.
Proof. destruct m as [tr [a|e]]; cbn; now rewrite ?app_nil_r. Qed.

Lemma trace_lift_bind {A B} (r : Result A) (k : A -> Run B) :
  trace (x <- lift r ;; k x)
  = match r with Return a => trace (k a) | Throw _ => [] end.
Proof. destruct r as [a|e]; [|reflexivity]. cbn. now destruct (k a). Qed.

Lemma trace_bind_lift_ret {A B C} (m : Run A) (f : A -> Result B) (g : B -> C) :
  trace (x <- m ;; y <- lift (f x) ;; ret (g y)) = trace m.
Proof.
  destruct m as [tr [a|e]]; cbn; [|reflexivity].
  destruct (f a); cbn; now rewrite ?app_nil_r.
Qed.

Lemma one_request_nil : one_request_at_most [].
Proof. split; [simpl; lia | reflexivity]. Qed.

Lemma one_request_fetch req d : one_request_at_most [EvFetch req d].
Proof. split; [simpl; lia | reflexivity]. Qed.

Lemma one_request_generate P c options :
  one_request_at_most (trace (LangVoiceClient.generate P c options)).
Proof.
  rewrite generate_trace.
  destruct (GenerateRequest.new _); [apply one_request_fetch | apply one_request_nil].
Qed.

Lemma one_request_generateMultiVoice P c options :
  one_request_at_most (trace (LangVoiceClient.generateMultiVoice P c options)).
Proof.
  rewrite generateMultiVoice_trace.
  destruct (MultiVoiceRequest.new _); [apply one_request_fetch | apply one_request_nil].
Qed.

Lemma listVoices_trace P c :
  trace (LangVoiceClient.listVoices P c)
  = [EvFetch (get_of c "/tts/voices") (timer_delay (LangVoiceClient.timeout c))].
Proof.
  unfold LangVoiceClient.listVoices. rewrite trace_bind, request_trace.
  destruct (outcome _) as [dh|e]; [|reflexivity].
  unfold lift, trace. simpl. reflexivity.
Qed.

Lemma listLanguages_trace P c :
  trace (LangVoiceClient.listLanguages P c)
  = [EvFetch (get_of c "/tts/languages") (timer_delay (LangVoiceClient.timeout c))].
Proof.
  unfold LangVoiceClient.listLanguages. rewrite trace_bind, request_trace.
  destruct (outcome _) as [dh|e]; [|reflexivity].
  unfold lift, trace. simpl. reflexivity.
Qed.

Lemma one_request_toolkit P k name args :
  one_request_at_most (trace (LangVoiceToolkit.handleToolCall P k name args)).
Proof.
  unfold LangVoiceToolkit.handleToolCall.
  destruct (str_eqb name TOOL_NAMES.TTS).
  { rewrite trace_lift_bind. destruct (get_prop args "text"); [|apply one_request_nil].
    unfold LangVoiceToolkit.textToSpeech. rewrite trace_catch_ret, trace_bind_ret.
    apply one_request_generate. }
  destruct (str_eqb name TOOL_NAMES.MULTI_VOICE).
  { rewrite trace_lift_bind. destruct (get_prop args "text"); [|apply one_request_nil].
    unfold LangVoiceToolkit.multiVoiceSpeech. rewrite trace_catch_ret, trace_bind_ret.
    apply one_request_generateMultiVoice. }
  destruct (str_eqb name TOOL_NAMES.LIST_VOICES).
  { unfold LangVoiceToolkit.listVoices. rewrite trace_catch_ret, trace_bind_ret.
    rewrite listVoices_trace. apply one_request_fetch. }
  destruct (str_eqb name TOOL_NAMES.LIST_LANGUAGES).
  { unfold LangVoiceToolkit.listLanguages. rewrite trace_catch_ret, trace_bind_ret.
    rewrite listLanguages_trace. apply one_request_fetch. }
  apply one_request_nil.
Qed.

Lemma one_request_openai P name args key :
  one_request_at_most (trace (handleOpenAIToolCall P name args key)).
Proof.
  unfold handleOpenAIToolCall. rewrite trace_lift_bind.
  destruct (LangVoiceClient.new P _) as [c|e]; [|apply one_request_nil].
  rewrite trace_catch_ret, trace_bind_ret.
  destruct (str_eqb name TOOL_NAMES.TTS).
  { rewrite trace_lift_bind. destruct (get_prop args "text"); [|apply one_request_nil].
    rewrite trace_bind_ret. apply one_request_generate. }
  destruct (str_eqb name TOOL_NAMES.MULTI_VOICE).
  { rewrite trace_lift_bind. destruct (get_prop args "text"); [|apply one_request_nil].
    rewrite trace_bind_ret. apply one_request_generateMultiVoice. }
  destruct (str_eqb name TOOL_NAMES.LIST_VOICES).
  { rewrite trace_bind_ret, listVoices_trace. apply one_request_fetch. }
  destruct (str_eqb name TOOL_NAMES.LIST_LANGUAGES).
  { rewrite trace_bind_ret, listLanguages_trace. apply one_request_fetch. }
  apply one_request_nil.
Qed.

Lemma one_request_autogen_tts P a args :
  LangVoiceAutoGenTools.autoSave a = false ->
  one_request_at_most (trace (LangVoiceAutoGenTools.textToSpeechHandler P a args)).
Proof.
  destruct a as [c f s]. cbn [LangVoiceAutoGenTools.autoSave]. intros ->.
  unfold LangVoiceAutoGenTools.textToSpeechHandler.
  cbn [LangVoiceAutoGenTools.autoSave LangVoiceAutoGenTools.client].
  rewrite trace_catch_ret, trace_lift_bind.
  destruct (get_prop args "text"); [|apply one_request_nil].
  rewrite trace_bind_ret. apply one_request_generate.
Qed.

Lemma one_request_autogen_multi P a args :
  LangVoiceAutoGenTools.autoSave a = false ->
  one_request_at_most (trace (LangVoiceAutoGenTools.multiVoiceHandler P a args)).
Proof.
  destruct a as [c f s]. cbn [LangVoiceAutoGenTools.autoSave]. intros ->.
  unfold LangVoiceAutoGenTools.multiVoiceHandler.
  cbn [LangVoiceAutoGenTools.autoSave LangVoiceAutoGenTools.client].
  rewrite trace_catch_ret, trace_lift_bind.
  destruct (get_prop args "text"); [|apply one_request_nil].
  rewrite trace_bind_ret. apply one_request_generateMultiVoice.
Qed.

Lemma one_request_autogen_call P a call :
  LangVoiceAutoGenTools.autoSave a = false ->
  one_request_at_most (trace (LangVoiceAutoGenTools.handleFunctionCall P a call)).
Proof.
  intros Ha. unfold LangVoiceAutoGenTools.handleFunctionCall, LangVoiceAutoGenTools.getFunctionMap.
  rewrite trace_lift_bind.
  destruct (LangVoiceAutoGenTools.read_arguments P _) as [args|e]; [|apply one_request_nil].
  destruct (str_eqb _ TOOL_NAMES.TTS).
  { rewrite trace_bind_ret. now apply one_request_autogen_tts. }
  destruct (str_eqb _ TOOL_NAMES.MULTI_VOICE).
  { rewrite trace_bind_ret. now apply one_request_autogen_multi. }
  destruct (str_eqb _ TOOL_NAMES.LIST_VOICES).
  { rewrite trace_bind_ret. unfold LangVoiceAutoGenTools.listVoicesHandler.
    rewrite trace_catch_ret, trace_bind_ret, listVoices_trace. apply one_request_fetch. }
  destruct (str_eqb _ TOOL_NAMES.LIST_LANGUAGES).
  { rewrite trace_bind_ret. unfold LangVoiceAutoGenTools.listLanguagesHandler.
    rewrite trace_catch_ret, trace_bind_ret, listLanguages_trace. apply one_request_fetch. }
  destruct (existsb _ _).
  - rewrite trace_lift_bind. destruct (call_inherited _ _); apply one_request_nil.
  - apply one_request_nil.
Qed.

(** X13.  Dispatching a call sends one request at most and touches no
    file: [handleToolCall] and [handleToolCallJson] of the generic toolkit,
    [handleOpenAIToolCall] and [handleCall] of the OpenAI adapter,
    [generateSpeech] and [generateMultiVoice] of the AutoGen adapter, the
    two listing tools of the LangChain adapter, whatever their input;
    [handleFunctionCall] of an AutoGen adapter whose [autoSave] is off; and
    the multi-voice tool of the LangChain adapter when it has no output
    file. *)
Theorem dispatch_touches_no_file P :
  (forall k name args,
     one_request_at_most (trace (LangVoiceToolkit.handleToolCall P k name args)))
  /\ (forall k name args,
        one_request_at_most (trace (LangVoiceToolkit.handleToolCallJson P k name args)))
  /\ (forall name args key,
        one_request_at_most (trace (handleOpenAIToolCall P name args key)))
  /\ (forall o call,
        one_request_at_most (trace (LangVoiceOpenAITools.handleCall P o call)))
  /\ (forall a call,
        LangVoiceAutoGenTools.autoSave a = false ->
        one_request_at_most (trace (LangVoiceAutoGenTools.handleFunctionCall P a call)))
  /\ (forall a input,
        one_request_at_most (trace (LangVoiceAutoGenTools.generateSpeech P a input)))
  /\ (forall a input,
        one_request_at_most (trace (LangVoiceAutoGenTools.generateMultiVoice P a input)))
  /\ (forall tool input,
        missing (LangVoiceMultiVoiceTool.outputFile tool) ->
        one_request_at_most (trace (LangVoiceMultiVoiceTool.call P tool input)))
  /\ (forall tool, one_request_at_most (trace (LangVoiceVoicesTool.call P tool)))
  /\ (forall tool, one_request_at_most (trace (LangVoiceLanguagesTool.call P tool))).
Proof.
  split; [intros; apply one_request_toolkit|].
  split.
  { intros. unfold LangVoiceToolkit.handleToolCallJson. rewrite trace_bind_ret.
    apply one_request_toolkit. }
  split; [intros; apply one_request_openai|].
  split.
  { intros o call. unfold LangVoiceOpenAITools.handleCall. rewrite trace_lift_bind.
    destruct (JSON_parse P _); [|apply one_request_nil].
    rewrite trace_bind_ret. apply one_request_openai. }
  split; [intros; now apply one_request_autogen_call|].
  split.
  { intros. unfold LangVoiceAutoGenTools.generateSpeech.
    rewrite trace_catch_ret, trace_bind_ret. apply one_request_generate. }
  split.
  { intros. unfold LangVoiceAutoGenTools.generateMultiVoice.
    rewrite trace_catch_ret, trace_bind_ret. apply one_request_generateMultiVoice. }
  split.
  { intros [c f] input Hm. cbn [LangVoiceMultiVoiceTool.outputFile] in Hm.
    unfold LangVoiceMultiVoiceTool.call.
    cbn [LangVoiceMultiVoiceTool.outputFile LangVoiceMultiVoiceTool.client].
    rewrite (str_or_missing _ _ Hm). cbn [str_eqb String.eqb negb].
    rewrite trace_catch_ret, trace_lift_bind.
    destruct (get_prop _ "text"); [|apply one_request_nil].
    rewrite trace_bind_ret. apply one_request_generateMultiVoice. }
  split.
  { intros. unfold LangVoiceVoicesTool.call.
    rewrite trace_catch_ret, trace_bind_lift_ret, listVoices_trace.
    apply one_request_fetch. }
  intros. unfold LangVoiceLanguagesTool.call.
  rewrite trace_catch_ret, trace_bind_lift_ret, listLanguages_trace.
  apply one_request_fetch.
Qed.

(** An AutoGen adapter that does not save, asked for speech. *)
Lemma dispatch_touches_no_file_witness :
  one_request_at_most
    (trace (LangVoiceAutoGenTools.handleFunctionCall (sample_platform sample_success true)
              (LangVoiceAutoGenTools.mk sample_client "output.mp3" false)
              (AutoGenFunctionCall.mk TOOL_NAMES.TTS hello_args))).
Proof.
  exact (proj1 (proj2 (proj2 (proj2 (proj2
           (dispatch_touches_no_file (sample_platform sample_success true))))))
           (LangVoiceAutoGenTools.mk sample_client "output.mp3" false)
           (AutoGenFunctionCall.mk TOOL_NAMES.TTS hello_args) eq_refl).
Defined.

(** ** The OpenAI adapter against the generic toolkit *)

Lemma stringify_after_catch (m : Run jsval) :
  try_catch (result <- m ;; ret (JSON_stringify result))
            (fun error => ret (JSON_stringify (caught error)))
  = (result <- try_catch m (fun error => ret (caught error)) ;;
     ret (JSON_stringify result)).
Proof.
  destruct m as [tr [v|e]]; unfold try_catch, bind, ret; cbn; now rewrite ?app_nil_r.
Qed.

Lemma bind_assoc {A B C} (m : Run A) (f : A -> Run B) (g : B -> Run C) :
  bind (bind m f) g = bind m (fun x => bind (f x) g).
Proof.
  destruct m as [tr [a|e]]; unfold bind; [|reflexivity].
  destruct (f a) as [tr1 [b|e]]; [|reflexivity].
  destruct (g b) as [tr2 r]. now rewrite app_assoc.
Qed.

Lemma handleOpenAIToolCall_as_toolkit P k name args key :
  readable args ->
  LangVoiceClient.new P (LangVoiceClientOptions.with_key key)
  = Return (LangVoiceToolkit.client k) ->
  handleOpenAIToolCall P name args key
  = LangVoiceToolkit.handleToolCallJson P k name args.
Proof.
  intros Hr Hc. unfold handleOpenAIToolCall, LangVoiceToolkit.handleToolCallJson,
    LangVoiceToolkit.handleToolCall.
  rewrite Hc. unfold lift at 1. fold (@ret LangVoiceClient.t (LangVoiceToolkit.client k)).
  rewrite bind_ret_l. rewrite stringify_after_catch. f_equal.
  rewrite !(get_prop_readable _ _ Hr). unfold lift.
  destruct (str_eqb name TOOL_NAMES.TTS).
  { fold (@ret jsval (prop_of args "text")). rewrite !bind_ret_l. reflexivity. }
  destruct (str_eqb name TOOL_NAMES.MULTI_VOICE).
  { fold (@ret jsval (prop_of args "text")). rewrite !bind_ret_l. reflexivity. }
  destruct (str_eqb name TOOL_NAMES.LIST_VOICES); [reflexivity|].
  destruct (str_eqb name TOOL_NAMES.LIST_LANGUAGES); [reflexivity|].
  reflexivity.
Qed.

Lemma client_of_key P key c :
  LangVoiceClient.new P (LangVoiceClientOptions.with_key key) = Return c ->
  LangVoiceClient.new P (LangVoiceClientOptions.with_key (Some (LangVoiceClient.apiKey c)))
  = Return c.
Proof.
  unfold LangVoiceClient.new. cbn [LangVoiceClientOptions.apiKey
    LangVoiceClientOptions.baseUrl LangVoiceClientOptions.timeout
    LangVoiceClientOptions.with_key].
  destruct (str_eqb (str_or key _) "") eqn:E; [discriminate|].
  intros [= <-]. cbn [LangVoiceClient.apiKey].
  assert (H : str_or (Some (str_or key (LangVoiceClient.getEnvApiKey P)))
                (LangVoiceClient.getEnvApiKey P)
              = str_or key (LangVoiceClient.getEnvApiKey P)).
  { unfold str_or at 1. now rewrite E. }
  rewrite H, E. reflexivity.
Qed.

(** X14.  On an argument bag that can be read, [handleOpenAIToolCall] is
    [handleToolCallJson] of a generic toolkit over the client the key
    builds: the same effects and the same JSON text, for every tool name.
    So [handleCall] of an OpenAI adapter built from a key, on an argument
    string that parses to such a bag, is [handleToolCall] of the generic
    toolkit over the client of the adapter, followed by [JSON.stringify]
    and [JSON.parse] of its result. *)
Theorem openai_adapter_is_the_generic_one P :
  (forall k name args key,
     readable args ->
     LangVoiceClient.new P (LangVoiceClientOptions.with_key key)
     = Return (LangVoiceToolkit.client k) ->
     handleOpenAIToolCall P name args key
     = LangVoiceToolkit.handleToolCallJson P k name args)
  /\ (forall o key id name s args,
        LangVoiceOpenAITools.new P (LangVoiceClientOptions.with_key key) = Return o ->
        JSON_parse P s = Return args ->
        readable args ->
        LangVoiceOpenAITools.handleCall P o (OpenAIToolCall.mk id name s)
        = (result <- LangVoiceToolkit.handleToolCall P
                       (LangVoiceToolkit.mk (LangVoiceOpenAITools.client o)) name args ;;
           ret (JSON_parse_text (JSON_stringify result)))).
Proof.
  split; [intros; now apply handleOpenAIToolCall_as_toolkit|].
  intros o key id name s args Ho Hp Hr. unfold LangVoiceOpenAITools.handleCall.
  cbn [OpenAIToolCall.arguments OpenAIToolCall.name]. rewrite Hp.
  unfold lift. fold (@ret jsval args). rewrite bind_ret_l.
  unfold LangVoiceOpenAITools.new in Ho.
  destruct (LangVoiceClient.new P _) as [c|e] eqn:Hc; [|discriminate].
  injection Ho as <-. cbn [LangVoiceOpenAITools.client].
  unfold LangVoiceClient.getApiKey.
  rewrite (handleOpenAIToolCall_as_toolkit P (LangVoiceToolkit.mk c) name args _ Hr
             (client_of_key P key c Hc)).
  unfold LangVoiceToolkit.handleToolCallJson. rewrite bind_assoc.
  f_equal.
Qed.

(** The text-to-speech tool called with the text alone. *)
Lemma openai_adapter_is_the_generic_one_witness :
  handleOpenAIToolCall (sample_platform sample_success true) TOOL_NAMES.TTS hello_args
    (Some "test-key")
  = LangVoiceToolkit.handleToolCallJson (sample_platform sample_success true)
      (LangVoiceToolkit.mk sample_client) TOOL_NAMES.TTS hello_args.
Proof.
  refine (proj1 (openai_adapter_is_the_generic_one (sample_platform sample_success true))
            (LangVoiceToolkit.mk sample_client) TOOL_NAMES.TTS hello_args
            (Some "test-key") _ eq_refl).
  split; discriminate.
Defined.

(** ** Building the tools of the LangChain and AutoGen adapters *)

(** X15.  [getAllLangChainTools] fails exactly as the client constructor
    does on the key; otherwise it gives the four tools over that client,
    named by the four tool names in order, the text-to-speech tool with
    the output file [output.mp3] and the multi-voice tool with none.  The
    output file of a text-to-speech tool that was built is never empty:
    when its generation succeeds and the write goes through, it writes the
    audio to that file and answers naming it.  The multi-voice tool
    without an output file writes nothing and answers inline. *)
Theorem langchain_tools_of_the_toolkit P key :
  (forall e,
     LangVoiceClient.new P (LangVoiceClientOptions.with_key key) = Throw e ->
     getAllLangChainTools P key = Throw e)
  /\ (forall c,
        LangVoiceClient.new P (LangVoiceClientOptions.with_key key) = Return c ->
        exists tools,
          getAllLangChainTools P key = Return tools
          /\ tools = [TTSTool (LangVoiceTTSTool.mk c "output.mp3");
                      MultiVoiceTool (LangVoiceMultiVoiceTool.mk c None);
                      VoicesTool (LangVoiceVoicesTool.mk c);
                      LanguagesTool (LangVoiceLanguagesTool.mk c)]
          /\ map tool_name tools = TOOL_NAMES.all)
  /\ (forall options tool,
        LangVoiceTTSTool.new P options = Return tool ->
        LangVoiceTTSTool.outputFile tool <> "")
  /\ (forall options tool input tr r,
        LangVoiceTTSTool.new P options = Return tool ->
        readable (langchain_params input) ->
        LangVoiceClient.generate P (LangVoiceTTSTool.client tool)
          (adapter_options (langchain_params input)) = (tr, Return r) ->
        writes P (JStr (LangVoiceTTSTool.outputFile tool)) (GenerateResponse.audioData r) ->
        LangVoiceTTSTool.call P tool input
        = (tr ++ [EvWriteFile (JStr (LangVoiceTTSTool.outputFile tool))
                    (GenerateResponse.audioData r)],
           Return (langchain_saved (LangVoiceTTSTool.outputFile tool) r)))
  /\ (forall c input tr r,
        readable (langchain_params input) ->
        LangVoiceClient.generateMultiVoice P c
          (adapter_multi_options (langchain_params input)) = (tr, Return r) ->
        LangVoiceMultiVoiceTool.call P (LangVoiceMultiVoiceTool.mk c None) input
        = (tr, Return (langchain_multi_inline r))).
Proof.
  assert (Hfile : forall options tool,
            LangVoiceTTSTool.new P options = Return tool ->
            LangVoiceTTSTool.outputFile tool <> "").
  { intros options tool. unfold LangVoiceTTSTool.new.
    destruct (LangVoiceClient.new P _); [|discriminate].
    intros [= <-]. cbn [LangVoiceTTSTool.outputFile]. apply str_or_nonempty. discriminate. }
  split; [|split; [|split; [exact Hfile|split]]].
  - intros e He. unfold getAllLangChainTools, LangVoiceLangChainToolkit.getTools,
      LangVoiceTTSTool.new. cbn [LangVoiceLangChainToolkit.apiKey LangChainToolOptions.apiKey].
    now rewrite He.
  - intros c Hc. eexists. split; [|split; [reflexivity|reflexivity]].
    unfold getAllLangChainTools, LangVoiceLangChainToolkit.getTools,
      LangVoiceTTSTool.new, LangVoiceMultiVoiceTool.new, LangVoiceVoicesTool.new,
      LangVoiceLanguagesTool.new.
    cbn [LangVoiceLangChainToolkit.apiKey LangChainToolOptions.apiKey
           LangChainToolOptions.outputFile].
    rewrite Hc. reflexivity.
  - intros options tool input tr r Hnew Hr Hg Hw.
    rewrite (langchain_tts_shape P tool input tr r Hr Hg).
    pose proof (Hfile _ _ Hnew) as Hne.
    destruct (str_eqb (LangVoiceTTSTool.outputFile tool) "") eqn:E.
    { apply String.eqb_eq in E. contradiction. }
    cbn [negb]. now rewrite (persist_writes P _ _ _ _ Hw).
  - intros c input tr r Hr Hg.
    now rewrite (langchain_multi_shape P (LangVoiceMultiVoiceTool.mk c None) input tr r Hr Hg).
Qed.

(** The tools built for the key of the sample. *)
Lemma langchain_tools_of_the_toolkit_witness :
  exists tools,
    getAllLangChainTools (sample_platform sample_success true) (Some "test-key")
    = Return tools
    /\ tools = [TTSTool (LangVoiceTTSTool.mk sample_client "output.mp3");
                MultiVoiceTool (LangVoiceMultiVoiceTool.mk sample_client None);
                VoicesTool (LangVoiceVoicesTool.mk sample_client);
                LanguagesTool (LangVoiceLanguagesTool.mk sample_client)]
    /\ map tool_name tools = TOOL_NAMES.all.
Proof.
  exact (proj1 (proj2 (langchain_tools_of_the_toolkit
                         (sample_platform sample_success true) (Some "test-key")))
           sample_client eq_refl).
Defined.

(** X16.  [createAutoGenTools] fails exactly as the client constructor
    does on the key.  The adapter it builds has an output file that is not
    empty, [output.mp3] unless one is given.  Its [autoSave] is off exactly
    when the option is [false]: then no call it handles touches a file.
    When the option is absent, a text-to-speech call whose generation
    succeeds and whose write goes through writes the audio to the path of
    the call (its [output_file] argument, or else the output file) and
    answers naming that path. *)
Theorem autogen_tools_construction P options :
  (forall e,
     LangVoiceClient.new P
       (LangVoiceClientOptions.with_key (AutoGenToolOptions.apiKey options)) = Throw e ->
     createAutoGenTools P (Some options) = Throw e)
  /\ (forall a,
        createAutoGenTools P (Some options) = Return a ->
        LangVoiceClient.new P
          (LangVoiceClientOptions.with_key (AutoGenToolOptions.apiKey options))
        = Return (LangVoiceAutoGenTools.getClient a)
        /\ LangVoiceAutoGenTools.outputFile a <> ""
        /\ (missing (AutoGenToolOptions.outputFile options) ->
            LangVoiceAutoGenTools.outputFile a = "output.mp3")
        /\ (LangVoiceAutoGenTools.autoSave a = false
            <-> AutoGenToolOptions.autoSave options = Some false)
        /\ (AutoGenToolOptions.autoSave options = Some false ->
            forall call,
              one_request_at_most
                (trace (LangVoiceAutoGenTools.handleFunctionCall P a call)))
        /\ (AutoGenToolOptions.autoSave options = None ->
            forall args tr r,
              readable args ->
              LangVoiceClient.generate P (LangVoiceAutoGenTools.getClient a)
                (adapter_options args) = (tr, Return r) ->
              writes P (autogen_path a args) (GenerateResponse.audioData r) ->
              LangVoiceAutoGenTools.textToSpeechHandler P a args
              = (tr ++ [EvWriteFile (autogen_path a args) (GenerateResponse.audioData r)],
                 Return (JSON_stringify (autogen_saved (autogen_path a args) r))))).
Proof.
  unfold createAutoGenTools, LangVoiceAutoGenTools.new. split.
  - intros e ->. reflexivity.
  - intros a. destruct (LangVoiceClient.new P _) as [c|e]; [|discriminate].
    intros [= <-]. cbn [LangVoiceAutoGenTools.getClient LangVoiceAutoGenTools.client
                          LangVoiceAutoGenTools.outputFile LangVoiceAutoGenTools.autoSave].
    split; [reflexivity|]. split; [apply str_or_nonempty; discriminate|].
    split; [apply str_or_missing|].
    assert (Hs : (match AutoGenToolOptions.autoSave options with
                  | Some b => b | None => true end) = false
                 <-> AutoGenToolOptions.autoSave options = Some false).
    { destruct (AutoGenToolOptions.autoSave options) as [[|]|]; split; congruence. }
    split; [exact Hs|]. split.
    + intros H call. apply one_request_autogen_call.
      cbn [LangVoiceAutoGenTools.autoSave]. now apply Hs.
    + intros H args tr r Hr Hg Hw.
      set (a := LangVoiceAutoGenTools.mk _ _ _) in *.
      rewrite (autogen_tts_shape P a args tr r Hr Hg).
      unfold a at 1. cbn [LangVoiceAutoGenTools.autoSave]. rewrite H.
      now rewrite (persist_writes P _ _ _ _ Hw).
Qed.

(** The adapter built from a key alone saves the speech it is asked for
    to [output.mp3]. *)
Lemma autogen_tools_construction_witness :
  LangVoiceAutoGenTools.textToSpeechHandler (sample_platform sample_success true)
    sample_autogen hello_args
  = ([EvFetch (post_of sample_client "/tts/generate" (default_body "Hello world")) 60000]
     ++ [EvWriteFile (JStr "output.mp3") sample_audio],
     Return (JSON_stringify (autogen_saved (JStr "output.mp3") sample_generated))).
Proof.
  refine (proj2 (proj2 (proj2 (proj2 (proj2
            (proj2 (autogen_tools_construction (sample_platform sample_success true)
                      (AutoGenToolOptions.mk (Some "test-key") None None))
               sample_autogen eq_refl)))))
            eq_refl hello_args _ sample_generated _ _ _).
  - split; discriminate.
  - vm_compute. reflexivity.
  - exists (fun _ _ => Return tt), tt. split; reflexivity.
Defined.

(** ** The schemas *)

Lemma known_cases (name : string) :
  known name <->
  name = TOOL_NAMES.TTS \/ name = TOOL_NAMES.MULTI_VOICE
  \/ name = TOOL_NAMES.LIST_VOICES \/ name = TOOL_NAMES.LIST_LANGUAGES.
Proof.
  unfold known, TOOL_NAMES.all. simpl. intuition congruence.
Qed.

Lemma getFunctionDefinition_cases a (name : string) :
  LangVoiceAutoGenTools.getFunctionDefinition a name
  = if str_eqb TOOL_NAMES.TTS name then Some TTS_FUNCTION_DEF
    else if str_eqb TOOL_NAMES.MULTI_VOICE name then Some MULTI_VOICE_FUNCTION_DEF
    else if str_eqb TOOL_NAMES.LIST_VOICES name then Some LIST_VOICES_FUNCTION_DEF
    else if str_eqb TOOL_NAMES.LIST_LANGUAGES name then Some LIST_LANGUAGES_FUNCTION_DEF
    else None.
Proof. reflexivity. Qed.

(** X17.  [getFunctionDefinition(name)] of the AutoGen adapter finds a
    definition exactly for the four tool names, the same names for which
    [getFunctionMap] holds a handler of the adapter; the definition found
    is one of [getFunctionDefinitions()] and its [name] is the name asked
    for.  The definitions carry the four tool names in order, and
    [getAutoGenFunctionDefinitions()], [getTTSFunctionDef()] and
    [getMultiVoiceFunctionDef()] give the same definitions. *)
Theorem function_definitions_match_the_map a name :
  (known name <-> exists def, LangVoiceAutoGenTools.getFunctionDefinition a name = Some def)
  /\ (known name <-> exists h, LangVoiceAutoGenTools.getFunctionMap name
                               = LangVoiceAutoGenTools.Handler h)
  /\ (forall def,
        LangVoiceAutoGenTools.getFunctionDefinition a name = Some def ->
        prop_of def "name" = JStr name
        /\ In def (LangVoiceAutoGenTools.getFunctionDefinitions a))
  /\ map (fun def => prop_of def "name") (LangVoiceAutoGenTools.getFunctionDefinitions a)
     = map JStr TOOL_NAMES.all
  /\ getAutoGenFunctionDefinitions = LangVoiceAutoGenTools.getFunctionDefinitions a
  /\ LangVoiceAutoGenTools.getFunctionDefinition a TOOL_NAMES.TTS
     = Some (LangVoiceAutoGenTools.getTTSFunctionDef a)
  /\ LangVoiceAutoGenTools.getFunctionDefinition a TOOL_NAMES.MULTI_VOICE
     = Some (LangVoiceAutoGenTools.getMultiVoiceFunctionDef a).
Proof.
  rewrite getFunctionDefinition_cases, known_cases.
  unfold LangVoiceAutoGenTools.getFunctionMap, str_eqb.
  rewrite (String.eqb_sym name TOOL_NAMES.TTS), (String.eqb_sym name TOOL_NAMES.MULTI_VOICE),
    (String.eqb_sym name TOOL_NAMES.LIST_VOICES),
    (String.eqb_sym name TOOL_NAMES.LIST_LANGUAGES).
  destruct (String.eqb_spec TOOL_NAMES.TTS name) as [<- | H1].
  { repeat split; eauto; try match goal with H : Some _ = Some _ |- _ => injection H as <- end;
    try reflexivity; simpl; auto 6. }
  destruct (String.eqb_spec TOOL_NAMES.MULTI_VOICE name) as [<- | H2].
  { repeat split; eauto; try match goal with H : Some _ = Some _ |- _ => injection H as <- end;
    try reflexivity; simpl; auto 6. }
  destruct (String.eqb_spec TOOL_NAMES.LIST_VOICES name) as [<- | H3].
  { repeat split; eauto; try match goal with H : Some _ = Some _ |- _ => injection H as <- end;
    try reflexivity; simpl; auto 6. }
  destruct (String.eqb_spec TOOL_NAMES.LIST_LANGUAGES name) as [<- | H4].
  { repeat split; eauto; try match goal with H : Some _ = Some _ |- _ => injection H as <- end;
    try reflexivity; simpl; auto 6. }
  repeat split; try discriminate; try reflexivity.
  - intros [-> | [-> | [-> | ->]]]; contradiction.
  - intros [def [=]].
  - intros [-> | [-> | [-> | ->]]]; contradiction.
  - intros [h Hh]. destruct (existsb _ _); discriminate.
Qed.

(** The definition of the multi-voice function, found by its name. *)
Lemma function_definitions_match_the_map_witness :
  prop_of MULTI_VOICE_FUNCTION_DEF "name" = JStr "langvoice_multi_voice_speech"
  /\ In MULTI_VOICE_FUNCTION_DEF (LangVoiceAutoGenTools.getFunctionDefinitions sample_autogen).
Proof.
  exact (proj1 (proj2 (proj2 (function_definitions_match_the_map sample_autogen
                                "langvoice_multi_voice_speech")))
           MULTI_VOICE_FUNCTION_DEF eq_refl).
Defined.

Ltac each_schema H :=
  repeat (destruct H as [<- | H]; [|]); [.. | destruct H].

Ltac absurd_declares :=
  let Hd := fresh in intros Hd; exfalso; apply Hd; reflexivity.

Ltac part_default := first [absurd_declares | intros _; split; reflexivity].

Ltac part_speed Hs :=
  first [ absurd_declares
        | intros _; split; [reflexivity|];
          exists n0_5, n2_0; split; [reflexivity | split; [reflexivity | exact Hs]] ].

(** X18.  Every function schema advertised by the generic toolkit, by
    the OpenAI adapter and by the AutoGen adapter names one of the four
    tools and agrees with the request model.  Where it has a [voice]
    parameter, the default is [heart] and the enumeration is the voice
    list of [models.ts]; where it has a [language] parameter, the default
    is [american_english] and the enumeration is the language list of
    [models.ts]; where it has a [speed] parameter, the default is 1.0 and
    a speed that is a number is accepted by [new GenerateRequest], on a
    text of 1 to 5000 characters, exactly when it lies between the
    [minimum] and the [maximum] of the schema or is NaN, which the
    constructor accepts although it lies within no bounds.  [text] is
    required exactly where it is a parameter, and nothing else is. *)
Theorem schemas_agree_with_the_request_model k o a schema :
  In schema (advertised k o a) ->
  (exists name, prop_of schema "name" = JStr name /\ known name)
  /\ (declares schema "voice" ->
      prop_of (parameter schema "voice") "default" = JStr "heart"
      /\ prop_of (parameter schema "voice") "enum" = strings ALL_VOICES)
  /\ (declares schema "language" ->
      prop_of (parameter schema "language") "default" = JStr "american_english"
      /\ prop_of (parameter schema "language") "enum" = strings LANGUAGES)
  /\ (declares schema "speed" ->
      prop_of (parameter schema "speed") "default" = JNum n1_0
      /\ exists lo hi,
           prop_of (parameter schema "speed") "minimum" = JNum lo
           /\ prop_of (parameter schema "speed") "maximum" = JNum hi
           /\ forall (t : string) v l s,
                (exists r, GenerateRequest.new
                             (GenerateRequest.mk (JStr t) v l (JNum s)) = Return r)
                <-> 1 <= Z.of_nat (String.length t) <= 5000
                    /\ (s = NaN \/ (num_leb lo s = true /\ num_leb s hi = true)))
  /\ (declares schema "text" <->
      prop_of (prop_of schema "parameters") "required" = strings ["text"])
  /\ (~ declares schema "text" <->
      prop_of (prop_of schema "parameters") "required" = strings []).
Proof.
  intros H.
  assert (Hspeed : forall (t : string) v l s,
            (exists r, GenerateRequest.new
                         (GenerateRequest.mk (JStr t) v l (JNum s)) = Return r)
            <-> 1 <= Z.of_nat (String.length t) <= 5000
                /\ (s = NaN \/ (num_leb n0_5 s = true /\ num_leb s n2_0 = true))).
  { intros t v l s.
    assert (D : s = NaN \/ s <> NaN) by (destruct s; (now left) || (right; discriminate)).
    destruct D as [-> | Hs].
    - destruct (GenerateRequest_new_typed t v l (Some NaN)) as [Y N]. cbv zeta in Y, N.
      split.
      + intros [r Hr]. split; [|now left].
        destruct (Z_le_dec 1 (Z.of_nat (String.length t))) as [L1|L1];
          [destruct (Z_le_dec (Z.of_nat (String.length t)) 5000) as [L2|L2]|];
          [lia | |];
          (destruct N as [e [E _]]; [intros [? _]; lia | simpl in E, Hr; congruence]).
      + intros [L _]. eexists. apply Y. split; [exact L | reflexivity].
    - destruct (proj1 (request_construction_iff t v l (Some s) Hs)) as [A B].
      split.
      + intros Hr. destruct (A Hr) as [L Rg]. split; [exact L | right; exact Rg].
      + intros [L [E | Rg]]; [contradiction|]. apply B. split; assumption. }
  unfold advertised in H. cbn [app map LangVoiceToolkit.getOpenAITools
    LangVoiceToolkit.getFunctionSchemas LangVoiceOpenAITools.getTools getOpenAITools
    LangVoiceAutoGenTools.getFunctionDefinitions] in H.
  each_schema H.
  all: split; [eexists; split; [reflexivity | unfold known; simpl; auto 6]|].
  all: split; [part_default|].
  all: split; [part_default|].
  all: split; [part_speed Hspeed|].
  all: split; split.
  all: first [ intros _; reflexivity
             | absurd_declares
             | intros _; unfold declares; vm_compute; discriminate
             | intros E; vm_compute in E; discriminate
             | intros Hn; exfalso; apply Hn; unfold declares; vm_compute; discriminate
             | intros _ Hd; apply Hd; reflexivity ].
Qed.

(** The text-to-speech definition of the AutoGen adapter. *)
Lemma schemas_agree_with_the_request_model_witness :
  prop_of (parameter TTS_FUNCTION_DEF "voice") "default" = JStr "heart"
  /\ prop_of (parameter TTS_FUNCTION_DEF "voice") "enum" = strings ALL_VOICES.
Proof.
  refine (proj1 (proj2 (schemas_agree_with_the_request_model
                          (LangVoiceToolkit.mk sample_client)
                          (LangVoiceOpenAITools.mk sample_client) sample_autogen
                          TTS_FUNCTION_DEF _)) _).
  - unfold advertised. apply in_or_app. right. apply in_or_app. right.
    apply in_or_app. right. left. reflexivity.
  - discriminate.
Defined.

(** ** The plain text-to-speech call *)

Lemma generate_rejected P c options req resp :
  GenerateRequest.new (request_data options) = Return req ->
  answered P c (post_of c "/tts/generate" (GenerateRequest.toJSON req)) resp ->
  ok resp = false ->
  LangVoiceClient.generate P c options
  = ([EvFetch (post_of c "/tts/generate" (GenerateRequest.toJSON req))
        (timer_delay (LangVoiceClient.timeout c))],
     Throw (response_error resp)).
Proof.
  intros Hreq Ha Hok.
  pose proof (generate_trace P c options) as Ht. rewrite Hreq in Ht.
  unfold LangVoiceClient.generate in *. fold (request_data options) in *.
  rewrite Hreq in *. unfold lift in *. fold (@ret GenerateRequest.t req) in *.
  rewrite bind_ret_l in *.
  pose proof (requestBinary_rejected P c "POST" "/tts/generate"
                (GenerateRequest.toJSON req) resp Hok Ha) as Hrej.
  destruct (LangVoiceClient.requestBinary P c "POST" "/tts/generate"
              (GenerateRequest.toJSON req)) as [tr [dh|e]];
    cbn in Hrej; [discriminate|].
  injection Hrej as ->. cbn in Ht. cbn. now rewrite Ht.
Qed.

Lemma default_request (t : string) :
  1 <= Z.of_nat (String.length t) <= 5000 ->
  GenerateRequest.new
    (GenerateRequest.mk (JStr t) (JStr "heart") (JStr "american_english") (JNum n1_0))
  = Return (GenerateRequest.mk (JStr t) (JStr "heart") (JStr "american_english")
              (JNum n1_0)).
Proof.
  intros Hlen.
  exact (proj1 (GenerateRequest_new_typed t (JStr "heart") (JStr "american_english")
                  (Some n1_0)) (conj Hlen eq_refl)).
Qed.

(** X19.  [textToSpeech] given only a text of 1 to 5000 characters sends
    one POST to [/tts/generate] whose body holds the text, the voice
    [heart], the language [american_english] and the speed 1.0.  On a 2xx
    answer it returns the bytes of the body.  On any other answer it
    rejects with what [handleResponseErrors] throws: an error of the SDK
    carrying the status and the message of the body when that message has
    a string form, the [TypeError] of its conversion when it has none. *)
Theorem textToSpeech_returns_the_body P c (t : string) resp :
  1 <= Z.of_nat (String.length t) <= 5000 ->
  answered P c (post_of c "/tts/generate" (default_body t)) resp ->
  (forall data,
     ok resp = true -> arrayBuffer resp = Return data ->
     LangVoiceClient.textToSpeech P c (JStr t) JUndefined JUndefined JUndefined
     = ([EvFetch (post_of c "/tts/generate" (default_body t))
           (timer_delay (LangVoiceClient.timeout c))],
        Return data))
  /\ (ok resp = false ->
      (forall m,
         js_ToString (error_message resp) = Return m ->
         exists e,
           LangVoiceClient.textToSpeech P c (JStr t) JUndefined JUndefined JUndefined
           = ([EvFetch (post_of c "/tts/generate" (default_body t))
                 (timer_delay (LangVoiceClient.timeout c))],
              Throw (ThrowErr e))
           /\ isLangVoiceError (ThrowErr e) = true
           /\ statusCode e = Some (status resp)
           /\ err_message e = m)
      /\ (forall e,
            js_ToString (error_message resp) = Throw e ->
            LangVoiceClient.textToSpeech P c (JStr t) JUndefined JUndefined JUndefined
            = ([EvFetch (post_of c "/tts/generate" (default_body t))
                  (timer_delay (LangVoiceClient.timeout c))],
               Throw no_primitive))).
Proof.
  intros Hlen Ha. pose proof (default_request t Hlen) as Hreq. split.
  - intros data Hok Hd. unfold LangVoiceClient.textToSpeech. cbn [default_param].
    rewrite (generate_ok P c
               (GenerateOptions.mk (JStr t) (JStr "heart") (JStr "american_english")
                  (JNum n1_0)) _ resp data Hreq Ha Hok Hd).
    reflexivity.
  - intros Hok.
    assert (Hrun : LangVoiceClient.textToSpeech P c (JStr t) JUndefined JUndefined
                     JUndefined
                   = ([EvFetch (post_of c "/tts/generate" (default_body t))
                         (timer_delay (LangVoiceClient.timeout c))],
                      Throw (response_error resp))).
    { unfold LangVoiceClient.textToSpeech. cbn [default_param].
      rewrite (generate_rejected P c
                 (GenerateOptions.mk (JStr t) (JStr "heart") (JStr "american_english")
                    (JNum n1_0)) _ resp Hreq Ha Hok).
      reflexivity. }
    destruct (response_error_cases resp) as [Hm He]. split.
    + intros m Em.
      destruct (taxonomy_guards (status resp) m) as (e & Te & Hl & Hs & Hmsg & _).
      exists e. rewrite Hrun, (Hm m Em), Te. repeat split; assumption.
    + intros e Ee. now rewrite Hrun, (He e Ee).
Qed.

(** The bytes of the sample answer. *)
Lemma textToSpeech_returns_the_body_witness :
  LangVoiceClient.textToSpeech (sample_platform sample_success true) sample_client
    (JStr "Hello world") JUndefined JUndefined JUndefined
  = ([EvFetch (post_of sample_client "/tts/generate" (default_body "Hello world")) 60000],
     Return sample_audio).
Proof.
  refine (proj1 (textToSpeech_returns_the_body (sample_platform sample_success true)
                   sample_client "Hello world" sample_response _ _)
            sample_audio eq_refl eq_refl).
  - vm_compute. split; discriminate.
  - split; [reflexivity | vm_compute; discriminate].
Defined.

(** ** The results of the AutoGen adapter *)

(** X20.  [generateSpeech] and [generateMultiVoice] of the AutoGen adapter
    never reject, and what they return is consistent: either a success
    holding the audio both as bytes and as base64 text, the text decoding
    to the bytes, with the duration of the response (and, for
    [generateSpeech], its character count); or a failure holding a message
    and no audio.  A multi-voice result never holds a character count. *)
Theorem autogen_results_are_consistent P a :
  (forall input,
     exists result,
       outcome (LangVoiceAutoGenTools.generateSpeech P a input) = Return result
       /\ ((exists r, result = autogen_result r)
           \/ (exists message, result = TTSResult.failed message)))
  /\ (forall input,
        exists result,
          outcome (LangVoiceAutoGenTools.generateMultiVoice P a input) = Return result
          /\ TTSResult.charactersProcessed result = None
          /\ ((exists r, TTSResult.success result = true
                         /\ TTSResult.audioBase64 result
                            = Some (GenerateResponse.toBase64 r)
                         /\ TTSResult.audioBuffer result
                            = Some (GenerateResponse.audioData r)
                         /\ TTSResult.duration result = GenerateResponse.duration r)
              \/ (exists message, result = TTSResult.failed message)))
  /\ (forall r audio text,
        TTSResult.audioBuffer (autogen_result r) = Some audio ->
        TTSResult.audioBase64 (autogen_result r) = Some text ->
        Buffer_from_base64 text = audio)
  /\ (forall message,
        TTSResult.success (TTSResult.failed message) = false
        /\ TTSResult.error (TTSResult.failed message) = Some message
        /\ TTSResult.audioBase64 (TTSResult.failed message) = None
        /\ TTSResult.audioBuffer (TTSResult.failed message) = None).
Proof.
  split; [|split; [|split]].
  - intros input. unfold LangVoiceAutoGenTools.generateSpeech.
    destruct (LangVoiceClient.generate P _ _) as [tr [r|e]].
    + eexists. split; [reflexivity|]. left. exists r. reflexivity.
    + eexists. split; [reflexivity|]. right. eexists. reflexivity.
  - intros input. unfold LangVoiceAutoGenTools.generateMultiVoice.
    destruct (LangVoiceClient.generateMultiVoice P _ _) as [tr [r|e]].
    + eexists. split; [reflexivity|]. split; [reflexivity|]. left. exists r.
      repeat split.
    + eexists. split; [reflexivity|]. split; [reflexivity|]. right. eexists.
      reflexivity.
  - intros r audio text [= <-] [= <-]. apply base64_roundtrip.
  - intros message. repeat split.
Qed.

(** The audio of the sample generation, in both forms. *)
Lemma autogen_results_are_consistent_witness :
  Buffer_from_base64 (base64_encode sample_audio) = sample_audio.
Proof.
  exact (proj1 (proj2 (proj2 (autogen_results_are_consistent
                                (sample_platform sample_success true) sample_autogen)))
           sample_generated sample_audio (base64_encode sample_audio) eq_refl eq_refl).
Defined.

(** ** The metadata headers *)

Lemma read_digits_step (ch : ascii) (s : string) (acc c k : Z) :
  digit_val ch = Some k ->
  read_digits (String ch s) acc c = read_digits s (acc * 10 + k) (c + 1).
Proof. intros H. cbn [read_digits]. now rewrite H. Qed.

Lemma read_digits_text (d : Decimal.uint) (rest : string) (acc c : Z) :
  read_digits (digits_text d ^^ rest) acc c
  = read_digits rest (digits_value d acc) (c + digits_count d).
Proof.
  unfold digits_text, digits_count. revert acc c.
  induction d; intros acc c;
    [ cbn; f_equal; lia
    | cbn [NilEmpty.string_of_uint String.append digits_value];
      erewrite read_digits_step by reflexivity;
      rewrite IHd; f_equal; cbn [Decimal.nb_digits]; lia .. ].
Qed.

Lemma digits_value_acc (d : Decimal.uint) (acc : Z) :
  digits_value d acc = acc * 10 ^ digits_count d + digits_value d 0.
Proof.
  unfold digits_count. revert acc.
  induction d; intros acc; cbn [digits_value Decimal.nb_digits];
    [ cbn; lia
    | rewrite IHd, (IHd (0 * 10 + _)), Nat2Z.inj_succ, Z.pow_succ_r by lia; ring .. ].
Qed.

Lemma of_uint_acc_value (d : Decimal.uint) (p : positive) :
  Z.pos (Pos.of_uint_acc d p) = digits_value d (Z.pos p).
Proof.
  revert p. induction d; intros p; cbn [Pos.of_uint_acc digits_value];
    [ reflexivity | rewrite IHd; f_equal; lia .. ].
Qed.

Lemma of_uint_value (d : Decimal.uint) : Z.of_N (N.of_uint d) = digits_value d 0.
Proof.
  unfold N.of_uint.
  induction d; cbn [Pos.of_uint digits_value];
    [ reflexivity | exact IHd | cbn [Z.of_N]; rewrite of_uint_acc_value; reflexivity .. ].
Qed.

Lemma numeral_value (n : Z) :
  0 <= n -> digits_value (N.to_uint (Z.to_N n)) 0 = n.
Proof.
  intros Hn. rewrite <- of_uint_value, DecimalN.Unsigned.of_to. lia.
Qed.

Lemma read_digits_stop (rest : string) (v c : Z) :
  no_digit_ahead rest -> read_digits rest v c = (v, c, rest).
Proof. destruct rest as [|ch r]; [reflexivity|]. simpl. now intros ->. Qed.

Lemma numeral_text (d : Decimal.uint) :
  d <> Decimal.Nil -> NilZero.string_of_uint d = digits_text d.
Proof. now destruct d. Qed.

Lemma digits_count_pos (d : Decimal.uint) : d <> Decimal.Nil -> 0 < digits_count d.
Proof. unfold digits_count. destruct d; [contradiction | cbn; lia ..]. Qed.

(** Reading a numeral from its first character: its value, a positive
    count of digits, and what follows it. *)
Lemma read_numeral (d : Decimal.uint) (rest : string) :
  no_digit_ahead rest ->
  exists c, 0 < c
    /\ read_digits (NilZero.string_of_uint d ^^ rest) 0 0
       = (digits_value d 0, c, rest).
Proof.
  intros Hr. destruct (Decimal.uint_eq_dec d Decimal.Nil) as [-> | Hd].
  - exists 1. split; [lia|]. cbn [NilZero.string_of_uint String.append].
    erewrite read_digits_step by reflexivity. now apply read_digits_stop.
  - exists (digits_count d). split; [now apply digits_count_pos|].
    rewrite (numeral_text d Hd), read_digits_text. now apply read_digits_stop.
Qed.

(** A numeral starts with a digit: no white space, no sign, no
    [Infinity], and it is not empty. *)
Lemma numeral_head (d : Decimal.uint) (rest : string) :
  let text := NilZero.string_of_uint d ^^ rest in
  skip_spaces text = text /\ read_sign text = (false, text)
  /\ strip_prefix "Infinity" text = None /\ str_eqb text "" = false
  /\ strip_prefix "s" text = None.
Proof. destruct d; repeat split. Qed.

Lemma normalize_integer (n : Z) : normalize n 0 = Fin n 0.
Proof.
  unfold normalize. destruct (Z.eqb_spec n 0) as [-> | H]; [reflexivity|].
  cbn. f_equal. lia.
Qed.

(** A decimal of at most 15 digits, with an exponent in the range where
    such decimals name doubles of their own, is kept as it is written. *)
Lemma to_double_small (m e : Z) :
  Z.abs m < 10 ^ 15 -> -300 <= e <= 290 -> to_double m e = normalize m e.
Proof.
  intros Hm He. unfold to_double.
  destruct (Z.eqb_spec m 0) as [-> | Hz]; [reflexivity|].
  replace (Z.abs m <? 10 ^ 15) with true by (symmetry; now apply Z.ltb_lt).
  replace (-300 <=? e) with true by (symmetry; apply Z.leb_le; lia).
  replace (e <=? 290) with true by (symmetry; apply Z.leb_le; lia).
  reflexivity.
Qed.

(** X21.  [parseIntHeader] gives [undefined] for a header that is absent
    or empty, and never gives NaN.  For a header that starts with the
    decimal numeral of a natural number [n] below [10^15], whatever
    follows that is not a digit, it gives [n].  A longer numeral is
    rounded to the nearest double, as [9007199254740993] is to
    [9007199254740992], and to Infinity past the largest one. *)
Theorem int_header_reads_numerals :
  LangVoiceClient.parseIntHeader None = None
  /\ LangVoiceClient.parseIntHeader (Some "") = None
  /\ (forall v, LangVoiceClient.parseIntHeader v <> Some NaN)
  /\ (forall n rest,
        0 <= n < 10 ^ 15 -> no_digit_ahead rest ->
        LangVoiceClient.parseIntHeader (Some (decimal_of_Z n ^^ rest)) = Some (Fin n 0))
  /\ LangVoiceClient.parseIntHeader (Some "9007199254740993")
     = Some (Fin 9007199254740992 0)
  /\ LangVoiceClient.parseIntHeader (Some (decimal_of_Z (10 ^ 400))) = Some PInf.
Proof.
  split; [reflexivity|]. split; [reflexivity|]. split; [|split; [|split]].
  - intros [v|]; [|discriminate]. unfold LangVoiceClient.parseIntHeader.
    destruct (str_eqb v ""); [discriminate|].
    destruct (parseInt10 v); cbn; discriminate.
  - intros n rest Hn Hr. unfold LangVoiceClient.parseIntHeader, decimal_of_Z.
    destruct (numeral_head (N.to_uint (Z.to_N n)) rest) as (Hsp & Hsg & _ & He & _).
    rewrite He. unfold parseInt10. rewrite Hsp, Hsg.
    destruct (read_numeral (N.to_uint (Z.to_N n)) rest Hr) as (c & Hc & Hread).
    rewrite Hread, (numeral_value n (proj1 Hn)).
    destruct (Z.eqb_spec c 0); [lia|].
    unfold apply_sign. rewrite to_double_small by lia. now rewrite normalize_integer.
  - vm_compute. reflexivity.
  - vm_compute. reflexivity.
Qed.

(** The header of the unit test, and a header with a unit after the
    number. *)
Lemma int_header_reads_numerals_witness :
  LangVoiceClient.parseIntHeader (Some "100") = Some (Fin 100 0)
  /\ LangVoiceClient.parseIntHeader (Some "42 characters") = Some (Fin 42 0).
Proof.
  split.
  - exact (proj1 (proj2 (proj2 (proj2 int_header_reads_numerals))) 100 ""
             ltac:(split; [discriminate | reflexivity]) I).
  - exact (proj1 (proj2 (proj2 (proj2 int_header_reads_numerals))) 42 " characters"
             ltac:(split; [discriminate | reflexivity]) eq_refl).
Defined.

Lemma append_empty (s : string) : s ^^ "" = s.
Proof. induction s as [|ch s IH]; [reflexivity|]. simpl. now rewrite IH. Qed.

Lemma remove_first_digits (d : Decimal.uint) (rest : string) :
  remove_first "s" (digits_text d ^^ rest) = digits_text d ^^ remove_first "s" rest.
Proof.
  unfold digits_text.
  induction d; [reflexivity | cbn [NilEmpty.string_of_uint String.append]; cbn; f_equal; exact IHd ..].
Qed.

Lemma remove_first_numeral (d : Decimal.uint) (rest : string) :
  remove_first "s" (NilZero.string_of_uint d ^^ rest)
  = NilZero.string_of_uint d ^^ remove_first "s" rest.
Proof.
  destruct (Decimal.uint_eq_dec d Decimal.Nil) as [-> | Hd]; [reflexivity|].
  rewrite (numeral_text d Hd). apply remove_first_digits.
Qed.

Lemma strip_zeros_value (fuel : nat) (m e : Z) :
  (decimal_value (fst (strip_zeros fuel m e)) (snd (strip_zeros fuel m e))
   == decimal_value m e)%Q.
Proof.
  revert m e. induction fuel as [|k IH]; intros m e; cbn [strip_zeros]; [reflexivity|].
  destruct (e <? 0); cbn [andb]; [|reflexivity].
  destruct (Z.eqb_spec (m mod 10) 0) as [H | H]; [|reflexivity].
  rewrite IH. rewrite (decimal_value_shift (m / 10) e 1) by lia.
  replace (m / 10 * 10 ^ 1) with m; [reflexivity|].
  Z.to_euclidean_division_equations; lia.
Qed.

Lemma normalize_value (m e : Z) :
  exists m' e', normalize m e = Fin m' e'
                /\ (decimal_value m' e' == decimal_value m e)%Q.
Proof.
  unfold normalize. destruct (Z.eqb_spec m 0) as [-> | Hm].
  { exists 0, 0. split; [reflexivity|]. unfold decimal_value.
    change (inject_Z 0) with 0%Q. now rewrite !Qmult_0_l. }
  destruct (Z.leb_spec 0 e) as [He | He].
  { exists (m * 10 ^ e), 0. split; [reflexivity|].
    now rewrite <- (decimal_value_shift m 0 e He). }
  pose proof (strip_zeros_value (Z.to_nat (- e)) m e) as H.
  destruct (strip_zeros (Z.to_nat (- e)) m e) as [m' e'].
  exists m', e'. split; [reflexivity | exact H].
Qed.

Lemma decimal_fraction (n f k : Z) :
  0 <= k ->
  (decimal_value (n * 10 ^ k + f) (0 - k)
   == inject_Z n + inject_Z f / inject_Z 10 ^ k)%Q.
Proof.
  intros Hk. unfold decimal_value.
  replace (0 - k) with (- k) by lia. rewrite Qpower_opp.
  rewrite inject_Z_plus, inject_Z_mult, Zpower_Qpower by assumption.
  field. intros H. pose proof (ten_power_pos k) as Hp. rewrite H in Hp.
  now apply Qlt_irrefl in Hp.
Qed.

Lemma parseFloat_decimal (n : Z) (f : Decimal.uint) :
  0 <= n ->
  parseFloat (decimal_of_Z n ^^ "." ^^ digits_text f)
  = to_double (n * 10 ^ digits_count f + digits_value f 0) (0 - digits_count f).
Proof.
  intros Hn. unfold parseFloat, decimal_of_Z.
  set (d := N.to_uint (Z.to_N n)).
  destruct (numeral_head d ("." ^^ digits_text f)) as (Hsp & Hsg & Hinf & _).
  rewrite Hsp. unfold read_decimal_literal. rewrite Hsg, Hinf.
  destruct (read_numeral d ("." ^^ digits_text f) eq_refl) as (c & Hc & Hread).
  rewrite Hread. unfold d. rewrite (numeral_value n Hn).
  cbn [String.append]. cbv iota beta.
  rewrite <- (append_empty (digits_text f)) at 1.
  rewrite read_digits_text. cbn [read_digits].
  destruct (Z.eqb_spec c 0); [lia|]. cbn [andb read_exponent apply_sign].
  rewrite digits_value_acc. f_equal.
Qed.

Lemma parseFloat_integer (n : Z) :
  0 <= n -> parseFloat (decimal_of_Z n) = to_double n 0.
Proof.
  intros Hn. unfold parseFloat, decimal_of_Z.
  set (d := N.to_uint (Z.to_N n)).
  rewrite <- (append_empty (NilZero.string_of_uint d)).
  destruct (numeral_head d "") as (Hsp & Hsg & Hinf & _).
  rewrite Hsp. unfold read_decimal_literal. rewrite Hsg, Hinf.
  destruct (read_numeral d "" I) as (c & Hc & Hread).
  rewrite Hread. unfold d. rewrite (numeral_value n Hn).
  destruct (Z.eqb_spec c 0); [lia|]. reflexivity.
Qed.

Lemma digits_value_nonneg (d : Decimal.uint) (acc : Z) :
  0 <= acc -> 0 <= digits_value d acc.
Proof.
  revert acc. induction d; intros acc Ha; cbn [digits_value];
    [ assumption | apply IHd; lia .. ].
Qed.

(** X22.  [parseFloatHeader] gives [undefined] for a header that is
    absent, empty, or the unit [s] alone, and never gives NaN.  For the
    decimal numeral of a natural number [n] below [10^15] followed by [s]
    it gives [n].  For a numeral followed by a point, digits and [s], the
    whole of at most 15 digits, it gives the number these digits write:
    [n] plus the digits after the point over ten to their count.  A longer
    decimal is rounded to the nearest double, as
    [2.50000000000000000001s] is to 2.5. *)
Theorem float_header_reads_decimals :
  LangVoiceClient.parseFloatHeader None = None
  /\ LangVoiceClient.parseFloatHeader (Some "") = None
  /\ LangVoiceClient.parseFloatHeader (Some "s") = None
  /\ (forall v, LangVoiceClient.parseFloatHeader v <> Some NaN)
  /\ (forall n,
        0 <= n < 10 ^ 15 ->
        LangVoiceClient.parseFloatHeader (Some (decimal_of_Z n ^^ "s"))
        = Some (Fin n 0))
  /\ (forall n f,
        0 <= n ->
        n * 10 ^ digits_count f + digits_value f 0 < 10 ^ 15 ->
        digits_count f <= 15 ->
        exists m e,
          LangVoiceClient.parseFloatHeader
            (Some (decimal_of_Z n ^^ "." ^^ digits_text f ^^ "s"))
          = Some (Fin m e)
          /\ (decimal_value m e
              == inject_Z n + inject_Z (digits_value f 0)
                              / inject_Z 10 ^ digits_count f)%Q)
  /\ LangVoiceClient.parseFloatHeader (Some "2.50000000000000000001s") = Some n2_5.
Proof.
  split; [reflexivity|]. split; [reflexivity|]. split; [reflexivity|].
  split; [|split; [|split]].
  - intros [v|]; [|discriminate]. unfold LangVoiceClient.parseFloatHeader.
    destruct (str_eqb v ""); [discriminate|].
    destruct (parseFloat _); cbn; discriminate.
  - intros n Hn. unfold LangVoiceClient.parseFloatHeader.
    destruct (numeral_head (N.to_uint (Z.to_N n)) "s") as (_ & _ & _ & He & _).
    fold (decimal_of_Z n) in He. rewrite He.
    assert (Hrm : remove_first "s" (decimal_of_Z n ^^ "s") = decimal_of_Z n).
    { unfold decimal_of_Z. rewrite remove_first_numeral.
      cbn [remove_first strip_prefix Ascii.eqb Bool.eqb]. apply append_empty. }
    cbv zeta. rewrite Hrm, (parseFloat_integer n (proj1 Hn)).
    rewrite to_double_small by lia. now rewrite normalize_integer.
  - intros n f Hn Hsmall Hcount.
    assert (Hk : 0 <= digits_count f) by (unfold digits_count; lia).
    pose proof (digits_value_nonneg f 0 (Z.le_refl 0)) as Hf.
    destruct (normalize_value (n * 10 ^ digits_count f + digits_value f 0)
                (0 - digits_count f)) as (m & e & Hnorm & Hval).
    exists m, e. split.
    + unfold LangVoiceClient.parseFloatHeader.
      destruct (numeral_head (N.to_uint (Z.to_N n)) ("." ^^ digits_text f ^^ "s"))
        as (_ & _ & _ & He & _).
      fold (decimal_of_Z n) in He. rewrite He.
      assert (Hrm : remove_first "s" (decimal_of_Z n ^^ "." ^^ digits_text f ^^ "s")
                    = decimal_of_Z n ^^ "." ^^ digits_text f).
      { unfold decimal_of_Z. rewrite remove_first_numeral. f_equal.
        cbn [String.append remove_first strip_prefix Ascii.eqb Bool.eqb].
        f_equal. rewrite remove_first_digits. cbn. now rewrite append_empty. }
      cbv zeta. rewrite Hrm, (parseFloat_decimal n f Hn).
      rewrite to_double_small, Hnorm; [reflexivity | | lia].
      assert (0 <= n * 10 ^ digits_count f) by (apply Z.mul_nonneg_nonneg; lia).
      rewrite Z.abs_eq by lia. exact Hsmall.
    + rewrite Hval. apply decimal_fraction. exact Hk.
  - vm_compute. reflexivity.
Qed.

(** The header of the unit test: [2.5s] is two and a half. *)
Lemma float_header_reads_decimals_witness :
  exists m e,
    LangVoiceClient.parseFloatHeader (Some "2.5s") = Some (Fin m e)
    /\ (decimal_value m e == inject_Z 2 + inject_Z 5 / inject_Z 10 ^ 1)%Q.
Proof.
  exact (proj1 (proj2 (proj2 (proj2 (proj2 (proj2 float_header_reads_decimals)))))
           2 (Decimal.D5 Decimal.Nil) ltac:(discriminate) ltac:(reflexivity)
           ltac:(discriminate)).
Defined.

(** ** Errors seen through the adapters *)

(** X23.  When [client.generate] rejects with an error, each adapter
    returns its failure carrying the message of that error, after the same
    effects: the failure envelope of the generic toolkit and, as JSON
    text, of the OpenAI and AutoGen handlers, the failed result of
    [generateSpeech], the error line of the LangChain tool.  When the
    rejection comes from an answer that is not 2xx, that message is the
    one [handleResponseErrors] made from the response. *)
Theorem adapters_report_client_errors P c tr e :
  (forall params,
     LangVoiceClient.generate P c
       (GenerateOptions.mk (TTSInput.text params)
          (js_or (TTSInput.voice params) (JStr "heart"))
          (js_or (TTSInput.language params) (JStr "american_english"))
          (js_or (TTSInput.speed params) (JNum n1_0))) = (tr, Throw e) ->
     LangVoiceToolkit.textToSpeech P (LangVoiceToolkit.mk c) params
     = (tr, Return (failure (error_text e)))
     /\ (forall file save,
           LangVoiceAutoGenTools.generateSpeech P
             (LangVoiceAutoGenTools.mk c file save) params
           = (tr, Return (TTSResult.failed (error_text e)))))
  /\ (forall args,
        readable args ->
        LangVoiceClient.generate P c (adapter_options args) = (tr, Throw e) ->
        LangVoiceToolkit.handleToolCall P (LangVoiceToolkit.mk c) TOOL_NAMES.TTS args
        = (tr, Return (failure (error_text e)))
        /\ (forall key,
              LangVoiceClient.new P (LangVoiceClientOptions.with_key key) = Return c ->
              handleOpenAIToolCall P TOOL_NAMES.TTS args key
              = (tr, Return (JSON_stringify (failure (error_text e)))))
        /\ (forall file save,
              LangVoiceAutoGenTools.textToSpeechHandler P
                (LangVoiceAutoGenTools.mk c file save) args
              = (tr, Return (JSON_stringify (failure (error_text e))))))
  /\ (forall input file,
        readable (langchain_params input) ->
        LangVoiceClient.generate P c (adapter_options (langchain_params input))
        = (tr, Throw e) ->
        LangVoiceTTSTool.call P (LangVoiceTTSTool.mk c file) input
        = (tr, Return (cross_mark ^^ " Error generating speech: " ^^ error_text e)))
  /\ (forall options req resp,
        GenerateRequest.new (request_data options) = Return req ->
        answered P c (post_of c "/tts/generate" (GenerateRequest.toJSON req)) resp ->
        ok resp = false ->
        LangVoiceClient.generate P c options = (tr, Throw e) ->
        error_text e = thrown_message resp).
Proof.
  split; [|split; [|split]].
  - intros params Hg. split.
    + unfold LangVoiceToolkit.textToSpeech. cbn [LangVoiceToolkit.client].
      rewrite Hg. cbn. now rewrite app_nil_r.
    + intros file save. unfold LangVoiceAutoGenTools.generateSpeech.
      cbn [LangVoiceAutoGenTools.client]. rewrite Hg. cbn. now rewrite app_nil_r.
  - intros args Hr Hg. unfold adapter_options in Hg. split; [|split].
    + change (LangVoiceToolkit.handleToolCall P (LangVoiceToolkit.mk c) TOOL_NAMES.TTS args)
        with (text <- lift (get_prop args "text") ;;
              LangVoiceToolkit.textToSpeech P (LangVoiceToolkit.mk c)
                (TTSInput.mk text (prop_of args "voice") (prop_of args "language")
                   (prop_of args "speed"))).
      rewrite (get_prop_readable _ _ Hr). unfold lift.
      fold (@ret jsval (prop_of args "text")). rewrite bind_ret_l.
      unfold LangVoiceToolkit.textToSpeech.
      cbn [LangVoiceToolkit.client TTSInput.text TTSInput.voice TTSInput.language
             TTSInput.speed GenerateOptions.text GenerateOptions.voice
             GenerateOptions.language GenerateOptions.speed].
      rewrite Hg. cbn. now rewrite app_nil_r.
    + intros key Hc. unfold handleOpenAIToolCall. rewrite Hc.
      unfold lift at 1. fold (@ret LangVoiceClient.t c). rewrite bind_ret_l.
      change (str_eqb TOOL_NAMES.TTS TOOL_NAMES.TTS) with true. cbv iota.
      rewrite (get_prop_readable _ _ Hr). unfold lift.
      fold (@ret jsval (prop_of args "text")). rewrite bind_ret_l.
      rewrite Hg. cbn. now rewrite !app_nil_r.
    + intros file save. unfold LangVoiceAutoGenTools.textToSpeechHandler.
      cbn [LangVoiceAutoGenTools.client].
      rewrite (get_prop_readable _ _ Hr). unfold lift.
      fold (@ret jsval (prop_of args "text")). rewrite bind_ret_l.
      rewrite Hg. cbn. now rewrite !app_nil_r.
  - intros input file Hr Hg. unfold adapter_options in Hg.
    unfold LangVoiceTTSTool.call. cbn [LangVoiceTTSTool.client]. cbv zeta.
    rewrite (get_prop_readable _ _ Hr). unfold lift.
    fold (@ret jsval (prop_of (langchain_params input) "text")). rewrite bind_ret_l.
    rewrite Hg. cbn. now rewrite !app_nil_r.
  - intros options req resp Hreq Ha Hok Hg.
    rewrite (generate_rejected P c options req resp Hreq Ha Hok) in Hg.
    injection Hg as _ <-. reflexivity.
Qed.

(** A 401 whose body names the error, seen through the generic toolkit. *)
Lemma adapters_report_client_errors_witness :
  LangVoiceToolkit.textToSpeech refusing_platform (LangVoiceToolkit.mk sample_client)
    hello_input
  = ([EvFetch (post_of sample_client "/tts/generate" (default_body "Hello world")) 60000],
     Return (failure "Invalid API key")).
Proof.
  refine (proj1 (proj1 (adapters_report_client_errors refusing_platform sample_client
                          [EvFetch (post_of sample_client "/tts/generate"
                                      (default_body "Hello world")) 60000]
                          (AuthenticationError "Invalid API key"))
                   hello_input _)).
  vm_compute. reflexivity.
Defined.

(** ** Multi-voice generation through the adapters *)

(** X24.  Given an argument bag that can be read, the adapters hand
    [client.generateMultiVoice] the text of the bag, its language or else
    [american_english], and its speed or else 1.0.  When
    that call returns a response, the generic toolkit and the OpenAI
    handler return, after the same effects, the success envelope holding
    the base64 text of the audio and the duration, and no character count
    even when the response has one; the audio read back from the envelope
    is the audio of the response.  The AutoGen handler without [autoSave]
    returns the same three members as JSON text. *)
Theorem multi_voice_adapters_agree P c args tr r :
  readable args ->
  LangVoiceClient.generateMultiVoice P c (adapter_multi_options args) = (tr, Return r) ->
  LangVoiceToolkit.handleToolCall P (LangVoiceToolkit.mk c) TOOL_NAMES.MULTI_VOICE args
  = (tr, Return (multi_success r))
  /\ (forall key,
        LangVoiceClient.new P (LangVoiceClientOptions.with_key key) = Return c ->
        handleOpenAIToolCall P TOOL_NAMES.MULTI_VOICE args key
        = (tr, Return (JSON_stringify (multi_success r))))
  /\ (forall file,
        LangVoiceAutoGenTools.multiVoiceHandler P
          (LangVoiceAutoGenTools.mk c file false) args
        = (tr, Return (JSON_stringify (autogen_multi_inline r))))
  /\ keys (multi_success r) = ["success"; "audioBase64"; "duration"]
  /\ keys (autogen_multi_inline r) = ["success"; "duration"; "audioBase64"]
  /\ (forall k, LangVoiceToolkit.getAudioBuffer P k (multi_success r)
                = Return (audio_of r)).
Proof.
  intros Hr Hg. unfold adapter_multi_options in Hg.
  split; [|split; [|split; [|split; [reflexivity | split; [reflexivity|]]]]].
  - change (LangVoiceToolkit.handleToolCall P (LangVoiceToolkit.mk c)
              TOOL_NAMES.MULTI_VOICE args)
      with (text <- lift (get_prop args "text") ;;
            LangVoiceToolkit.multiVoiceSpeech P (LangVoiceToolkit.mk c)
              (MultiVoiceInput.mk text (prop_of args "language") (prop_of args "speed"))).
    rewrite (get_prop_readable _ _ Hr). unfold lift.
    fold (@ret jsval (prop_of args "text")). rewrite bind_ret_l.
    unfold LangVoiceToolkit.multiVoiceSpeech.
    cbn [LangVoiceToolkit.client MultiVoiceInput.text MultiVoiceInput.language
           MultiVoiceInput.speed MultiVoiceOptions.text MultiVoiceOptions.language
           MultiVoiceOptions.speed].
    rewrite Hg. cbn. now rewrite app_nil_r.
  - intros key Hc. unfold handleOpenAIToolCall. rewrite Hc.
    unfold lift at 1. fold (@ret LangVoiceClient.t c). rewrite bind_ret_l.
    change (str_eqb TOOL_NAMES.MULTI_VOICE TOOL_NAMES.TTS) with false.
    change (str_eqb TOOL_NAMES.MULTI_VOICE TOOL_NAMES.MULTI_VOICE) with true. cbv iota.
    rewrite (get_prop_readable _ _ Hr). unfold lift.
    fold (@ret jsval (prop_of args "text")). rewrite bind_ret_l.
    rewrite Hg. cbn. now rewrite !app_nil_r.
  - intros file.
    exact (autogen_multi_shape P (LangVoiceAutoGenTools.mk c file false) args tr r Hr Hg).
  - intros k. unfold LangVoiceToolkit.getAudioBuffer.
    assert (Hs : get_prop (multi_success r) "success" = Return (JBool true))
      by (unfold multi_success; destruct (GenerateResponse.duration r); reflexivity).
    assert (Ha : prop_of (multi_success r) "audioBase64"
                 = JStr (GenerateResponse.toBase64 r))
      by (unfold multi_success; destruct (GenerateResponse.duration r); reflexivity).
    rewrite Hs, Ha.
    unfold truthy, GenerateResponse.toBase64, Buffer_from. rewrite base64_encode_empty.
    unfold audio_of. rewrite base64_roundtrip.
    destruct (GenerateResponse.audioData r); reflexivity.
Qed.

(** A dialogue for two voices, answered by the sample platform. *)
Lemma multi_voice_adapters_agree_witness :
  LangVoiceToolkit.handleToolCall (sample_platform sample_success true)
    (LangVoiceToolkit.mk sample_client) TOOL_NAMES.MULTI_VOICE
    (JObj [("text", JStr "[heart] Hello! [michael] Hi there!")])
  = ([EvFetch (post_of sample_client "/tts/multi-voice-text"
                 (JObj [("text", JStr "[heart] Hello! [michael] Hi there!");
                        ("language", JStr "american_english");
                        ("speed", JNum n1_0)])) 60000],
     Return (multi_success sample_generated)).
Proof.
  refine (proj1 (multi_voice_adapters_agree (sample_platform sample_success true)
                   sample_client
                   (JObj [("text", JStr "[heart] Hello! [michael] Hi there!")])
                   _ sample_generated _ _)).
  - split; discriminate.
  - vm_compute. reflexivity.
Defined.

(** ** Arguments that cannot be read *)

(** X25.  When the argument bag is [null] or [undefined], the two
    generating tools cannot read its text.  [handleToolCall] of the generic
    toolkit reads it before any [try] and rejects with the [TypeError] of
    the read; [handleOpenAIToolCall], the two handlers of the AutoGen
    adapter and the two generating tools of the LangChain adapter read it
    inside their [try] and return their failure carrying the message of
    that error.  Nothing is sent in either case. *)
Theorem nullish_arguments_are_not_read P c args :
  nullish args ->
  let message := error_text (cannot_read args "text") in
  LangVoiceToolkit.handleToolCall P (LangVoiceToolkit.mk c) TOOL_NAMES.TTS args
  = ([], Throw (cannot_read args "text"))
  /\ LangVoiceToolkit.handleToolCall P (LangVoiceToolkit.mk c) TOOL_NAMES.MULTI_VOICE args
     = ([], Throw (cannot_read args "text"))
  /\ (forall key,
        LangVoiceClient.new P (LangVoiceClientOptions.with_key key) = Return c ->
        handleOpenAIToolCall P TOOL_NAMES.TTS args key
        = ([], Return (JSON_stringify (failure message)))
        /\ handleOpenAIToolCall P TOOL_NAMES.MULTI_VOICE args key
           = ([], Return (JSON_stringify (failure message))))
  /\ (forall a,
        LangVoiceAutoGenTools.textToSpeechHandler P a args
        = ([], Return (JSON_stringify (failure message)))
        /\ LangVoiceAutoGenTools.multiVoiceHandler P a args
           = ([], Return (JSON_stringify (failure message))))
  /\ (forall tool,
        LangVoiceTTSTool.call P tool args
        = ([], Return (cross_mark ^^ " Error generating speech: " ^^ message)))
  /\ (forall tool,
        LangVoiceMultiVoiceTool.call P tool args
        = ([], Return (cross_mark ^^ " Error generating multi-voice speech: " ^^ message))).
Proof.
  intros Hn message. unfold message.
  split; [destruct Hn as [-> | ->]; reflexivity|].
  split; [destruct Hn as [-> | ->]; reflexivity|].
  split.
  { intros key Hc. unfold handleOpenAIToolCall. rewrite Hc.
    unfold lift at 1. unfold lift at 2. fold (@ret LangVoiceClient.t c).
    rewrite !bind_ret_l. destruct Hn as [-> | ->]; split; reflexivity. }
  split; [intros a; destruct Hn as [-> | ->]; split; reflexivity|].
  split; intros tool; destruct Hn as [-> | ->]; reflexivity.
Qed.

(** The arguments [null] given to the text-to-speech tool of the generic
    toolkit. *)
Lemma nullish_arguments_are_not_read_witness :
  LangVoiceToolkit.handleToolCall (sample_platform sample_success true)
    (LangVoiceToolkit.mk sample_client) TOOL_NAMES.TTS JNull
  = ([], Throw (TypeError "Cannot read properties of null (reading 'text')")).
Proof.
  exact (proj1 (nullish_arguments_are_not_read (sample_platform sample_success true)
                  sample_client JNull (or_introl eq_refl))).
Defined.

(** ** Calls of the AutoGen adapter by name *)

Lemma envelope_failure (message : string) : envelope (failure message).
Proof. exists false. reflexivity. Qed.

Lemma autogen_tts_envelope P a args :
  exists v,
    outcome (LangVoiceAutoGenTools.textToSpeechHandler P a args)
    = Return (JSON_stringify v) /\ envelope v.
Proof.
  unfold LangVoiceAutoGenTools.textToSpeechHandler.
  destruct (get_prop args "text") as [text|e].
  2:{ eexists. split; [reflexivity | apply envelope_failure]. }
  unfold lift. fold (@ret jsval text). rewrite bind_ret_l.
  destruct (LangVoiceClient.generate P _ _) as [tr [r|e]].
  2:{ eexists. split; [reflexivity | apply envelope_failure]. }
  destruct (LangVoiceAutoGenTools.autoSave a).
  - unfold bind at 1. cbv zeta.
    erewrite persist_shown by reflexivity.
    match goal with
    | |- context [persist P ?p ?d ?x ?y] =>
        destruct (persist_summary P p d x y) as (tr' & z & Hp & [-> | ->] & _)
    end; rewrite Hp; cbn; [destruct (js_ToString _)|];
      eexists; (split; [reflexivity|]); exists true; reflexivity.
  - cbn. eexists. split; [reflexivity|]. exists true. reflexivity.
Qed.

Lemma autogen_multi_envelope P a args :
  exists v,
    outcome (LangVoiceAutoGenTools.multiVoiceHandler P a args)
    = Return (JSON_stringify v) /\ envelope v.
Proof.
  unfold LangVoiceAutoGenTools.multiVoiceHandler.
  destruct (get_prop args "text") as [text|e].
  2:{ eexists. split; [reflexivity | apply envelope_failure]. }
  unfold lift. fold (@ret jsval text). rewrite bind_ret_l.
  destruct (LangVoiceClient.generateMultiVoice P _ _) as [tr [r|e]].
  2:{ eexists. split; [reflexivity | apply envelope_failure]. }
  destruct (LangVoiceAutoGenTools.autoSave a).
  - unfold bind at 1. cbv zeta.
    erewrite persist_shown by reflexivity.
    match goal with
    | |- context [persist P ?p ?d ?x ?y] =>
        destruct (persist_summary P p d x y) as (tr' & z & Hp & [-> | ->] & _)
    end; rewrite Hp; cbn; [destruct (js_ToString _)|];
      eexists; (split; [reflexivity|]); exists true; reflexivity.
  - cbn. eexists. split; [reflexivity|]. exists true. reflexivity.
Qed.

Lemma autogen_voices_envelope P a :
  exists v,
    outcome (LangVoiceAutoGenTools.listVoicesHandler P a) = Return (JSON_stringify v)
    /\ envelope v.
Proof.
  unfold LangVoiceAutoGenTools.listVoicesHandler.
  destruct (LangVoiceClient.listVoices P _) as [tr [voices|e]].
  - eexists. split; [reflexivity|]. exists true. reflexivity.
  - eexists. split; [reflexivity | apply envelope_failure].
Qed.

Lemma autogen_languages_envelope P a :
  exists v,
    outcome (LangVoiceAutoGenTools.listLanguagesHandler P a) = Return (JSON_stringify v)
    /\ envelope v.
Proof.
  unfold LangVoiceAutoGenTools.listLanguagesHandler.
  destruct (LangVoiceClient.listLanguages P _) as [tr [languages|e]].
  - eexists. split; [reflexivity|]. exists true. reflexivity.
  - eexists. split; [reflexivity | apply envelope_failure].
Qed.

Lemma outcome_bind_ret {A B} (m : Run A) (f : A -> B) (a : A) :
  outcome m = Return a -> outcome (x <- m ;; ret (f x)) = Return (f a).
Proof. destruct m as [tr [x|e]]; cbn; [intros [= ->]; reflexivity | discriminate]. Qed.

(** X26.  [handleFunctionCall] of the AutoGen adapter, given one of the
    four tool names and arguments that are an object (or [null]), or a
    string that [JSON.parse] accepts, calls the handler of that name on
    the arguments (parsed, when they came as a string) and returns its
    JSON text; the two listing handlers take no argument.  Such a call
    never rejects, and the text it returns is that of an envelope whose
    [success] is a boolean.  A string that parses to a value that is not a
    string is handled as that value. *)
Theorem autogen_call_reaches_the_handler P a :
  (forall args parsed,
     LangVoiceAutoGenTools.read_arguments P args = Return parsed ->
     LangVoiceAutoGenTools.handleFunctionCall P a
       (AutoGenFunctionCall.mk TOOL_NAMES.TTS args)
     = (r <- LangVoiceAutoGenTools.textToSpeechHandler P a parsed ;; ret (ReplyJson r))
     /\ LangVoiceAutoGenTools.handleFunctionCall P a
          (AutoGenFunctionCall.mk TOOL_NAMES.MULTI_VOICE args)
        = (r <- LangVoiceAutoGenTools.multiVoiceHandler P a parsed ;; ret (ReplyJson r))
     /\ LangVoiceAutoGenTools.handleFunctionCall P a
          (AutoGenFunctionCall.mk TOOL_NAMES.LIST_VOICES args)
        = (r <- LangVoiceAutoGenTools.listVoicesHandler P a ;; ret (ReplyJson r))
     /\ LangVoiceAutoGenTools.handleFunctionCall P a
          (AutoGenFunctionCall.mk TOOL_NAMES.LIST_LANGUAGES args)
        = (r <- LangVoiceAutoGenTools.listLanguagesHandler P a ;; ret (ReplyJson r)))
  /\ (forall name args parsed,
        known name ->
        LangVoiceAutoGenTools.read_arguments P args = Return parsed ->
        exists v,
          outcome (LangVoiceAutoGenTools.handleFunctionCall P a
                     (AutoGenFunctionCall.mk name args))
          = Return (ReplyJson (JSON_stringify v))
          /\ envelope v)
  /\ (forall v, (forall t, v <> JStr t) ->
                LangVoiceAutoGenTools.read_arguments P v = Return v)
  /\ (forall name s v,
        JSON_parse P s = Return v -> (forall t, v <> JStr t) ->
        LangVoiceAutoGenTools.handleFunctionCall P a (AutoGenFunctionCall.mk name (JStr s))
        = LangVoiceAutoGenTools.handleFunctionCall P a (AutoGenFunctionCall.mk name v)).
Proof.
  assert (Hcall : forall args parsed,
     LangVoiceAutoGenTools.read_arguments P args = Return parsed ->
     LangVoiceAutoGenTools.handleFunctionCall P a
       (AutoGenFunctionCall.mk TOOL_NAMES.TTS args)
     = (r <- LangVoiceAutoGenTools.textToSpeechHandler P a parsed ;; ret (ReplyJson r))
     /\ LangVoiceAutoGenTools.handleFunctionCall P a
          (AutoGenFunctionCall.mk TOOL_NAMES.MULTI_VOICE args)
        = (r <- LangVoiceAutoGenTools.multiVoiceHandler P a parsed ;; ret (ReplyJson r))
     /\ LangVoiceAutoGenTools.handleFunctionCall P a
          (AutoGenFunctionCall.mk TOOL_NAMES.LIST_VOICES args)
        = (r <- LangVoiceAutoGenTools.listVoicesHandler P a ;; ret (ReplyJson r))
     /\ LangVoiceAutoGenTools.handleFunctionCall P a
          (AutoGenFunctionCall.mk TOOL_NAMES.LIST_LANGUAGES args)
        = (r <- LangVoiceAutoGenTools.listLanguagesHandler P a ;; ret (ReplyJson r))).
  { intros args parsed Hp. unfold LangVoiceAutoGenTools.handleFunctionCall.
    cbn [AutoGenFunctionCall.arguments AutoGenFunctionCall.name]. rewrite Hp.
    unfold lift. fold (@ret jsval parsed). rewrite !bind_ret_l.
    rewrite functionMap_TTS, functionMap_MULTI_VOICE, functionMap_LIST_VOICES,
      functionMap_LIST_LANGUAGES. repeat split. }
  assert (Hread : forall v, (forall t, v <> JStr t) ->
                            LangVoiceAutoGenTools.read_arguments P v = Return v).
  { intros v Hv. destruct v; try reflexivity. now destruct (Hv s). }
  split; [exact Hcall|]. split; [|split; [exact Hread|]].
  - intros name args parsed Hk Hp.
    destruct (Hcall args parsed Hp) as (H1 & H2 & H3 & H4).
    apply known_cases in Hk. destruct Hk as [-> | [-> | [-> | ->]]].
    + rewrite H1. destruct (autogen_tts_envelope P a parsed) as (v & Hv & He).
      exists v. split; [|exact He]. now apply outcome_bind_ret.
    + rewrite H2. destruct (autogen_multi_envelope P a parsed) as (v & Hv & He).
      exists v. split; [|exact He]. now apply outcome_bind_ret.
    + rewrite H3. destruct (autogen_voices_envelope P a) as (v & Hv & He).
      exists v. split; [|exact He]. now apply outcome_bind_ret.
    + rewrite H4. destruct (autogen_languages_envelope P a) as (v & Hv & He).
      exists v. split; [|exact He]. now apply outcome_bind_ret.
  - intros name s v Hp Hv. unfold LangVoiceAutoGenTools.handleFunctionCall.
    cbn [AutoGenFunctionCall.arguments AutoGenFunctionCall.name].
    rewrite (Hread v Hv). cbn [LangVoiceAutoGenTools.read_arguments]. now rewrite Hp.
Qed.

(** The text-to-speech function called with the arguments [null]: the
    failure of the handler, as JSON text. *)
Lemma autogen_call_reaches_the_handler_witness :
  LangVoiceAutoGenTools.handleFunctionCall (sample_platform sample_success true)
    sample_autogen (AutoGenFunctionCall.mk TOOL_NAMES.TTS JNull)
  = (r <- LangVoiceAutoGenTools.textToSpeechHandler (sample_platform sample_success true)
            sample_autogen JNull ;;
     ret (ReplyJson r)).
Proof.
  exact (proj1 (proj1 (autogen_call_reaches_the_handler
                         (sample_platform sample_success true) sample_autogen)
                  JNull JNull eq_refl)).
Defined.

(** ** What the request methods rethrow *)

Lemma on_request_error_rethrown {A} (e : thrown) :
  @LangVoiceClient.on_request_error A e = throw (rethrown e).
Proof.
  destruct e as [x|v]; [|reflexivity]. cbn.
  now destruct (str_eqb (err_name x) "AbortError").
Qed.

(** X27.  [request] and [requestBinary] tell what they caught by its name
    alone.  Whatever [fetch] rejects with in time, and whatever reading the
    body of a 2xx response rejects with, is rethrown as it is, be it an
    error or any other value, unless it is an error named [AbortError],
    which is rethrown as the API error [Request timeout] with status 408,
    whatever its class and message. *)
Theorem rejections_are_told_by_name P c method endpoint :
  (forall body e,
     latency (fetch P (LangVoiceClient.binary_request c method endpoint body))
     <= timer_delay (LangVoiceClient.timeout c) ->
     settles (fetch P (LangVoiceClient.binary_request c method endpoint body)) = Throw e ->
     outcome (LangVoiceClient.requestBinary P c method endpoint body)
     = Throw (rethrown e))
  /\ (forall body e,
        latency (fetch P (LangVoiceClient.json_request c method endpoint body))
        <= timer_delay (LangVoiceClient.timeout c) ->
        settles (fetch P (LangVoiceClient.json_request c method endpoint body)) = Throw e ->
        outcome (LangVoiceClient.request P c method endpoint body)
        = Throw (rethrown e))
  /\ (forall body resp e,
        answered P c (LangVoiceClient.binary_request c method endpoint body) resp ->
        ok resp = true -> arrayBuffer resp = Throw e ->
        outcome (LangVoiceClient.requestBinary P c method endpoint body)
        = Throw (rethrown e))
  /\ (forall body resp e,
        answered P c (LangVoiceClient.json_request c method endpoint body) resp ->
        ok resp = true -> json resp = Throw e ->
        outcome (LangVoiceClient.request P c method endpoint body)
        = Throw (rethrown e))
  /\ (forall cls message code,
        rethrown (ThrowErr (mkError cls "AbortError" message code))
        = APIError "Request timeout" (Some 408))
  /\ (forall e, err_name e <> "AbortError" -> rethrown (ThrowErr e) = ThrowErr e)
  /\ (forall v, rethrown (ThrowVal v) = ThrowVal v).
Proof.
  split; [|split; [|split; [|split; [|split; [|split]]]]].
  - intros body e Hl Hs. unfold LangVoiceClient.requestBinary.
    rewrite (fetch_rejected _ _ _ _ Hl Hs). cbn.
    rewrite on_request_error_rethrown. reflexivity.
  - intros body e Hl Hs. unfold LangVoiceClient.request.
    rewrite (fetch_rejected _ _ _ _ Hl Hs). cbn.
    rewrite on_request_error_rethrown. reflexivity.
  - intros body resp e Ha Hok Hb. unfold LangVoiceClient.requestBinary.
    rewrite (fetch_answered _ _ _ _ Ha). unfold bind at 1.
    unfold LangVoiceClient.handleResponseErrors. rewrite Hok, Hb. cbn.
    rewrite on_request_error_rethrown. reflexivity.
  - intros body resp e Ha Hok Hb. unfold LangVoiceClient.request.
    rewrite (fetch_answered _ _ _ _ Ha). unfold bind at 1.
    unfold LangVoiceClient.handleResponseErrors. rewrite Hok, Hb. cbn.
    rewrite on_request_error_rethrown. reflexivity.
  - reflexivity.
  - intros e Hn. unfold rethrown.
    destruct (str_eqb (err_name e) "AbortError") eqn:E; [|reflexivity].
    apply String.eqb_eq in E. contradiction.
  - reflexivity.
Qed.

Lemma rejections_are_told_by_name_witness :
  outcome (LangVoiceClient.request (sample_platform sample_page true)
             sample_client "GET" "/tts/voices" None)
  = Throw (SyntaxError "Unexpected token < in JSON at position 0").
Proof.
  refine (proj1 (proj2 (proj2 (proj2
            (rejections_are_told_by_name (sample_platform sample_page true)
               sample_client "GET" "/tts/voices"))))
            None _ (SyntaxError "Unexpected token < in JSON at position 0")
            _ _ _).
  - split; [reflexivity | vm_compute; discriminate].
  - reflexivity.
  - reflexivity.
Defined.
